(** * Search-term reporting and classification scripts: a shallow embedding

    The development follows four scripts of the repository:

    - [scripts/search-term.js]: [calculateMetrics], the per-row metric
      arithmetic of the search-term report, and what the two versions of
      [main] write to the sheet;
    - [scripts/v2/classify-with-3-models.js]: the classification run
      ([main], [readAndValidateSettings], [getAPIKey], [classifyTerms],
      [classifyTerm], [validateResponse], [updateTokenCounts],
      [outputResults], [logCosts], [handleError]);
    - the older three-model script, where it differs from the second: its
      table, endpoints, provider dispatch and token accounting;
    - [scripts/google-ads-search-term-classifier.js]: [generateTextOpenAI],
      [classifySearchTerms], [parseOpenAIResponse] and the counts of
      [createSummaryReport].

    JavaScript numbers are IEEE 754 binary64 values, modelled by the
    Standard Library's [spec_float] at precision 53 and maximal exponent 1024.
    JavaScript objects are finite maps from property names to values. *)

From Stdlib Require Import ZArith String Ascii List Bool Lia.
From Stdlib Require Import Floats.SpecFloat Floats.PrimFloat Floats.FloatOps.
From stdpp Require Import gmap strings pretty.

Set Warnings "-register-all,-inexact-float".
Local Open Scope Z_scope.

(* ===================================================================== *)
(** ** JavaScript numbers *)
(* ===================================================================== *)

Module JsNum.

Abbreviation num := spec_float.

Definition prec : Z := 53.
Definition emax : Z := 1024.

Definition NaN : num := S754_nan.
Definition Infinity : num := S754_infinity false.
Definition zero : num := S754_zero false.

(** A decimal literal of the source, rounded to binary64 as the JavaScript
    parser rounds it. *)
Definition lit (f : float) : num := Prim2SF f.

(** An integer-valued number. *)
Definition of_Z (z : Z) : num := binary_normalize prec emax z 0 false.

Definition add (x y : num) : num := SFadd prec emax x y.
Definition mul (x y : num) : num := SFmul prec emax x y.
Definition div (x y : num) : num := SFdiv prec emax x y.

(** [x < y], [x > y], [x <= y] of JavaScript: false when either is NaN. *)
Definition lt (x y : num) : bool := SFltb x y.
Definition gt (x y : num) : bool := SFltb y x.
Definition le (x y : num) : bool := SFleb x y.

Definition is_nan (x : num) : bool :=
  match x with S754_nan => true | _ => false end.

Definition is_infinite (x : num) : bool :=
  match x with S754_infinity _ => true | _ => false end.

(** [Number.isFinite]. *)
Definition is_finite (x : num) : bool :=
  match x with S754_zero _ | S754_finite _ _ _ => true | _ => false end.

(** ToBoolean on a number: [0], [-0] and [NaN] are falsy. *)
Definition truthy (x : num) : bool :=
  match x with S754_zero _ | S754_nan => false | _ => true end.

(** [x || 0] on numbers. *)
Definition or_zero (x : num) : num := if truthy x then x else zero.

(** The literals [1000000] and [1000]. *)
Definition million : num := Eval vm_compute in lit 1000000.
Definition thousand : num := Eval vm_compute in lit 1000.

End JsNum.

Import JsNum.

(* ===================================================================== *)
(** ** JavaScript values and errors *)
(* ===================================================================== *)

Inductive JsValue : Type :=
| JUndefined
| JNull
| JBool (b : bool)
| JNum (x : num)
| JStr (s : string)
| JArr (items : list JsValue)
| JObj (fields : gmap string JsValue).

(** The errors the scripts throw and the built-ins raise are all [Error]
    objects; [HostException] is the exception class of the Apps Script
    services ([UrlFetchApp], [SpreadsheetApp]). *)
Inductive ErrorClass := ClsError | ClsTypeError | ClsSyntaxError | ClsHostException.

Record JsError := mkError { err_class : ErrorClass; err_message : string }.

Definition class_name (c : ErrorClass) : string :=
  match c with
  | ClsError => "Error"
  | ClsTypeError => "TypeError"
  | ClsSyntaxError => "SyntaxError"
  | ClsHostException => "Exception"
  end.

(** [Error.prototype.toString]: the name, then [": "] and the message unless
    the message is empty (a class name is never empty). *)
Definition Error_toString (e : JsError) : string :=
  if String.eqb (err_message e) EmptyString then class_name (err_class e)
  else class_name (err_class e) +:+ ": " +:+ err_message e.

(** [new Error(msg)]. *)
Definition new_Error (msg : string) : JsError := mkError ClsError msg.

(** The outcome of an expression that may throw. *)
Abbreviation Thrown A := (JsError + A)%type.
Abbreviation Throw e := (inl e) (only parsing).
Abbreviation Return a := (inr a) (only parsing).

Definition bindT {A B} (x : Thrown A) (k : A -> Thrown B) : Thrown B :=
  match x with
  | inl e => inl e
  | inr a => k a
  end.

Notation "'try!' x <- c1 ; c2" := (bindT c1 (fun x => c2))
  (at level 10, x name, c1 at level 100, c2 at level 200).

Module Js.

(** ToBoolean. *)
Definition truthy (v : JsValue) : bool :=
  match v with
  | JUndefined | JNull => false
  | JBool b => b
  | JNum x => JsNum.truthy x
  | JStr s => negb (String.eqb s EmptyString)
  | JArr _ | JObj _ => true
  end.

(** [a || b]. *)
Definition or (a b : JsValue) : JsValue := if truthy a then a else b.

(** [typeof v === 'number']. *)
Definition is_number (v : JsValue) : bool :=
  match v with JNum _ => true | _ => false end.

(** [o[k]] on an object already known to be one: an absent property reads
    as [undefined]. *)
Definition field (o : gmap string JsValue) (k : string) : JsValue :=
  default JUndefined (o !! k).

(** [v.k] for a name [k]: a TypeError on [undefined] and [null], the
    property on an object, [undefined] on the other values (their inherited
    properties, such as [length], are not read by the scripts). *)
Definition get (v : JsValue) (k : string) : Thrown JsValue :=
  match v with
  | JUndefined =>
      Throw (mkError ClsTypeError
               ("Cannot read properties of undefined (reading '" +:+ k +:+ "')"))
  | JNull =>
      Throw (mkError ClsTypeError
               ("Cannot read properties of null (reading '" +:+ k +:+ "')"))
  | JObj o => Return (field o k)
  | _ => Return JUndefined
  end.

(** [v[0]]: the first element of an array, the first character of a string,
    the property ["0"] of an object, with the same TypeError as [get]. *)
Definition first (v : JsValue) : Thrown JsValue :=
  match v with
  | JArr items => Return (nth 0 items JUndefined)
  | JStr (String c _) => Return (JStr (String c EmptyString))
  | _ => get v "0"
  end.

(** [list.includes(v)] for a list of string literals (SameValueZero: only
    an equal string is included). *)
Definition includes (l : list string) (v : JsValue) : bool :=
  match v with
  | JStr s => existsb (String.eqb s) l
  | _ => false
  end.

(** [s.includes(needle)] on strings. *)
Fixpoint str_includes (needle s : string) : bool :=
  if String.prefix needle s then true
  else match s with
       | EmptyString => false
       | String _ rest => str_includes needle rest
       end.

(** [list.join(sep)] on strings. *)
Fixpoint join (sep : string) (l : list string) : string :=
  match l with
  | [] => EmptyString
  | [x] => x
  | x :: rest => x +:+ sep +:+ join sep rest
  end.

End Js.

(* ===================================================================== *)
(** ** [scripts/search-term.js]: calculateMetrics and main *)
(* ===================================================================== *)

Module SearchTermReport.

(** One row of the report iterator.  The three dimensions are copied as
    they are.  For each metric the record holds the number the built-in
    parser returns on the row's field: [parseInt(row['metrics.clicks'], 10)]
    and so on, which is [NaN] when the field is missing or is not numeric
    text. *)
Record ReportRow := {
  search_term : JsValue;            (* row['search_term_view.search_term'] *)
  campaign_name : JsValue;          (* row['campaign.name'] *)
  ad_group_name : JsValue;          (* row['ad_group.name'] *)
  parsed_impressions : num;         (* parseInt(row['metrics.impressions'], 10) *)
  parsed_clicks : num;              (* parseInt(row['metrics.clicks'], 10) *)
  parsed_cost_micros : num;         (* parseInt(row['metrics.cost_micros'], 10) *)
  parsed_conversions : num;         (* parseFloat(row['metrics.conversions']) *)
  parsed_conversions_value : num;   (* parseFloat(row['metrics.conversions_value']) *)
}.

(** The local constants of one loop iteration. *)
Record Metrics := {
  impressions : num;
  clicks : num;
  cost : num;
  conversions : num;
  conversionValue : num;
  cpc : num;
  ctr : num;
  convRate : num;
  cpa : num;
  roas : num;
  aov : num;
}.

Definition metricsOf (row : ReportRow) : Metrics :=
  let impressions := or_zero (parsed_impressions row) in
  let clicks := or_zero (parsed_clicks row) in
  let costMicros := or_zero (parsed_cost_micros row) in
  let conversions := or_zero (parsed_conversions row) in
  let conversionValue := or_zero (parsed_conversions_value row) in
  let cost := div costMicros million in
  let cpc := if gt clicks zero then div cost clicks else zero in
  let ctr := if gt impressions zero then div clicks impressions else zero in
  let convRate := if gt clicks zero then div conversions clicks else zero in
  let cpa := if gt conversions zero then div cost conversions else zero in
  let roas := if gt cost zero then div conversionValue cost else zero in
  let aov := if gt conversions zero then div conversionValue conversions else zero in
  {| impressions := impressions; clicks := clicks; cost := cost;
     conversions := conversions; conversionValue := conversionValue;
     cpc := cpc; ctr := ctr; convRate := convRate; cpa := cpa;
     roas := roas; aov := aov |}.

(** [newRow]: the fourteen cells pushed for one report row. *)
Definition newRow (row : ReportRow) : list JsValue :=
  let m := metricsOf row in
  [search_term row; campaign_name row; ad_group_name row;
   JNum (impressions m); JNum (clicks m); JNum (cost m);
   JNum (conversions m); JNum (conversionValue m);
   JNum (cpc m); JNum (ctr m); JNum (convRate m); JNum (cpa m);
   JNum (roas m); JNum (aov m)].

(** The [while (rows.hasNext())] loop over the report iterator, given as
    the list of rows it yields. *)
Definition calculateMetrics (rows : list ReportRow) : list (list JsValue) :=
  map newRow rows.

(** The six derived ratios of a row. *)
Definition ratios (m : Metrics) : list num :=
  [cpc m; ctr m; convRate m; cpa m; roas m; aov m].

(** The five parsed metric fields of a row. *)
Definition parsed_fields (row : ReportRow) : list num :=
  [parsed_impressions row; parsed_clicks row; parsed_cost_micros row;
   parsed_conversions row; parsed_conversions_value row].

(** Sample rows.  [sample_row i c m v w] has the metric texts parse to
    [i], [c], [m], [v] and [w]. *)
Definition sample_row (i c m v w : num) : ReportRow :=
  {| search_term := JStr "running shoes";
     campaign_name := JStr "Brand";
     ad_group_name := JStr "Shoes";
     parsed_impressions := i; parsed_clicks := c; parsed_cost_micros := m;
     parsed_conversions := v; parsed_conversions_value := w |}.

(** 40 impressions, 4 clicks, 2,500,000 micros, 2 conversions worth 10. *)
Definition row_plain : ReportRow :=
  sample_row (of_Z 40) (of_Z 4) (of_Z 2500000) (of_Z 2) (of_Z 10).

(** No impressions, clicks or conversions; the cost text is missing. *)
Definition row_idle : ReportRow :=
  sample_row (of_Z 0) (of_Z 0) NaN (of_Z 0) (of_Z 0).

(** Finite fields whose quotient overflows: conversions ["0.5"], conversion
    value ["1.7e308"]. *)
Definition row_overflow : ReportRow :=
  sample_row (of_Z 40) (of_Z 4) (of_Z 2500000) (lit 0.5) (lit 1.7e308).

(** Both conversion fields hold the text ["Infinity"], which [parseFloat]
    reads as the number [Infinity]. *)
Definition row_infinite : ReportRow :=
  sample_row (of_Z 40) (of_Z 4) (of_Z 2500000) Infinity Infinity.

(** *** main *)

(** What [main] leaves in its tab and the line it logs last. *)
Inductive Logged :=
| Wrote (n : nat)            (* "Successfully wrote n rows to the sheet." *)
| NoData                     (* "No data found for the specified criteria." *)
| MainError (e : JsError).   (* "Error in main function: ..." *)

(** [sheet.getRange(row, 1, numRows, numColumns).setValues(values)] on a
    tab that has nothing at or below [row]: the service throws unless the
    range has at least one row and one column and [values] has [numRows]
    rows of [numColumns] cells each. *)
Definition setValues (row numRows numColumns : nat)
    (values : list (list JsValue)) (cells : list (list JsValue))
  : Thrown (list (list JsValue)) :=
  if (1 <=? numRows)%nat && (1 <=? numColumns)%nat
     && (length values =? numRows)%nat
     && forallb (fun r => (length r =? numColumns)%nat) values
  then Return (firstn (row - 1) cells
               ++ repeat [] (row - 1 - length cells) ++ values)
  else Throw (mkError ClsHostException
                "The data does not match the dimensions of the range.").

(** [data[0].length]; reading [length] of [undefined] is a TypeError, which
    the guard [data.length > 0] excludes. *)
Definition firstRowLength (data : list (list JsValue)) : nat :=
  match data with
  | [] => 0
  | r :: _ => length r
  end.

(** The first script of the file.  [report] is what [AdsApp.report(QUERY)]
    gives: the rows of the report, or an exception.  The tab is new or was
    cleared: it starts empty. *)
Module First.

Definition TAB : string := "Search_Terms".

Definition headers : list JsValue :=
  [JStr "Search Term"; JStr "Campaign"; JStr "Ad Group"; JStr "Impressions";
   JStr "Clicks"; JStr "Cost"; JStr "Conversions"; JStr "Conversion Value";
   JStr "CPC"; JStr "CTR"; JStr "Conv. Rate"; JStr "CPA"; JStr "ROAS"; JStr "AOV"].

Definition main (report : Thrown (list ReportRow))
  : list (list JsValue) * Logged :=
  match setValues 1 1 (length headers) [headers] [] with
  | inl e => ([], MainError e)
  | inr sheet =>
      match report with
      | inl e => (sheet, MainError e)
      | inr rows =>
          let data := calculateMetrics rows in
          if (0 <? length data)%nat
          then match setValues 2 (length data) (firstRowLength data) data sheet with
               | inl e => (sheet, MainError e)
               | inr sheet' => (sheet', Wrote (length data))
               end
          else (sheet, NoData)
      end
  end.

End First.

(** The second script of the file: the headers are written together with
    the data. *)
Module Second.

Definition TAB : string := "SearchTerms".

Definition headers : list JsValue :=
  [JStr "Search Term"; JStr "Campaign"; JStr "Ad Group"; JStr "Impressions";
   JStr "Clicks"; JStr "Cost"; JStr "Conversions"; JStr "Conv Value";
   JStr "CPC"; JStr "CTR"; JStr "Conv Rate"; JStr "CPA"; JStr "ROAS"; JStr "AOV"].

Definition main (report : Thrown (list ReportRow))
  : list (list JsValue) * Logged :=
  match report with
  | inl e => ([], MainError e)
  | inr rows =>
      let data := calculateMetrics rows in
      if (0 <? length data)%nat
      then let allData := headers :: data in
           match setValues 1 (length allData) (firstRowLength allData) allData [] with
           | inl e => ([], MainError e)
           | inr sheet => (sheet, Wrote (length data))
           end
      else ([], NoData)
  end.

End Second.

End SearchTermReport.

(* ===================================================================== *)
(** ** The host environment *)
(* ===================================================================== *)

(** What the scripts take from the JavaScript engine and from the Apps
    Script services, as parameters of the embedding. *)

Record HttpRequest := {
  url : string;
  method : string;
  headers : gmap string string;
  contentType : string;
  muteHttpExceptions : bool;
  (** The object handed to [JSON.stringify] for the request body. *)
  payload : JsValue;
}.

(** [getResponseCode()] and [getContentText()] of a reply. *)
Record HttpResponse := { code : Z; body : string }.

(** One call of [UrlFetchApp.fetch]: the milliseconds it blocks, then a reply
    or a thrown exception (with [muteHttpExceptions] a reply of any status is
    returned, and only transport failures throw). *)
Record Fetched := { blocked : Z; reply : Thrown HttpResponse }.

Class Host := {
  (** [JSON.parse]. *)
  JSON_parse : string -> Thrown JsValue;
  (** ToString of a number, as in a template literal. *)
  Number_toString : num -> string;
  (** [new Date(ms).toISOString()]. *)
  Date_toISOString : Z -> string;
  (** The network: the reply to the [n]-th request of the run, which may
      depend on the request. *)
  UrlFetchApp_fetch : nat -> HttpRequest -> Fetched;
}.

(** ToString, as applied to the holes of the template literals. *)
Fixpoint ToString `{Host} (v : JsValue) : string :=
  match v with
  | JUndefined => "undefined"
  | JNull => "null"
  | JBool true => "true"
  | JBool false => "false"
  | JNum x => Number_toString x
  | JStr s => s
  | JArr items =>
      Js.join ","
        (map (fun i => match i with
                       | JUndefined | JNull => EmptyString
                       | _ => ToString i
                       end) items)
  | JObj _ => "[object Object]"
  end.

(** [text.match(/\{[\s\S]*\}/)]: from the first opening brace to the last
    closing brace after it, or no match. *)
Module JsonMatch.

(** The suffix that starts at the first ["{"]. *)
Fixpoint from_open (s : string) : option string :=
  match s with
  | EmptyString => None
  | String c rest =>
      if Ascii.eqb c "{" then Some s else from_open rest
  end.

(** The longest prefix that ends with ["}"]. *)
Fixpoint to_last_close (s : string) : option string :=
  match s with
  | EmptyString => None
  | String c rest =>
      match to_last_close rest with
      | Some p => Some (String c p)
      | None => if Ascii.eqb c "}" then Some (String c EmptyString) else None
      end
  end.

Definition jsonMatch (text : string) : option string :=
  match from_open text with
  | Some (String c rest) => option_map (String c) (to_last_close rest)
  | _ => None
  end.

End JsonMatch.

(* ===================================================================== *)
(** ** [scripts/v2/classify-with-3-models.js] *)
(* ===================================================================== *)

Module Classifier.

Definition Term := string.

Definition CATEGORIES : list string :=
  ["INFORMATIONAL"; "NAVIGATIONAL"; "COMMERCIAL"; "LOCAL"; "QUESTION"].

Definition MAX_RETRIES : Z := 3.

(** *** The model table *)

(** Prices per million tokens. *)
Record Costs := { input : num; output : num }.

Record ModelEntry := {
  standard : string;
  cheap : string;
  costs_standard : Costs;
  costs_cheap : Costs;
}.

Definition price (i o : float) : Costs := {| input := lit i; output := lit o |}.

Definition MODELS : gmap string ModelEntry :=
  list_to_map
    [("openai",
      {| standard := "gpt-4-1106-preview"; cheap := "o4-mini-2025-04-16";
         costs_standard := price 2.0 8.0; costs_cheap := price 1.10 4.40 |});
     ("anthropic",
      {| standard := "claude-3-7-sonnet-latest"; cheap := "claude-3-5-haiku-latest";
         costs_standard := price 3.0 15.0; costs_cheap := price 0.8 4.0 |});
     ("gemini",
      {| standard := "gemini-2.5-pro-preview-03-25"; cheap := "gemini-2.0-flash";
         costs_standard := price 1.25 10.0; costs_cheap := price 0.15 0.6 |})].

(** The names every object literal inherits from [Object.prototype]:
    [MODELS[k]] is a truthy value for them although the table has no such
    entry. *)
Definition Object_prototype_names : list string :=
  ["constructor"; "__proto__"; "hasOwnProperty"; "isPrototypeOf";
   "propertyIsEnumerable"; "toLocaleString"; "toString"; "valueOf";
   "__defineGetter__"; "__defineSetter__"; "__lookupGetter__";
   "__lookupSetter__"].

(** The value of [MODELS[k]]. *)
Inductive Looked :=
| Entry (e : ModelEntry)   (* an entry of the table *)
| Inherited                (* a method or object of Object.prototype *)
| Absent.                  (* undefined *)

Definition MODELS_at (k : string) : Looked :=
  match MODELS !! k with
  | Some e => Entry e
  | None => if existsb (String.eqb k) Object_prototype_names
            then Inherited else Absent
  end.

Definition TypeError_reading (of_what prop : string) : JsError :=
  mkError ClsTypeError
    ("Cannot read properties of " +:+ of_what +:+ " (reading '" +:+ prop +:+ "')").

(** *** Settings *)

Record Settings := { model : string; cheap_flag : bool; topTerms : list Term }.

(** [readAndValidateSettings], from the value of the object literal that
    reads the three named ranges: the lower-cased [model] cell, whether the
    [cheap] cell spells ["true"], and the non-blank cells of [topTerms], in
    sheet order. *)
Definition readAndValidateSettings (read : Settings) : Thrown Settings :=
  let settings :=
    if String.eqb (model read) "google"
    then {| model := "gemini"; cheap_flag := cheap_flag read;
            topTerms := topTerms read |}
    else read in
  match MODELS_at (model settings) with
  | Absent => Throw (new_Error "Invalid model")
  | _ =>
      if (length (topTerms settings) =? 0)%nat
      then Throw (new_Error "No search terms found")
      else Return settings
  end.

(** [getAPIKey], over the named ranges that hold keys (a range that does
    not exist is absent from the map; an empty cell is the empty string). *)
Definition getAPIKey (ranges : gmap string string) (model : string)
  : Thrown string :=
  let mikeKey := ranges !! ("mike_key_" +:+ model) in
  let regularKey := ranges !! ("key_" +:+ model) in
  let key :=
    match mikeKey with
    | Some k => if String.eqb k EmptyString then regularKey else mikeKey
    | None => regularKey
    end in
  match key with
  | Some k => if String.eqb k EmptyString
              then Throw (new_Error ("No API key found for " +:+ model))
              else Return k
  | None => Throw (new_Error ("No API key found for " +:+ model))
  end.

(** [settings.cheap ? MODELS[settings.model].cheap
                    : MODELS[settings.model].standard]. *)
Definition modelVersionOf (settings : Settings) : Thrown JsValue :=
  match MODELS_at (model settings) with
  | Entry e => Return (JStr (if cheap_flag settings then cheap e else standard e))
  | Inherited => Return JUndefined
  | Absent =>
      Throw (TypeError_reading "undefined"
               (if cheap_flag settings then "cheap" else "standard"))
  end.

(** *** validateResponse *)

Definition half : num := Eval vm_compute in lit 0.5.
Definition one : num := Eval vm_compute in lit 1.

(** [typeof c !== 'number' || c < 0 || c > 1]. *)
Definition confidence_rejected (c : JsValue) : bool :=
  match c with
  | JNum x => lt x zero || gt x one
  | _ => true
  end.

(** Membership in the closed interval from 0 to 1. *)
Definition in_unit_interval (x : num) : bool := le zero x && le x one.

(** [!category || !CATEGORIES.includes(category)]. *)
Definition category_rejected (category : JsValue) : bool :=
  negb (Js.truthy category) || negb (Js.includes CATEGORIES category).

Definition validateResponse `{Host} (result : JsValue)
  : Thrown (gmap string JsValue) :=
  match result with
  | JObj o =>
      let category := Js.field o "category" in
      if category_rejected category
      then Throw (new_Error ("Invalid category: " +:+ ToString category))
      else if confidence_rejected (Js.field o "confidence")
           then Return (<["confidence" := JNum half]> o)
           else Return o
  | JUndefined => Throw (TypeError_reading "undefined" "category")
  | JNull => Throw (TypeError_reading "null" "category")
  | _ =>
      (* [result.category] is undefined on a primitive or an array *)
      Throw (new_Error ("Invalid category: " +:+ ToString JUndefined))
  end.

(** *** Token accounting *)

Record TokenCounts := { tokens_in : num; tokens_out : num }.

(** [let tokenCounts = { input: 0, output: 0 }], evaluated when the script
    is loaded for a run. *)
Definition tokenCounts_initial : TokenCounts :=
  {| tokens_in := zero; tokens_out := zero |}.

(** The [usage] object built by [extractResponse].  A count is a number or
    is absent ([undefined]); a reply whose count has another type is read
    as absent. *)
Record Usage := { inputTokens : option num; outputTokens : option num }.

(** [count || 0]. *)
Definition count_or_zero (c : option num) : num :=
  match c with
  | Some x => or_zero x
  | None => zero
  end.

(** [updateTokenCounts(usage)]; [None] is a falsy [usage]. *)
Definition updateTokenCounts (tc : TokenCounts) (usage : option Usage)
  : TokenCounts :=
  match usage with
  | None => tc
  | Some u =>
      {| tokens_in := add (tokens_in tc) (count_or_zero (inputTokens u));
         tokens_out := add (tokens_out tc) (count_or_zero (outputTokens u)) |}
  end.

(** What [logCosts] logs, before [toFixed(4)] formats it. *)
Record CostEstimate := { inputCost : num; outputCost : num; total : num }.

Definition estimate (tc : TokenCounts) (costs : Costs) : CostEstimate :=
  let inputCost := mul (div (tokens_in tc) million) (input costs) in
  let outputCost := mul (div (tokens_out tc) million) (output costs) in
  {| inputCost := inputCost; outputCost := outputCost;
     total := add inputCost outputCost |}.

(** [logCosts]: reading [.cheap] or [.standard] of an absent entry, or
    [.costs.cheap] of an inherited value, is a TypeError. *)
Definition logCosts (settings : Settings) (tc : TokenCounts)
  : Thrown CostEstimate :=
  match MODELS_at (model settings) with
  | Entry e =>
      Return (estimate tc (if cheap_flag settings then costs_cheap e
                           else costs_standard e))
  | Inherited | Absent =>
      Throw (TypeError_reading "undefined"
               (if cheap_flag settings then "cheap" else "standard"))
  end.

(** *** classifyTerm *)

Inductive Provider := OpenAI | Anthropic | Gemini.

(** The branch on [modelConfig.includes(...)]. *)
Definition modelTypeOf (modelConfig : JsValue) : Thrown Provider :=
  match modelConfig with
  | JStr m =>
      if Js.str_includes "gemini" m then Return Gemini
      else if Js.str_includes "claude" m then Return Anthropic
      else if Js.str_includes "gpt" m || Js.str_includes "o4-mini" m
           then Return OpenAI
           else Throw (new_Error ("Unknown model type: " +:+ m))
  | JUndefined => Throw (TypeError_reading "undefined" "includes")
  | JNull => Throw (TypeError_reading "null" "includes")
  | _ => Throw (mkError ClsTypeError "modelConfig.includes is not a function")
  end.

Definition user_message (prompt : string) : JsValue :=
  JObj (list_to_map [("role", JStr "user"); ("content", JStr prompt)]).

Definition as_count (v : JsValue) : option num :=
  match v with JNum x => Some x | _ => None end.

(** One entry of the [endpoints] table. *)
Record Endpoint := {
  ep_url : string;
  ep_headers : gmap string string;
  createPayload : string -> JsValue;
  extractResponse : JsValue -> Thrown (JsValue * Usage);
}.

Definition endpoints `{Host} (apiKey : string) (modelConfig : JsValue)
    (p : Provider) : Endpoint :=
  match p with
  | OpenAI =>
      {| ep_url := "https://api.openai.com/v1/chat/completions";
         ep_headers := {[ "Authorization" := "Bearer " +:+ apiKey ]};
         createPayload := fun prompt =>
           JObj (list_to_map
                   [("model", modelConfig);
                    ("messages", JArr [user_message prompt])]);
         extractResponse := fun data =>
           try! choices <- Js.get data "choices";
           try! choice <- Js.first choices;
           try! message <- Js.get choice "message";
           try! text <- Js.get message "content";
           try! usage <- Js.get data "usage";
           try! prompt_tokens <- Js.get usage "prompt_tokens";
           try! completion_tokens <- Js.get usage "completion_tokens";
           Return (text, {| inputTokens := as_count prompt_tokens;
                            outputTokens := as_count completion_tokens |}) |}
  | Anthropic =>
      {| ep_url := "https://api.anthropic.com/v1/messages";
         ep_headers := {[ "x-api-key" := apiKey ]};
         createPayload := fun prompt =>
           JObj (list_to_map
                   [("messages", JArr [user_message prompt]);
                    ("model", modelConfig);
                    ("max_tokens", JNum (of_Z 500))]);
         extractResponse := fun data =>
           try! content <- Js.get data "content";
           try! block <- Js.first content;
           try! text <- Js.get block "text";
           try! usage <- Js.get data "usage";
           try! input_tokens <- Js.get usage "input_tokens";
           try! output_tokens <- Js.get usage "output_tokens";
           Return (text, {| inputTokens := as_count input_tokens;
                            outputTokens := as_count output_tokens |}) |}
  | Gemini =>
      {| ep_url := "https://generativelanguage.googleapis.com/v1beta/models/"
                   +:+ ToString modelConfig +:+ ":generateContent?key=" +:+ apiKey;
         ep_headers := ∅;
         createPayload := fun prompt =>
           JObj (list_to_map
                   [("contents",
                     JArr [JObj (list_to_map
                                   [("parts",
                                     JArr [JObj (list_to_map
                                                   [("text", JStr prompt)])])])]);
                    ("generationConfig",
                     JObj (list_to_map [("maxOutputTokens", JNum (of_Z 500))]))]);
         extractResponse := fun data =>
           try! candidates <- Js.get data "candidates";
           try! candidate <- Js.first candidates;
           try! content <- Js.get candidate "content";
           try! parts <- Js.get content "parts";
           try! part <- Js.first parts;
           try! text <- Js.get part "text";
           try! usageMetadata <- Js.get data "usageMetadata";
           (* [usageMetadata?.x || 0]: optional chaining never throws *)
           let count k :=
             match usageMetadata with
             | JObj o => Some (count_or_zero (as_count (Js.field o k)))
             | _ => Some zero
             end in
           Return (text, {| inputTokens := count "promptTokenCount";
                            outputTokens := count "candidatesTokenCount" |}) |}
  end.

(** The line break and the double quote of the prompt template. *)
Definition nl : string := String "010"%char EmptyString.
Definition dq : string := String "034"%char EmptyString.

Definition createClassificationPrompt (term : Term) : string :=
  "Classify the following search term into exactly one of these categories: " +:+ nl +:+
  "  " +:+ Js.join ", " CATEGORIES +:+ nl +:+
  "  " +:+ nl +:+
  "  Search term: " +:+ dq +:+ term +:+ dq +:+ nl +:+
  "  " +:+ nl +:+
  "  Respond with ONLY a JSON object in this EXACT format:" +:+ nl +:+
  "  {" +:+ nl +:+
  "    " +:+ dq +:+ "category" +:+ dq +:+ ": " +:+ dq +:+
    "ONE_OF_THE_CATEGORIES_ABOVE" +:+ dq +:+ "," +:+ nl +:+
  "    " +:+ dq +:+ "confidence" +:+ dq +:+
    ": 0.XX (a number between 0 and 1)" +:+ nl +:+
  "  }".

(** The state [classifyTerm] works on: the token accumulator and the
    requests sent so far, oldest first. *)
Record Net := { tokenCounts : TokenCounts; sent : list HttpRequest }.

(** One call of a classifier function: the time it took, what it returned
    or threw, and the state it left. *)
Record Attempt (E : Type) := {
  took : Z;
  outcome : Thrown (gmap string JsValue);
  after : E;
}.
Arguments took {E} _.
Arguments outcome {E} _.
Arguments after {E} _.

(** The part of [classifyTerm] after a reply with status 200 was parsed:
    [text.match], the second [JSON.parse] and [validateResponse]. *)
Definition readClassification `{Host} (text : JsValue)
  : Thrown (gmap string JsValue) :=
  match text with
  | JStr t =>
      match JsonMatch.jsonMatch t with
      | None => Throw (new_Error "No JSON found in response")
      | Some json =>
          try! parsed <- JSON_parse json;
          validateResponse parsed
      end
  | JUndefined => Throw (TypeError_reading "undefined" "match")
  | JNull => Throw (TypeError_reading "null" "match")
  | _ => Throw (mkError ClsTypeError "text.match is not a function")
  end.

(** [classifyTerm] from the reply on: the status check, [JSON.parse],
    [extractResponse], [updateTokenCounts], then [readClassification]. *)
Definition readReply `{Host} (config : Endpoint) (response : HttpResponse)
    (tc : TokenCounts) : Thrown (gmap string JsValue) * TokenCounts :=
  if negb (code response =? 200)
  then (Throw (new_Error ("API error (" +:+ pretty (code response) +:+ "): "
                          +:+ body response)), tc)
  else
    match JSON_parse (body response) with
    | inl e => (Throw e, tc)
    | inr data =>
        match extractResponse config data with
        | inl e => (Throw e, tc)
        | inr (text, usage) =>
            (readClassification text, updateTokenCounts tc (Some usage))
        end
    end.

(** The options object passed to [UrlFetchApp.fetch]. *)
Definition requestFor `{Host} (term : Term) (apiKey : string)
    (modelConfig : JsValue) (p : Provider) : HttpRequest :=
  let config := endpoints apiKey modelConfig p in
  let prompt := createClassificationPrompt term in
  {| url := ep_url config;
     method := "POST";
     headers := ep_headers config;
     contentType := "application/json";
     muteHttpExceptions := true;
     payload := createPayload config prompt |}.

Definition classifyTerm `{Host} (term : Term) (apiKey : string)
    (modelConfig : JsValue) (n : Net) : Attempt Net :=
  match modelTypeOf modelConfig with
  | inl e => {| took := 0; outcome := Throw e; after := n |}
  | inr modelType =>
      let config := endpoints apiKey modelConfig modelType in
      let request := requestFor term apiKey modelConfig modelType in
      let fetched := UrlFetchApp_fetch (length (sent n)) request in
      let sent' := sent n ++ [request] in
      match reply fetched with
      | inl e =>
          {| took := blocked fetched; outcome := Throw e;
             after := {| tokenCounts := tokenCounts n; sent := sent' |} |}
      | inr response =>
          let '(result, tc) := readReply config response (tokenCounts n) in
          {| took := blocked fetched; outcome := result;
             after := {| tokenCounts := tc; sent := sent' |} |}
      end
  end.

(** [getClassifierFunction(model)]: the same function for every model. *)
Definition getClassifierFunction `{Host} (model : string)
  : Term -> string -> JsValue -> Net -> Attempt Net :=
  fun term apiKey modelVersion => classifyTerm term apiKey modelVersion.

(** *** classifyTerms *)

(** What the retry loop does to the outside, in order: a call of the
    classifier function, or a [Utilities.sleep] of so many milliseconds. *)
Inductive Event := Attempted (term : Term) | Slept (ms : Z).

(** The clock and the log of events around the state [E] the classifier
    function works on. *)
Record World (E : Type) := {
  ext : E;
  now : Z;               (* Date.now(), in milliseconds *)
  trace : list Event;    (* oldest first *)
}.
Arguments ext {E} _.
Arguments now {E} _.
Arguments trace {E} _.

Definition Utilities_sleep {E} (ms : Z) (w : World E) : World E :=
  {| ext := ext w; now := now w + ms; trace := trace w ++ [Slept ms] |}.

(** The milliseconds slept in a log, in order. *)
Definition sleeps (events : list Event) : list Z :=
  omap (fun ev => match ev with Slept ms => Some ms | _ => None end) events.

(** The events of [failures] failed attempts, each followed by its
    back-off, from the loop iteration [attempt] on. *)
Fixpoint retryTrace (term : Term) (attempt : Z) (failures : nat) : list Event :=
  match failures with
  | O => []
  | S k => Attempted term :: Slept (2 ^ attempt * 1000)
             :: retryTrace term (attempt + 1) k
  end.

(** [{ term, category: "ERROR", confidence: 0, error: error.toString() }]. *)
Definition errorResult (term : Term) (error : JsError) : gmap string JsValue :=
  list_to_map
    [("term", JStr term); ("category", JStr "ERROR");
     ("confidence", JNum zero); ("error", JStr (Error_toString error))].

(** [{ ...result, term, duration }]. *)
Definition successResult (result : gmap string JsValue) (term : Term)
    (duration : num) : gmap string JsValue :=
  <["duration" := JNum duration]> (<["term" := JStr term]> result).

Section RetryDriver.
Context {E : Type}.
Variable classifyFn : Term -> string -> JsValue -> E -> Attempt E.
Variable maxRetries : Z.
Variables (apiKey : string) (modelVersion : JsValue).

(** The [for] loop of the callback of [map], at the iteration [attempt]
    with [remaining = maxRetries - attempt] iterations to go; when none
    remains the callback ends without a [return]. *)
Fixpoint attempts (term : Term) (remaining : nat) (attempt : Z)
    (w : World E) : JsValue * World E :=
  match remaining with
  | O => (JUndefined, w)
  | S remaining' =>
      let startTime := now w in
      let a := classifyFn term apiKey modelVersion (ext w) in
      let w1 := {| ext := after a; now := now w + took a;
                   trace := trace w ++ [Attempted term] |} in
      match outcome a with
      | inr result =>
          (JObj (successResult result term
                   (div (of_Z (now w1 - startTime)) thousand)), w1)
      | inl error =>
          if attempt =? maxRetries - 1
          then (JObj (errorResult term error), w1)
          else attempts term remaining' (attempt + 1)
                 (Utilities_sleep (2 ^ attempt * 1000) w1)
      end
  end.

(** The [k]-th call of the classifier function for one term, counted
    from 0, when the calls before it threw: each starts from the state
    the one before left. *)
Fixpoint nthAttempt (term : Term) (k : nat) (e : E) : Attempt E :=
  match k with
  | O => classifyFn term apiKey modelVersion e
  | S k' => nthAttempt term k' (after (classifyFn term apiKey modelVersion e))
  end.

(** The world after [k] failed attempts and their back-offs, from the
    loop iteration [attempt] on. *)
Fixpoint afterFailures (term : Term) (attempt : Z) (k : nat)
    (w : World E) : World E :=
  match k with
  | O => w
  | S k' =>
      let a := classifyFn term apiKey modelVersion (ext w) in
      afterFailures term (attempt + 1) k'
        (Utilities_sleep (2 ^ attempt * 1000)
           {| ext := after a; now := now w + took a;
              trace := trace w ++ [Attempted term] |})
  end.

(** The callback of [map] for one term. *)
Definition classifyWithRetry (term : Term) (w : World E)
  : JsValue * World E :=
  attempts term (Z.to_nat maxRetries) 0 w.

(** [settings.topTerms.map(...)], in order. *)
Fixpoint mapTerms (terms : list Term) (w : World E)
  : list JsValue * World E :=
  match terms with
  | [] => ([], w)
  | term :: rest =>
      let '(r, w1) := classifyWithRetry term w in
      let '(rs, w2) := mapTerms rest w1 in
      (r :: rs, w2)
  end.

End RetryDriver.

Definition classifyTerms `{Host} (settings : Settings) (apiKey : string)
    (w : World Net) : Thrown (list JsValue) * World Net :=
  match modelVersionOf settings with
  | inl e => (Throw e, w)
  | inr modelVersion =>
      let classifyFn := getClassifierFunction (model settings) in
      let '(results, w') :=
        mapTerms classifyFn MAX_RETRIES apiKey modelVersion (topTerms settings) w in
      (Return results, w')
  end.

(** *** outputResults *)

(** A spreadsheet: the cells of each tab, by tab name, row by row. *)
Abbreviation Spreadsheet := (gmap string (list (list JsValue))).

Definition resultsHeader : list JsValue :=
  [JStr "Search Term"; JStr "Category"; JStr "Confidence";
   JStr "Duration (sec)"; JStr "Error"].

(** [[r.term, r.category, r.confidence || '', r.duration || '', r.error || '']]. *)
Definition resultRow (r : JsValue) : Thrown (list JsValue) :=
  try! term <- Js.get r "term";
  try! category <- Js.get r "category";
  try! confidence <- Js.get r "confidence";
  try! duration <- Js.get r "duration";
  try! error <- Js.get r "error";
  Return [term; category;
          Js.or confidence (JStr EmptyString);
          Js.or duration (JStr EmptyString);
          Js.or error (JStr EmptyString)].

Fixpoint resultRows (results : list JsValue) : Thrown (list (list JsValue)) :=
  match results with
  | [] => Return []
  | r :: rest =>
      try! row <- resultRow r;
      try! rows <- resultRows rest;
      Return (row :: rows)
  end.

(** [outputResults]: the Results tab is cleared, gets the header and, when
    there are results, one row for each.  A throw while the rows are built
    leaves the cleared tab with its header. *)
Definition outputResults (spreadsheet : Spreadsheet) (results : list JsValue)
  : Thrown unit * Spreadsheet :=
  let cleared := <["Results" := [resultsHeader]]> spreadsheet in
  match resultRows results with
  | inl e => (Throw e, cleared)
  | inr rows => (Return tt, <["Results" := resultsHeader :: rows]> spreadsheet)
  end.

(** *** main *)

Definition logsHeader : list JsValue :=
  [JStr "Timestamp"; JStr "Type"; JStr "Message"].

(** [handleError]: one row appended to the Logs tab, below the header the
    tab gets when its first cell is empty. *)
Definition handleError `{Host} (error : JsError) (at_ms : Z)
    (spreadsheet : Spreadsheet) : Spreadsheet :=
  let logs :=
    match spreadsheet !! "Logs" with
    | Some ((JStr first :: cells) :: rows) =>
        if String.eqb first EmptyString then logsHeader :: rows
        else (JStr first :: cells) :: rows
    | Some (row :: rows) => row :: rows
    | Some [] | None => [logsHeader]
    end in
  <["Logs" := logs ++ [[JStr (Date_toISOString at_ms); JStr "ERROR";
                        JStr (Error_toString error)]]]> spreadsheet.

(** What a run leaves behind. *)
Record Run := {
  run_sheet : Spreadsheet;
  run_world : World Net;
  run_results : option (list JsValue);   (* the value of classifyTerms *)
  run_costs : option CostEstimate;       (* what logCosts logged *)
  run_fatal : option JsError;            (* the error main caught *)
}.

Definition fatal `{Host} (e : JsError) (spreadsheet : Spreadsheet)
    (w : World Net) (results : option (list JsValue)) : Run :=
  {| run_sheet := handleError e (now w) spreadsheet; run_world := w;
     run_results := results; run_costs := None; run_fatal := Some e |}.

(** [main], from the settings literal, the key ranges and the sheet, which is
    taken as opened ([SpreadsheetApp.openByUrl] did not throw). *)
Definition main `{Host} (read : Settings) (keys : gmap string string)
    (spreadsheet : Spreadsheet) (w : World Net) : Run :=
  match readAndValidateSettings read with
  | inl e => fatal e spreadsheet w None
  | inr settings =>
      match getAPIKey keys (model settings) with
      | inl e => fatal e spreadsheet w None
      | inr apiKey =>
          match classifyTerms settings apiKey w with
          | (inl e, w1) => fatal e spreadsheet w1 None
          | (inr results, w1) =>
              match outputResults spreadsheet results with
              | (inl e, sheet1) => fatal e sheet1 w1 (Some results)
              | (inr _, sheet1) =>
                  match logCosts settings (tokenCounts (ext w1)) with
                  | inl e => fatal e sheet1 w1 (Some results)
                  | inr costs =>
                      {| run_sheet := sheet1; run_world := w1;
                         run_results := Some results;
                         run_costs := Some costs; run_fatal := None |}
                  end
              end
          end
      end
  end.

(** The world at the start of a run. *)
Definition world_initial : World Net :=
  {| ext := {| tokenCounts := tokenCounts_initial; sent := [] |};
     now := 0; trace := [] |}.

(** [thrown a]: the attempt threw. *)
Definition thrown {E} (a : Attempt E) : Prop := exists e, outcome a = Throw e.

End Classifier.

(* ===================================================================== *)
(** ** Sample hosts and classifier functions *)
(* ===================================================================== *)

Module Samples.
Import Classifier.

(** The JSON text [{"category":"COMMERCIAL","confidence":0.92}]. *)
Definition commercial_json : string :=
  "{" +:+ dq +:+ "category" +:+ dq +:+ ":" +:+ dq +:+ "COMMERCIAL" +:+ dq +:+ ","
  +:+ dq +:+ "confidence" +:+ dq +:+ ":0.92}".

Definition commercial : gmap string JsValue :=
  list_to_map [("category", JStr "COMMERCIAL"); ("confidence", JNum (lit 0.92))].

(** A reply whose object also has an [error] property:
    [{"category":"LOCAL","confidence":0.9,"error":"none"}]. *)
Definition local_with_error : gmap string JsValue :=
  list_to_map [("category", JStr "LOCAL"); ("confidence", JNum (lit 0.9));
               ("error", JStr "none")].

(** A reply with a confidence outside the interval. *)
Definition commercial_seven : gmap string JsValue :=
  list_to_map [("category", JStr "COMMERCIAL"); ("confidence", JNum (of_Z 7))].

(** A classification with confidence exactly 0. *)
Definition question_zero : gmap string JsValue :=
  list_to_map [("category", JStr "QUESTION"); ("confidence", JNum zero)].

(** A stand-in for the body text of an OpenAI reply: the sample hosts'
    [JSON.parse] reads it as [openai_data], a reply whose message content
    carries [commercial_json] and that reports 10 prompt tokens and 5
    completion tokens. *)
Definition openai_body : string := "openai reply: COMMERCIAL 0.92, usage 10/5".

Definition openai_data : JsValue :=
  JObj (list_to_map
    [("choices",
      JArr [JObj (list_to_map
              [("message",
                JObj (list_to_map
                        [("role", JStr "assistant");
                         ("content", JStr ("Here you go: " +:+ commercial_json))]))])]);
     ("usage",
      JObj (list_to_map [("prompt_tokens", JNum (of_Z 10));
                         ("completion_tokens", JNum (of_Z 5))]))]).

(** A host that knows the two texts above; every request is answered
    after 250 ms, with status 429 for the first two requests and then with
    [openai_body]. *)
Definition host_429_twice : Host :=
  {| JSON_parse := fun s =>
       if String.eqb s openai_body then Return openai_data
       else if String.eqb s commercial_json then Return (JObj commercial)
       else Throw (mkError ClsSyntaxError "Unexpected token");
     Number_toString := fun _ => "0";
     Date_toISOString := fun _ => "1970-01-01T00:00:00.000Z";
     UrlFetchApp_fetch := fun n _ =>
       {| blocked := 250;
          reply := Return (if (n <? 2)%nat
                           then {| code := 429; body := "rate limited" |}
                           else {| code := 200; body := openai_body |}) |} |}.

(** A classifier function that always throws, after 100 ms; its state
    counts the calls. *)
Definition alwaysThrows : Term -> string -> JsValue -> nat -> Attempt nat :=
  fun _ _ _ calls =>
    {| took := 100; outcome := Throw (new_Error "API error (500): down");
       after := S calls |}.

(** A classifier function that throws twice and then returns [r] at once. *)
Definition thirdTimeLucky (r : gmap string JsValue)
  : Term -> string -> JsValue -> nat -> Attempt nat :=
  fun _ _ _ calls =>
    {| took := 0;
       outcome := if (calls <? 2)%nat
                  then Throw (new_Error "API error (429): rate limited")
                  else Return r;
       after := S calls |}.

Definition world0 : World nat := {| ext := 0%nat; now := 0; trace := [] |}.

(** The JSON text
    [{"category":"LOCAL","confidence":0.9,"error":"none"}], and a stand-in
    for the body of an OpenAI reply that carries it and reports 20 and 15
    tokens. *)
Definition local_json : string :=
  "{" +:+ dq +:+ "category" +:+ dq +:+ ":" +:+ dq +:+ "LOCAL" +:+ dq +:+ ","
  +:+ dq +:+ "confidence" +:+ dq +:+ ":0.9,"
  +:+ dq +:+ "error" +:+ dq +:+ ":" +:+ dq +:+ "none" +:+ dq +:+ "}".

Definition local_body : string := "openai reply: LOCAL 0.9 error none".

Definition local_data : JsValue :=
  JObj (list_to_map
    [("choices",
      JArr [JObj (list_to_map
              [("message",
                JObj (list_to_map [("content", JStr local_json)]))])]);
     ("usage",
      JObj (list_to_map [("prompt_tokens", JNum (of_Z 20));
                         ("completion_tokens", JNum (of_Z 15))]))]).

(** A host that answers every request at once with [local_body]. *)
Definition host_local : Host :=
  {| JSON_parse := fun s =>
       if String.eqb s local_body then Return local_data
       else if String.eqb s local_json then Return (JObj local_with_error)
       else Throw (mkError ClsSyntaxError "Unexpected token");
     Number_toString := fun _ => "0";
     Date_toISOString := fun _ => "1970-01-01T00:00:00.000Z";
     UrlFetchApp_fetch := fun _ _ =>
       {| blocked := 0;
          reply := Return {| code := 200; body := local_body |} |} |}.

Definition settings_openai (terms : list Term) : Settings :=
  {| model := "openai"; cheap_flag := false; topTerms := terms |}.

(** A host whose every reply, after 40 ms, has status 503. *)
Definition host_down : Host :=
  {| JSON_parse := fun _ => Throw (mkError ClsSyntaxError "Unexpected token");
     Number_toString := fun _ => "0";
     Date_toISOString := fun _ => "1970-01-01T00:00:00.000Z";
     UrlFetchApp_fetch := fun _ _ =>
       {| blocked := 40;
          reply := Return {| code := 503; body := "unavailable" |} |} |}.

End Samples.

(* ===================================================================== *)
(** ** The older three-model script *)
(* ===================================================================== *)

(** The sibling of [scripts/v2/classify-with-3-models.js] that names the
    third provider [google].  Its retry loop, [validateResponse] and
    [outputResults] are the same text; its endpoint table and the way it
    picks the endpoint differ. *)
Module ThreeModelsV1.

Definition endpointNames : list string := ["openai"; "anthropic"; "google"].

(** The [headers] of each entry of its [endpoints] table. *)
Definition endpointHeaders (apiKey : string) (name : string)
  : gmap string string :=
  if String.eqb name "openai" then {[ "Authorization" := "Bearer " +:+ apiKey ]}
  else if String.eqb name "anthropic"
       then <["anthropic-version" := "2023-06-01"]> {[ "x-api-key" := apiKey ]}
       else ∅.

(** The model names of its [MODELS] table. *)
Definition modelNames : list string :=
  ["gpt-4o"; "gpt-4o-mini"; "claude-3-5-sonnet-latest";
   "claude-3-5-haiku-latest"; "gemini-1.5-pro"; "gemini-2.0-flash"].

(** [toLowerCase] on ASCII letters. *)
Definition lower_ascii (c : ascii) : ascii :=
  let n := nat_of_ascii c in
  if ((65 <=? n) && (n <=? 90))%nat then ascii_of_nat (n + 32) else c.

Fixpoint toLowerCase (s : string) : string :=
  match s with
  | EmptyString => EmptyString
  | String c rest => String (lower_ascii c) (toLowerCase rest)
  end.

(** [Object.keys(endpoints).find(key =>
      modelConfig.toLowerCase().includes(key))]. *)
Definition modelTypeOf (modelConfig : string) : option string :=
  List.find (fun key => Js.str_includes key (toLowerCase modelConfig))
    endpointNames.

(** *** The run of the older script *)

(** [createClassificationPrompt], [validateResponse], the text of the retry
    loop and [MAX_RETRIES] are those of the newer script; the table, the
    endpoints, the dispatch and the token accounting are its own. *)

Definition MODELS : gmap string Classifier.ModelEntry :=
  list_to_map
    [("openai",
      {| Classifier.standard := "gpt-4o"; Classifier.cheap := "gpt-4o-mini";
         Classifier.costs_standard := Classifier.price 2.5 10;
         Classifier.costs_cheap := Classifier.price 0.15 0.6 |});
     ("anthropic",
      {| Classifier.standard := "claude-3-5-sonnet-latest";
         Classifier.cheap := "claude-3-5-haiku-latest";
         Classifier.costs_standard := Classifier.price 3 15;
         Classifier.costs_cheap := Classifier.price 0.8 4 |});
     ("google",
      {| Classifier.standard := "gemini-1.5-pro";
         Classifier.cheap := "gemini-2.0-flash";
         Classifier.costs_standard := Classifier.price 0 0;
         Classifier.costs_cheap := Classifier.price 0 0 |})].

(** The value of [MODELS[k]]. *)
Definition MODELS_at (k : string) : Classifier.Looked :=
  match MODELS !! k with
  | Some e => Classifier.Entry e
  | None => if existsb (String.eqb k) Classifier.Object_prototype_names
            then Classifier.Inherited else Classifier.Absent
  end.

Definition readAndValidateSettings (settings : Classifier.Settings)
  : Thrown Classifier.Settings :=
  match MODELS_at (Classifier.model settings) with
  | Classifier.Absent => Throw (new_Error "Invalid model")
  | _ =>
      if (length (Classifier.topTerms settings) =? 0)%nat
      then Throw (new_Error "No search terms found")
      else Return settings
  end.

Definition modelVersionOf (settings : Classifier.Settings) : Thrown JsValue :=
  match MODELS_at (Classifier.model settings) with
  | Classifier.Entry e =>
      Return (JStr (if Classifier.cheap_flag settings
                    then Classifier.cheap e else Classifier.standard e))
  | Classifier.Inherited => Return JUndefined
  | Classifier.Absent =>
      Throw (Classifier.TypeError_reading "undefined"
               (if Classifier.cheap_flag settings then "cheap" else "standard"))
  end.

(** ToNumber on the values that [+] adds as numbers; strings, arrays and
    objects make [+] a concatenation. *)
Definition ToNumber (v : JsValue) : option num :=
  match v with
  | JUndefined => Some NaN
  | JNull => Some zero
  | JBool true => Some Classifier.one
  | JBool false => Some zero
  | JNum x => Some x
  | JStr _ | JArr _ | JObj _ => None
  end.

(** [a + b]. *)
Definition plus `{Host} (a b : JsValue) : JsValue :=
  match ToNumber a, ToNumber b with
  | Some x, Some y => JNum (add x y)
  | _, _ => JStr (ToString a +:+ ToString b)
  end.

(** The accumulator [tokenCounts]: the values of its [input] and [output]
    properties. *)
Record TokenCounts := { tokens_input : JsValue; tokens_output : JsValue }.

Definition tokenCounts_initial : TokenCounts :=
  {| tokens_input := JNum zero; tokens_output := JNum zero |}.

(** [usage.a || usage.b || usage.c || 0] on a truthy [usage]. *)
Definition firstCount (usage : JsValue) (a b c : string) : Thrown JsValue :=
  try! x <- Js.get usage a;
  try! y <- Js.get usage b;
  try! z <- Js.get usage c;
  Return (Js.or x (Js.or y (Js.or z (JNum zero)))).

Definition updateTokenCounts `{Host} (tc : TokenCounts) (usage : JsValue)
  : Thrown TokenCounts :=
  if negb (Js.truthy usage) then Return tc
  else
    try! i <- firstCount usage "prompt_tokens" "input_tokens" "promptTokenCount";
    try! o <- firstCount usage "completion_tokens" "output_tokens"
                "candidatesTokenCount";
    Return {| tokens_input := plus (tokens_input tc) i;
              tokens_output := plus (tokens_output tc) o |}.

(** One entry of the [endpoints] table; [extractResponse] gives the text
    and the [usage] object of the reply as it is. *)
Record Endpoint := {
  ep_url : string;
  ep_headers : gmap string string;
  createPayload : string -> JsValue;
  extractResponse : JsValue -> Thrown (JsValue * JsValue);
}.

(** [endpoints[name]] for the three names of [endpointNames]. *)
Definition endpoints `{Host} (apiKey : string) (modelConfig : JsValue)
    (name : string) : Endpoint :=
  if String.eqb name "openai" then
    {| ep_url := "https://api.openai.com/v1/chat/completions";
       ep_headers := endpointHeaders apiKey name;
       createPayload := fun prompt =>
         JObj (list_to_map
                 [("model", modelConfig);
                  ("messages", JArr [Classifier.user_message prompt])]);
       extractResponse := fun data =>
         try! choices <- Js.get data "choices";
         try! choice <- Js.first choices;
         try! message <- Js.get choice "message";
         try! text <- Js.get message "content";
         try! usage <- Js.get data "usage";
         Return (text, usage) |}
  else if String.eqb name "anthropic" then
    {| ep_url := "https://api.anthropic.com/v1/messages";
       ep_headers := endpointHeaders apiKey name;
       createPayload := fun prompt =>
         JObj (list_to_map
                 [("messages", JArr [Classifier.user_message prompt]);
                  ("model", modelConfig);
                  ("max_tokens", JNum (of_Z 500))]);
       extractResponse := fun data =>
         try! content <- Js.get data "content";
         try! block <- Js.first content;
         try! text <- Js.get block "text";
         try! usage <- Js.get data "usage";
         Return (text, usage) |}
  else
    {| ep_url := "https://generativelanguage.googleapis.com/v1beta/models/"
                 +:+ ToString modelConfig +:+ ":generateContent?key=" +:+ apiKey;
       ep_headers := endpointHeaders apiKey name;
       createPayload := fun prompt =>
         JObj (list_to_map
                 [("contents",
                   JArr [JObj (list_to_map
                                 [("parts",
                                   JArr [JObj (list_to_map
                                                 [("text", JStr prompt)])])])]);
                  ("generationConfig",
                   JObj (list_to_map [("maxOutputTokens", JNum (of_Z 500))]))]);
       extractResponse := fun data =>
         try! candidates <- Js.get data "candidates";
         try! candidate <- Js.first candidates;
         try! content <- Js.get candidate "content";
         try! parts <- Js.get content "parts";
         try! part <- Js.first parts;
         try! text <- Js.get part "text";
         try! usage <- Js.get data "usageMetadata";
         Return (text, usage) |}.

(** The state [classifyTerm] works on. *)
Record Net := { tokenCounts : TokenCounts; sent : list HttpRequest }.

(** [classifyTerm] from the reply on. *)
Definition readReply `{Host} (config : Endpoint) (response : HttpResponse)
    (tc : TokenCounts) : Thrown (gmap string JsValue) * TokenCounts :=
  if negb (code response =? 200)
  then (Throw (new_Error ("API error (" +:+ pretty (code response) +:+ "): "
                          +:+ body response)), tc)
  else
    match JSON_parse (body response) with
    | inl e => (Throw e, tc)
    | inr data =>
        match extractResponse config data with
        | inl e => (Throw e, tc)
        | inr (text, usage) =>
            match updateTokenCounts tc usage with
            | inl e => (Throw e, tc)
            | inr tc' => (Classifier.readClassification text, tc')
            end
        end
    end.

Definition classifyTerm `{Host} (term : Classifier.Term) (apiKey : string)
    (modelConfig : JsValue) (n : Net) : Classifier.Attempt Net :=
  let unsent e := {| Classifier.took := 0; Classifier.outcome := Throw e;
                     Classifier.after := n |} in
  match modelConfig with
  | JStr m =>
      match modelTypeOf m with
      | None => unsent (new_Error ("Unknown model type: " +:+ m))
      | Some modelType =>
          let config := endpoints apiKey modelConfig modelType in
          let prompt := Classifier.createClassificationPrompt term in
          let request :=
            {| url := ep_url config;
               method := "POST";
               headers := ep_headers config;
               contentType := "application/json";
               muteHttpExceptions := true;
               payload := createPayload config prompt |} in
          let fetched := UrlFetchApp_fetch (length (sent n)) request in
          let sent' := sent n ++ [request] in
          match reply fetched with
          | inl e =>
              {| Classifier.took := blocked fetched; Classifier.outcome := Throw e;
                 Classifier.after := {| tokenCounts := tokenCounts n; sent := sent' |} |}
          | inr response =>
              let '(result, tc) := readReply config response (tokenCounts n) in
              {| Classifier.took := blocked fetched; Classifier.outcome := result;
                 Classifier.after := {| tokenCounts := tc; sent := sent' |} |}
          end
      end
  | JUndefined => unsent (Classifier.TypeError_reading "undefined" "toLowerCase")
  | JNull => unsent (Classifier.TypeError_reading "null" "toLowerCase")
  | _ => unsent (mkError ClsTypeError "modelConfig.toLowerCase is not a function")
  end.

Definition getClassifierFunction `{Host} (model : string)
  : Classifier.Term -> string -> JsValue -> Net -> Classifier.Attempt Net :=
  fun term apiKey modelVersion => classifyTerm term apiKey modelVersion.

Definition classifyTerms `{Host} (settings : Classifier.Settings)
    (apiKey : string) (w : Classifier.World Net)
  : Thrown (list JsValue) * Classifier.World Net :=
  match modelVersionOf settings with
  | inl e => (Throw e, w)
  | inr modelVersion =>
      let classifyFn := getClassifierFunction (Classifier.model settings) in
      let '(results, w') :=
        Classifier.mapTerms classifyFn Classifier.MAX_RETRIES apiKey modelVersion
          (Classifier.topTerms settings) w in
      (Return results, w')
  end.

End ThreeModelsV1.

(* ===================================================================== *)
(** ** [scripts/google-ads-search-term-classifier.js] *)
(* ===================================================================== *)

Module IntentClassifier.

Definition INTENT_CATEGORIES : list string :=
  ["Informational"; "Navigational"; "Transactional"; "Commercial"].

Record Classification := { category : JsValue; confidence : JsValue }.

(** The lines written with [Logger.log]. *)
Inductive Logged :=
| Warning (category : JsValue)   (* "... is not in the predefined list. Using anyway." *)
| ParseError (error : JsError).  (* "Error parsing OpenAI response ..." *)

(** The body of the [try] block. *)
Definition parseBody `{Host} (response : JsValue)
  : Thrown (Classification * list Logged) :=
  match response with
  | JStr text =>
      match JsonMatch.jsonMatch text with
      | None => Throw (new_Error "No JSON object found in response")
      | Some jsonStr =>
          try! result <- JSON_parse jsonStr;
          try! category <- Js.get result "category";
          try! confidence <- Js.get result "confidence";
          if negb (Js.truthy category) || negb (Js.is_number confidence)
          then Throw (new_Error "Response missing required fields")
          else Return ({| category := category; confidence := confidence |},
                       if Js.includes INTENT_CATEGORIES category then []
                       else [Warning category])
      end
  | JUndefined => Throw (Classifier.TypeError_reading "undefined" "match")
  | JNull => Throw (Classifier.TypeError_reading "null" "match")
  | _ => Throw (mkError ClsTypeError "response.match is not a function")
  end.

(** [parseOpenAIResponse]: a throw inside is caught, logged and turned into
    the category ["Error"] with confidence 0. *)
Definition parseOpenAIResponse `{Host} (response : JsValue)
  : Classification * list Logged :=
  match parseBody response with
  | inr r => r
  | inl error =>
      ({| category := JStr "Error"; confidence := JNum zero |},
       [ParseError error])
  end.

(** *** generateTextOpenAI *)

Definition OPENAI_API_KEY : string := EmptyString.
Definition OPENAI_MODEL : string := "gpt-4o".
Definition OPENAI_CHEAP_MODEL : string := "gpt-4o-mini".
Definition USE_CHEAP_MODEL : bool := true.

(** The state of a run of this script: the requests sent so far, oldest
    first, with the clock and the log of sleeps around them. *)
Abbreviation Wire := (Classifier.World (list HttpRequest)).

Definition httpOptions (prompt apiKey model : string) : HttpRequest :=
  {| url := "https://api.openai.com/v1/chat/completions";
     method := "POST";
     headers := {[ "Authorization" := "Bearer " +:+ apiKey ]};
     contentType := "application/json";
     muteHttpExceptions := true;
     payload := JObj (list_to_map
                        [("model", JStr model);
                         ("messages", JArr [Classifier.user_message prompt])]) |}.

(** One call of [UrlFetchApp.fetch(url, httpOptions)]. *)
Definition fetch `{Host} (request : HttpRequest) (w : Wire)
  : Thrown HttpResponse * Wire :=
  let fetched := UrlFetchApp_fetch (length (Classifier.ext w)) request in
  (reply fetched,
   {| Classifier.ext := Classifier.ext w ++ [request];
      Classifier.now := Classifier.now w + blocked fetched;
      Classifier.trace := Classifier.trace w |}).

(** The loop [while (responseCode !== 200 && Date.now() - startTime < 30000)],
    entered with the last reply; [fuel] bounds the number of iterations, and
    [None] is a loop that did not end within it.  An exception of [fetch]
    leaves the loop and the function. *)
Fixpoint retryLoop `{Host} (fuel : nat) (request : HttpRequest) (startTime : Z)
    (response : HttpResponse) (w : Wire) : option (Thrown HttpResponse * Wire) :=
  if negb (code response =? 200) && (Classifier.now w - startTime <? 30000)
  then match fuel with
       | O => None
       | S fuel' =>
           match fetch request (Classifier.Utilities_sleep 5000 w) with
           | (inl e, w') => Some (Throw e, w')
           | (inr response', w') => retryLoop fuel' request startTime response' w'
           end
       end
  else Some (Return response, w).

(** The branch for a final status other than 200: whatever the [try] block
    throws, its own [throw new Error(...)] included, is caught by the
    [catch] below it, which throws its own error. *)
Definition reportFailure `{Host} (responseContent : string) : Thrown JsValue :=
  let attempt : Thrown JsValue :=
    try! errorResponse <- JSON_parse responseContent;
    try! error <- Js.get errorResponse "error";
    try! message <- Js.get error "message";
    Throw (new_Error ("OpenAI API Error: " +:+ ToString message)) in
  match attempt with
  | inl e => Throw (new_Error "Failed to parse the OpenAI API error response.")
  | inr v => Return v
  end.

(** [JSON.parse(responseContent).choices[0].message.content]. *)
Definition readText `{Host} (responseContent : string) : Thrown JsValue :=
  try! responseJson <- JSON_parse responseContent;
  try! choices <- Js.get responseJson "choices";
  try! choice <- Js.first choices;
  try! message <- Js.get choice "message";
  Js.get message "content".

Definition generateTextOpenAI `{Host} (fuel : nat) (prompt apiKey model : string)
    (w : Wire) : option (Thrown JsValue * Wire) :=
  let request := httpOptions prompt apiKey model in
  match fetch request w with
  | (inl e, w1) => Some (Throw e, w1)
  | (inr response, w1) =>
      match retryLoop fuel request (Classifier.now w1) response w1 with
      | None => None
      | Some (inl e, w2) => Some (Throw e, w2)
      | Some (inr response', w2) =>
          Some (if negb (code response' =? 200)
                then reportFailure (body response')
                else readText (body response'), w2)
      end
  end.

(** *** classifySearchTerms *)

Definition createClassificationPrompt `{Host} (searchTerm : JsValue) : string :=
  "Classify the following search term based on user intent into one of these categories: "
    +:+ Js.join ", " INTENT_CATEGORIES +:+ "." +:+ Classifier.nl +:+
  "  " +:+ Classifier.nl +:+
  "Search term: " +:+ Classifier.dq +:+ ToString searchTerm +:+ Classifier.dq
    +:+ Classifier.nl +:+
  Classifier.nl +:+
  "Respond with ONLY a JSON object in this exact format:" +:+ Classifier.nl +:+
  "{" +:+ Classifier.nl +:+
  "  " +:+ Classifier.dq +:+ "category" +:+ Classifier.dq +:+ ": "
    +:+ Classifier.dq +:+ "category_name" +:+ Classifier.dq +:+ "," +:+ Classifier.nl +:+
  "  " +:+ Classifier.dq +:+ "confidence" +:+ Classifier.dq
    +:+ ": confidence_score_between_0_and_1," +:+ Classifier.nl +:+
  "  " +:+ Classifier.dq +:+ "explanation" +:+ Classifier.dq +:+ ": "
    +:+ Classifier.dq +:+ "brief_explanation_of_classification" +:+ Classifier.dq
    +:+ Classifier.nl +:+
  "}".

(** An element of [classifiedTerms]; [date] is the clock when it was
    pushed. *)
Record ClassifiedTerm := {
  searchTerm : JsValue;
  classified : Classification;   (* the [category] and the [confidence] *)
  date : Z;
}.

(** The [for] loop of [classifySearchTerms] over the terms that are left;
    the lines it writes with [Logger.log] are left out.  Only
    [generateTextOpenAI] can throw inside the [try] block. *)
Fixpoint classifyLoop `{Host} (fuel : nat) (model : string)
    (searchTerms : list JsValue) (w : Wire) : option (list ClassifiedTerm * Wire) :=
  match searchTerms with
  | [] => Some ([], w)
  | term :: rest =>
      let prompt := createClassificationPrompt term in
      match generateTextOpenAI fuel prompt OPENAI_API_KEY model w with
      | None => None
      | Some (inr apiResponse, w1) =>
          let classification := fst (parseOpenAIResponse apiResponse) in
          let pushed := {| searchTerm := term; classified := classification;
                           date := Classifier.now w1 |} in
          (* [if (i < searchTerms.length - 1) Utilities.sleep(1000)] *)
          let w2 := match rest with
                    | [] => w1
                    | _ :: _ => Classifier.Utilities_sleep 1000 w1
                    end in
          option_map (fun '(l, w') => (pushed :: l, w')) (classifyLoop fuel model rest w2)
      | Some (inl error, w1) =>
          let pushed := {| searchTerm := term;
                           classified := {| category := JStr "Error";
                                            confidence := JNum zero |};
                           date := Classifier.now w1 |} in
          option_map (fun '(l, w') => (pushed :: l, w')) (classifyLoop fuel model rest w1)
      end
  end.

Definition classifySearchTerms `{Host} (fuel : nat) (searchTerms : list JsValue)
    (w : Wire) : option (list ClassifiedTerm * Wire) :=
  let model := if USE_CHEAP_MODEL then OPENAI_CHEAP_MODEL else OPENAI_MODEL in
  classifyLoop fuel model searchTerms w.

(** *** createSummaryReport: the counts and the rows of the table *)

(** A value of [categoryCounts].  A count is an integer far below 2^53,
    where [+ 1] is exact.  For a name that every object inherits the first
    read gives the inherited function or object, of which [+ 1] makes a
    text: that text followed by [ones] characters ["1"]. *)
Inductive Count :=
| Number (n : nat)
| Text (ones : nat).

(** The text of [Object.prototype[key]]. *)
Definition inheritedText (key : string) : string :=
  if String.eqb key "__proto__" then "[object Object]"
  else "function " +:+ (if String.eqb key "constructor" then "Object" else key)
       +:+ "() { [native code] }".

Fixpoint onesText (ones : nat) : string :=
  match ones with
  | O => EmptyString
  | S k => "1" +:+ onesText k
  end.

(** [categoryCounts[key] = (categoryCounts[key] || 0) + 1]; the setter of
    [__proto__] ignores a text. *)
Definition countCategory (categoryCounts : gmap string Count) (key : string)
  : gmap string Count :=
  match categoryCounts !! key with
  | Some (Number n) => <[key := Number (S n)]> categoryCounts
  | Some (Text ones) => <[key := Text (S ones)]> categoryCounts
  | None =>
      if existsb (String.eqb key) Classifier.Object_prototype_names
      then if String.eqb key "__proto__" then categoryCounts
           else <[key := Text 1]> categoryCounts
      else <[key := Number 1]> categoryCounts
  end.

Record Tally := {
  categoryCounts : gmap string Count;
  totalClassified : nat;
  errorsCount : nat;
}.

(** [term.category === "Error"]. *)
Definition isError (term : ClassifiedTerm) : bool :=
  match category (classified term) with
  | JStr c => String.eqb c "Error"
  | _ => false
  end.

(** The property key that the category of a term is read as. *)
Definition categoryKey `{Host} (term : ClassifiedTerm) : string :=
  ToString (category (classified term)).

(** The callback of [classifiedTerms.forEach]. *)
Definition tallyTerm `{Host} (t : Tally) (term : ClassifiedTerm) : Tally :=
  if isError term
  then {| categoryCounts := categoryCounts t;
          totalClassified := totalClassified t;
          errorsCount := S (errorsCount t) |}
  else {| categoryCounts := countCategory (categoryCounts t) (categoryKey term);
          totalClassified := S (totalClassified t);
          errorsCount := errorsCount t |}.

Definition tally `{Host} (classifiedTerms : list ClassifiedTerm) : Tally :=
  fold_left tallyTerm classifiedTerms
    {| categoryCounts := ∅; totalClassified := 0; errorsCount := 0 |}.

Definition number (n : nat) : JsValue := JNum (of_Z (Z.of_nat n)).

(** [categoryCounts[category] || 0] for a category of [INTENT_CATEGORIES],
    none of which is an inherited name. *)
Definition countOf (t : Tally) (category : string) : JsValue :=
  match categoryCounts t !! category with
  | Some (Number n) => number n
  | Some (Text ones) => JStr (inheritedText category +:+ onesText ones)
  | None => number 0
  end.

(** [totalClassified > 0 ? count / totalClassified : 0]; a text that is
    not a numeral divides to [NaN]. *)
Definition percentageOf (t : Tally) (count : JsValue) : num :=
  if (0 <? totalClassified t)%nat
  then match count with
       | JNum x => div x (of_Z (Z.of_nat (totalClassified t)))
       | _ => NaN
       end
  else zero.

(** The table of the summary sheet, from its row 4 on: the header, one row
    for each category of [INTENT_CATEGORIES], the total, and the row of
    the errors when there are any. *)
Definition summaryRows (t : Tally) : list (list JsValue) :=
  [JStr "Intent Category"; JStr "Count"; JStr "Percentage"]
  :: map (fun category =>
            [JStr category; countOf t category;
             JNum (percentageOf t (countOf t category))])
       INTENT_CATEGORIES
  ++ [[JStr "Total Classified"; number (totalClassified t)]]
  ++ (if (0 <? errorsCount t)%nat
      then [[JStr "Errors/Unclassified"; number (errorsCount t)]]
      else []).

(** How many terms of the list are counted under a category: those that
    are not errors and whose category reads as that key. *)
Definition occurrences `{Host} (key : string) (terms : list ClassifiedTerm) : nat :=
  length (List.filter (fun term => negb (isError term)
                                   && String.eqb (categoryKey term) key) terms).

(** The counts of the categories of the list, added up. *)
Definition listedTotal `{Host} (terms : list ClassifiedTerm) : nat :=
  fold_right Nat.add 0%nat (map (fun c => occurrences c terms) INTENT_CATEGORIES).

(** Whether the category of a term is one of the list. *)
Definition listed `{Host} (term : ClassifiedTerm) : bool :=
  existsb (String.eqb (categoryKey term)) INTENT_CATEGORIES.

(** The number a property of [categoryCounts] holds, if it holds one. *)
Definition numberAt (counts : gmap string Count) (key : string) : nat :=
  match counts !! key with
  | Some (Number n) => n
  | _ => 0%nat
  end.

(** The property does not hold a text. *)
Definition notText (counts : gmap string Count) (key : string) : Prop :=
  forall ones, counts !! key <> Some (Text ones).

End IntentClassifier.

(* ===================================================================== *)
(** ** Measures on strings and logs *)
(* ===================================================================== *)

Module Measures.
Import Classifier.

(** Whether the character occurs in the string. *)
Fixpoint has_char (c : ascii) (s : string) : bool :=
  match s with
  | EmptyString => false
  | String d rest => Ascii.eqb d c || has_char c rest
  end.

(** The number of calls of the classifier function in a log. *)
Fixpoint attemptedCount (events : list Event) : nat :=
  match events with
  | [] => O
  | Attempted _ :: rest => S (attemptedCount rest)
  | Slept _ :: rest => attemptedCount rest
  end.

(** The milliseconds slept in a log, added up. *)
Definition sleptTotal (events : list Event) : Z :=
  fold_right Z.add 0 (sleeps events).

(** The log of a run in which every attempt for every term throws: for
    each term, in order, the failed attempts with their back-offs and the
    last attempt. *)
Fixpoint failedTrace (maxRetries : Z) (terms : list Term) : list Event :=
  match terms with
  | [] => []
  | term :: rest =>
      (retryTrace term 0 (Z.to_nat maxRetries - 1) ++ [Attempted term])
      ++ failedTrace maxRetries rest
  end.

(** The row of the Results tab for a term that ended in an error: the
    Confidence and Duration cells are empty. *)
Definition errorRow (term : Term) (error : JsError) : list JsValue :=
  [JStr term; JStr "ERROR"; JStr EmptyString; JStr EmptyString;
   JStr (Error_toString error)].

(** The result is an object of category ["ERROR"] for the term, with
    confidence 0, no duration and the text of some error. *)
Definition isErrorResult (term : Term) (r : JsValue) : Prop :=
  exists error, r = JObj (errorResult term error).

End Measures.

(* ===================================================================== *)
(** * Properties *)
(* ===================================================================== *)

(** ** Binary64 facts used below *)

Module JsNumFacts.

Lemma shr_1_nonneg mrs : 0 <= shr_m mrs -> 0 <= shr_m (shr_1 mrs).
Proof.
  destruct mrs as [m r s]; simpl.
  destruct m as [|p|p]; simpl; try lia.
  destruct p; simpl; lia.
Qed.

Lemma iter_shr_1_nonneg p : forall mrs,
  0 <= shr_m mrs -> 0 <= shr_m (SpecFloat.iter_pos shr_1 p mrs).
Proof.
  induction p as [p IH|p IH|]; intros mrs H; simpl.
  - apply IH, IH, shr_1_nonneg, H.
  - apply IH, IH, H.
  - apply shr_1_nonneg, H.
Qed.

Lemma shr_record_of_loc_m m l : shr_m (shr_record_of_loc m l) = m.
Proof. destruct l as [|[]]; reflexivity. Qed.

Lemma shr_fexp_nonneg m e l :
  0 <= m -> 0 <= shr_m (fst (shr_fexp prec emax m e l)).
Proof.
  intros H. unfold shr_fexp, shr.
  destruct (fexp prec emax (Zdigits2 m + e) - e) as [|p|p]; simpl;
    rewrite ?shr_record_of_loc_m; try assumption.
  apply iter_shr_1_nonneg. now rewrite shr_record_of_loc_m.
Qed.

Lemma round_nearest_even_nonneg m l : 0 <= m -> 0 <= round_nearest_even m l.
Proof.
  intros H. destruct l as [|[]]; simpl; try lia.
  destruct (Z.even m); lia.
Qed.

(** Rounding a non-negative mantissa never takes the NaN branch. *)
Lemma binary_round_aux_not_nan sx mx ex lx :
  0 <= mx -> binary_round_aux prec emax sx mx ex lx <> S754_nan.
Proof.
  intros H. unfold binary_round_aux.
  pose proof (shr_fexp_nonneg mx ex lx H) as H1.
  destruct (shr_fexp prec emax mx ex lx) as [mrs' e']. simpl in H1.
  pose proof (shr_fexp_nonneg _ e' loc_Exact
                (round_nearest_even_nonneg _ (loc_of_shr_record mrs') H1)) as H2.
  destruct (shr_fexp prec emax
              (round_nearest_even (shr_m mrs') (loc_of_shr_record mrs')) e' loc_Exact)
    as [mrs'' e''].
  simpl in H2.
  destruct (shr_m mrs'') as [|m|m]; try discriminate.
  - destruct (e'' <=? emax - prec); discriminate.
  - lia.
Qed.

(** A quotient is NaN only for NaN operands, infinity over infinity and
    zero over zero. *)
Lemma div_not_nan x y :
  is_nan x = false -> is_nan y = false ->
  is_infinite x && is_infinite y = false ->
  JsNum.truthy y = true ->
  is_nan (div x y) = false.
Proof.
  intros Hx Hy Hinf Hy0.
  destruct x as [sx|sx| |sx mx ex], y as [sy|sy| |sy my ey];
    simpl in *; try discriminate; try reflexivity.
  unfold SFdiv_core_binary.
  set (e' := Z.min _ _).
  set (m' := match _ with Z0 => _ | _ => _ end).
  assert (Hm' : 0 <= m').
  { subst m'. destruct (ex - ey - e'); try lia. apply Z.shiftl_nonneg. lia. }
  pose proof (Z_div_mod m' (Z.pos my) ltac:(lia)) as D.
  destruct (Z.div_eucl m' (Z.pos my)) as [q r].
  assert (Hq : 0 <= q) by (destruct D as [D1 D2]; nia).
  pose proof (binary_round_aux_not_nan (xorb sx sy) q e'
                (new_location (Z.pos my) r) Hq) as N.
  destruct (binary_round_aux _ _ _ _ _ _); simpl; congruence.
Qed.

Lemma gt_zero_truthy x : gt x zero = true -> JsNum.truthy x = true.
Proof. destruct x as [s|s| |s m e]; simpl; try discriminate; reflexivity. Qed.

Lemma gt_zero_not_nan x : gt x zero = true -> is_nan x = false.
Proof. destruct x as [s|s| |s m e]; simpl; try discriminate; reflexivity. Qed.

Lemma or_zero_not_nan x : is_nan (or_zero x) = false.
Proof. destruct x as [s|s| |s m e]; reflexivity. Qed.

Lemma or_zero_infinite x : is_infinite (or_zero x) = is_infinite x.
Proof. destruct x as [s|s| |s m e]; reflexivity. Qed.

(** [SFcompare] is antisymmetric. *)
Lemma SFcompare_antisym x y :
  SFcompare y x = option_map CompOpp (SFcompare x y).
Proof.
  destruct x as [sx|sx| |sx mx ex], y as [sy|sy| |sy my ey]; simpl;
    try reflexivity;
    try (destruct sx; reflexivity); try (destruct sy; reflexivity);
    try (destruct sx, sy; reflexivity).
  destruct sx, sy; simpl; try reflexivity.
  - rewrite (Z.compare_antisym ex ey).
    destruct (ex ?= ey) eqn:E; simpl; try reflexivity.
    rewrite (Pos.compare_cont_antisym mx my). simpl.
    now destruct (Pos.compare_cont Eq mx my).
  - rewrite (Z.compare_antisym ex ey).
    destruct (ex ?= ey) eqn:E; simpl; try reflexivity.
    rewrite (Pos.compare_cont_antisym mx my). reflexivity.
Qed.

(** On numbers other than NaN, [x > y] is the negation of [x <= y]. *)
Lemma gt_not_le x y :
  is_nan x = false -> is_nan y = false -> gt x y = negb (le x y).
Proof.
  intros Hx Hy. unfold gt, le, SFltb, SFleb.
  rewrite (SFcompare_antisym x y).
  destruct x as [sx|sx| |sx mx ex], y as [sy|sy| |sy my ey];
    try discriminate; simpl;
    try reflexivity;
    try (destruct sx; reflexivity); try (destruct sy; reflexivity);
    try (destruct sx, sy; reflexivity).
  destruct sx, sy; simpl; try reflexivity.
  - destruct (ex ?= ey); simpl; try reflexivity.
    now destruct (CompOpp (Pos.compare_cont Eq mx my)).
  - destruct (ex ?= ey); simpl; try reflexivity.
    now destruct (Pos.compare_cont Eq mx my).
Qed.

End JsNumFacts.

(* ===================================================================== *)
(** ** calculateMetrics *)
(* ===================================================================== *)

Module SearchTermReportFacts.
Import SearchTermReport JsNumFacts.

Example metrics_row_plain :
  let m := metricsOf row_plain in
  cost m = lit 2.5 /\ cpc m = lit 0.625 /\ ctr m = lit 0.1
  /\ convRate m = lit 0.5 /\ cpa m = lit 1.25 /\ roas m = of_Z 4
  /\ aov m = of_Z 5.
Proof. vm_compute. repeat split. Qed.

Example metrics_row_idle :
  let m := metricsOf row_idle in
  cost m = zero /\ ratios m = [zero; zero; zero; zero; zero; zero].
Proof. vm_compute. split; reflexivity. Qed.

(** A guarded quotient is not NaN when its operands are not NaN and the
    numerator is not infinite. *)
Lemma guarded_div_not_nan x y :
  is_nan x = false -> is_infinite x = false ->
  is_nan (if gt y zero then div x y else zero) = false.
Proof.
  intros Hx Hi. destruct (gt y zero) eqn:G; [|reflexivity].
  apply div_not_nan; auto using gt_zero_not_nan, gt_zero_truthy.
  now rewrite Hi.
Qed.

(** The same when instead the denominator is known not to be infinite. *)
Lemma guarded_div_not_nan_r x y :
  is_nan x = false -> is_infinite y = false ->
  is_nan (if gt y zero then div x y else zero) = false.
Proof.
  intros Hx Hi. destruct (gt y zero) eqn:G; [|reflexivity].
  apply div_not_nan; auto using gt_zero_not_nan, gt_zero_truthy.
  rewrite Hi. apply andb_false_r.
Qed.

Lemma cost_not_nan row : is_nan (cost (metricsOf row)) = false.
Proof.
  simpl. apply div_not_nan; try reflexivity.
  - apply or_zero_not_nan.
  - apply andb_false_r.
Qed.




End SearchTermReportFacts.

(* ===================================================================== *)
(** ** validateResponse *)
(* ===================================================================== *)

Module ValidateFacts.
Import Classifier JsNumFacts.

Lemma in_CATEGORIES c :
  existsb (String.eqb c) CATEGORIES = true -> In c CATEGORIES.
Proof.
  intros H. apply existsb_exists in H as (x & Hx & E).
  apply String.eqb_eq in E. now subst.
Qed.

(** The category test passes exactly for a string of the list. *)
Lemma category_accepted v :
  category_rejected v = false <-> exists c, v = JStr c /\ In c CATEGORIES.
Proof.
  unfold category_rejected. split.
  - intros H. apply orb_false_iff in H as [_ H].
    apply negb_false_iff in H.
    destruct v; simpl in H; try discriminate.
    eexists; split; [reflexivity|]. now apply in_CATEGORIES.
  - intros (c & -> & Hc). simpl in Hc.
    repeat (destruct Hc as [<-|Hc]; [reflexivity|]). destruct Hc.
Qed.

(** Outside NaN, the test of the script is the negation of membership in
    the interval. *)
Lemma confidence_rejected_num x :
  is_nan x = false ->
  confidence_rejected (JNum x) = negb (in_unit_interval x).
Proof.
  intros Hx. unfold confidence_rejected, in_unit_interval.
  rewrite negb_andb.
  rewrite <- (gt_not_le zero x), <- (gt_not_le x one) by (assumption || reflexivity).
  reflexivity.
Qed.

Lemma validateResponse_object `{Host} (o : gmap string JsValue) :
  category_rejected (Js.field o "category") = false ->
  validateResponse (JObj o) =
    Return (if confidence_rejected (Js.field o "confidence")
            then <["confidence" := JNum half]> o else o).
Proof.
  intros Hc. simpl. rewrite Hc.
  now destruct (confidence_rejected _).
Qed.

(** C4.  For a parsed response object with a valid category, whose numbers
    are JSON numbers (never NaN): a confidence that is missing, is not a
    number, or lies outside the interval from 0 to 1 is replaced by exactly
    0.5 and the object is still returned; a confidence inside the interval,
    0 and 1 included, leaves the object as it is. *)
Theorem validateResponse_confidence `{Host} (o : gmap string JsValue) :
  category_rejected (Js.field o "category") = false ->
  o !! "confidence" <> Some (JNum NaN) ->
  (o !! "confidence" = None ->
     validateResponse (JObj o) = Return (<["confidence" := JNum half]> o))
  /\ (forall v, o !! "confidence" = Some v -> Js.is_number v = false ->
        validateResponse (JObj o) = Return (<["confidence" := JNum half]> o))
  /\ (forall x, o !! "confidence" = Some (JNum x) -> in_unit_interval x = false ->
        validateResponse (JObj o) = Return (<["confidence" := JNum half]> o))
  /\ (forall x, o !! "confidence" = Some (JNum x) -> in_unit_interval x = true ->
        validateResponse (JObj o) = Return o)
  /\ half = lit 0.5
  /\ in_unit_interval zero = true /\ in_unit_interval one = true.
Proof.
  intros Hc Hnan.
  pose proof (validateResponse_object o Hc) as V. unfold Js.field in V.
  repeat apply conj; try reflexivity.
  - intros E. rewrite E in V. exact V.
  - intros v E Hv. rewrite E in V. simpl in V.
    destruct v; try discriminate Hv; exact V.
  - intros x E Hx. rewrite E in V. simpl default in V.
    rewrite confidence_rejected_num, Hx in V; [exact V|].
    destruct x; try reflexivity. now rewrite E in Hnan.
  - intros x E Hx. rewrite E in V. simpl default in V.
    rewrite confidence_rejected_num, Hx in V; [exact V|].
    destruct x; try reflexivity. now rewrite E in Hnan.
Qed.

(** The theorem at a reply with confidence 0.92, kept, and at the same reply
    with confidence 7, replaced. *)
Lemma validateResponse_confidence_witness :
  validateResponse (H := Samples.host_local) (JObj Samples.commercial)
  = Return Samples.commercial
  /\ validateResponse (H := Samples.host_local) (JObj Samples.commercial_seven)
     = Return (<["confidence" := JNum half]> Samples.commercial_seven).
Proof.
  split.
  - destruct (validateResponse_confidence (H := Samples.host_local)
                Samples.commercial eq_refl ltac:(vm_compute; discriminate))
      as (_ & _ & _ & Hin & _).
    apply (Hin (lit 0.92)); reflexivity.
  - destruct (validateResponse_confidence (H := Samples.host_local)
                Samples.commercial_seven eq_refl ltac:(vm_compute; discriminate))
      as (_ & _ & Hout & _).
    apply (Hout (of_Z 7)); reflexivity.
Defined.

(** C6.  [validateResponse] throws when the category is absent and when it
    is any value that is not one of [CATEGORIES]; whatever it returns has a
    category of [CATEGORIES]; and inside [classifyTerm] its throw is the
    outcome of the attempt, which the retry loop answers with a back-off
    and another attempt unless it was the last one.  The lax
    [parseOpenAIResponse] of the single-provider script does return
    categories outside its list, but never silently: each comes with a
    logged warning or error. *)
Theorem validateResponse_strict `{Host} :
  (forall o, o !! "category" = None ->
     validateResponse (JObj o) = Throw (new_Error "Invalid category: undefined"))
  /\ (forall o c, o !! "category" = Some c -> Js.includes CATEGORIES c = false ->
        validateResponse (JObj o)
        = Throw (new_Error ("Invalid category: " +:+ ToString c)))
  /\ (forall result, (forall o, result <> JObj o) ->
        exists e, validateResponse result = Throw e)
  /\ (forall result o', validateResponse result = Return o' ->
        exists c, o' !! "category" = Some (JStr c) /\ In c CATEGORIES)
  /\ (forall text json result e,
        JsonMatch.jsonMatch text = Some json ->
        JSON_parse json = Return result ->
        validateResponse result = Throw e ->
        readClassification (JStr text) = Throw e)
  /\ (forall E (classifyFn : Term -> string -> JsValue -> E -> Attempt E)
             maxRetries apiKey modelVersion term remaining attempt w e,
        outcome (classifyFn term apiKey modelVersion (ext w)) = Throw e ->
        attempt <> maxRetries - 1 ->
        attempts classifyFn maxRetries apiKey modelVersion term
          (S remaining) attempt w
        = attempts classifyFn maxRetries apiKey modelVersion term
            remaining (attempt + 1)
            (Utilities_sleep (2 ^ attempt * 1000)
               {| ext := after (classifyFn term apiKey modelVersion (ext w));
                  now := now w + took (classifyFn term apiKey modelVersion (ext w));
                  trace := trace w ++ [Attempted term] |}))
  /\ (forall response c logged,
        IntentClassifier.parseOpenAIResponse response = (c, logged) ->
        Js.includes IntentClassifier.INTENT_CATEGORIES
          (IntentClassifier.category c) = false ->
        logged <> []).
Proof.
  repeat apply conj.
  - intros o E. simpl. unfold Js.field. rewrite E. reflexivity.
  - intros o c E Hc. simpl. unfold Js.field at 1 2. rewrite E. simpl.
    unfold category_rejected. rewrite Hc, orb_true_r. reflexivity.
  - intros result Hno. destruct result; simpl; eauto. now destruct (Hno fields).
  - intros result o' V. destruct result; try discriminate V. simpl in V.
    destruct (category_rejected (Js.field fields "category")) eqn:Hc;
      [discriminate V|].
    apply category_accepted in Hc as (c & Ec & Hc).
    exists c. split; [|exact Hc].
    unfold Js.field in Ec.
    destruct (fields !! "category") as [v|] eqn:L; simpl in Ec; [|discriminate Ec].
    subst v.
    destruct (confidence_rejected _); injection V as <-; [|exact L].
    rewrite lookup_insert_ne by discriminate. exact L.
  - intros text json result e M P V. simpl. rewrite M. simpl.
    rewrite P. exact V.
  - intros E classifyFn maxRetries apiKey modelVersion term remaining attempt w e O Hn.
    simpl. rewrite O.
    destruct (attempt =? maxRetries - 1) eqn:Q; [|reflexivity].
    apply Z.eqb_eq in Q. contradiction.
  - intros response c logged P Hout.
    unfold IntentClassifier.parseOpenAIResponse in P.
    destruct (IntentClassifier.parseBody response) as [e|[c' l]] eqn:B;
      [injection P as <- <-; discriminate|].
    injection P as -> ->.
    unfold IntentClassifier.parseBody in B.
    destruct response; try discriminate B.
    destruct (JsonMatch.jsonMatch s); [|discriminate B].
    destruct (JSON_parse s0) as [e|result]; [discriminate B|]. cbn [bindT] in B.
    destruct (Js.get result "category") as [e|category]; [discriminate B|].
    cbn [bindT] in B.
    destruct (Js.get result "confidence") as [e|confidence]; [discriminate B|].
    cbn [bindT] in B.
    destruct (negb (Js.truthy category) || negb (Js.is_number confidence));
      [discriminate B|].
    injection B as <- <-. simpl in Hout. rewrite Hout. discriminate.
Qed.

End ValidateFacts.

(* ===================================================================== *)
(** ** The retry loop *)
(* ===================================================================== *)

Module DriverFacts.
Import Classifier.

Lemma errorResult_fields term e :
  errorResult term e !! "term" = Some (JStr term)
  /\ errorResult term e !! "category" = Some (JStr "ERROR")
  /\ errorResult term e !! "confidence" = Some (JNum zero)
  /\ errorResult term e !! "duration" = None
  /\ errorResult term e !! "error" = Some (JStr (Error_toString e)).
Proof. repeat split. Qed.

Lemma successResult_fields r term d :
  successResult r term d !! "term" = Some (JStr term)
  /\ successResult r term d !! "duration" = Some (JNum d)
  /\ (forall k, k <> "term" -> k <> "duration" ->
        successResult r term d !! k = r !! k).
Proof.
  unfold successResult. repeat split.
  - rewrite lookup_insert_ne by discriminate. apply lookup_insert_eq.
  - apply lookup_insert_eq.
  - intros k H1 H2. now rewrite !lookup_insert_ne by congruence.
Qed.

(** The text of an error is never empty and ends with its message. *)
Lemma Error_toString_message e :
  Error_toString e <> EmptyString
  /\ exists prefix, Error_toString e = prefix +:+ err_message e.
Proof.
  unfold Error_toString. destruct e as [c m]; simpl.
  destruct (String.eqb m EmptyString) eqn:Q.
  - apply String.eqb_eq in Q. subst m. split.
    + destruct c; discriminate.
    + exists (class_name c). destruct c; reflexivity.
  - split.
    + destruct c; discriminate.
    + exists (class_name c +:+ ": ").
      destruct c; reflexivity.
Qed.

Lemma sleeps_app l1 l2 : sleeps (l1 ++ l2) = sleeps l1 ++ sleeps l2.
Proof. unfold sleeps. apply omap_app. Qed.

(** The back-offs of [k] failures from iteration [attempt] on add up to
    [2^attempt * (2^k - 1)] seconds. *)
Lemma sleeps_retryTrace term k : forall attempt,
  0 <= attempt ->
  sleeps (retryTrace term attempt k)
  = map (fun i => 2 ^ (attempt + Z.of_nat i) * 1000) (seq 0 k)
  /\ fold_right Z.add 0 (sleeps (retryTrace term attempt k))
     = 2 ^ attempt * (2 ^ Z.of_nat k - 1) * 1000.
Proof.
  induction k as [|k IH]; intros attempt Ha.
  - split; [reflexivity|]. simpl. lia.
  - destruct (IH (attempt + 1) ltac:(lia)) as [IH1 IH2].
    cbn [retryTrace]. change (sleeps (?a :: Slept ?ms :: ?l)) with (ms :: sleeps l).
    split.
    + cbn [seq map]. rewrite Z.add_0_r. f_equal.
      rewrite IH1, <- seq_shift, map_map.
      apply map_ext. intros i. do 2 f_equal. lia.
    + cbn [fold_right]. rewrite IH2.
      rewrite Nat2Z.inj_succ, !Z.pow_succ_r, Z.pow_add_r by lia.
      change (2 ^ 1) with 2. lia.
Qed.

Section Generic.
Context {E : Type}.
Variable classifyFn : Term -> string -> JsValue -> E -> Attempt E.
Variable maxRetries : Z.
Variables (apiKey : string) (modelVersion : JsValue).

Local Abbreviation attempts := (attempts classifyFn maxRetries apiKey modelVersion).
Local Abbreviation nthAttempt := (nthAttempt classifyFn apiKey modelVersion).
Local Abbreviation afterFailures := (afterFailures classifyFn apiKey modelVersion).
Local Abbreviation classifyWithRetry :=
  (classifyWithRetry classifyFn maxRetries apiKey modelVersion).
Local Abbreviation mapTerms := (mapTerms classifyFn maxRetries apiKey modelVersion).

Lemma afterFailures_trace term k : forall attempt w,
  trace (afterFailures term attempt k w) = trace w ++ retryTrace term attempt k.
Proof.
  induction k as [|k IH]; intros attempt w; simpl.
  - now rewrite app_nil_r.
  - rewrite IH. simpl. now rewrite <- !app_assoc.
Qed.

Lemma afterFailures_ext term k : forall attempt w j,
  nthAttempt term (k + j) (ext w)
  = nthAttempt term j (ext (afterFailures term attempt k w)).
Proof.
  induction k as [|k IH]; intros attempt w j; simpl; [reflexivity|].
  now rewrite <- IH.
Qed.

(** [k] throwing attempts, none in the last iteration, lead to iteration
    [attempt + k] in the world [afterFailures]. *)
Lemma attempts_failures term k : forall attempt w r,
  (forall j, (j < k)%nat -> thrown (nthAttempt term j (ext w))) ->
  attempt + Z.of_nat k <= maxRetries - 1 ->
  attempts term (k + r) attempt w
  = attempts term r (attempt + Z.of_nat k) (afterFailures term attempt k w).
Proof.
  induction k as [|k IH]; intros attempt w r Hthrow Hle.
  - simpl. now rewrite Z.add_0_r.
  - destruct (Hthrow 0%nat ltac:(lia)) as [e He]. simpl in He.
    cbn [Nat.add Classifier.attempts Classifier.afterFailures].
    rewrite He.
    replace (attempt =? maxRetries - 1) with false by (symmetry; apply Z.eqb_neq; lia).
    rewrite IH.
    + f_equal. lia.
    + intros j Hj. apply (Hthrow (S j)). lia.
    + lia.
Qed.

(** When every attempt throws, the term gets the terminal result built
    from the last error; the log shows a back-off after each attempt but
    the last. *)
Lemma all_attempts_throw term w e_last :
  1 <= maxRetries ->
  (forall j, (j < Z.to_nat maxRetries)%nat -> thrown (nthAttempt term j (ext w))) ->
  outcome (nthAttempt term (Z.to_nat maxRetries - 1) (ext w)) = Throw e_last ->
  exists w',
    classifyWithRetry term w = (JObj (errorResult term e_last), w')
    /\ trace w' = trace w ++ retryTrace term 0 (Z.to_nat maxRetries - 1)
                    ++ [Attempted term].
Proof.
  intros Hmax Hthrow Hlast. unfold Classifier.classifyWithRetry.
  destruct (Z.to_nat maxRetries) as [|m] eqn:En; [lia|].
  replace (S m - 1)%nat with m in * by lia.
  replace (S m) with (m + 1)%nat by lia.
  rewrite attempts_failures; [|intros j Hj; apply Hthrow; lia|lia].
  rewrite <- (Nat.add_0_r m), (afterFailures_ext term m 0) in Hlast.
  simpl in Hlast. cbn [Classifier.attempts]. rewrite Hlast.
  replace (0 + Z.of_nat m =? maxRetries - 1) with true
    by (symmetry; apply Z.eqb_eq; lia).
  eexists. split; [reflexivity|]. simpl.
  now rewrite afterFailures_trace, <- app_assoc.
Qed.

(** When the attempts before the [k]-th throw and the [k]-th returns, the
    loop returns at once: the log ends with that attempt. *)
Lemma attempt_succeeds term w k r :
  (k < Z.to_nat maxRetries)%nat ->
  (forall j, (j < k)%nat -> thrown (nthAttempt term j (ext w))) ->
  outcome (nthAttempt term k (ext w)) = Return r ->
  exists w',
    classifyWithRetry term w
    = (JObj (successResult r term
               (div (of_Z (took (nthAttempt term k (ext w)))) thousand)), w')
    /\ trace w' = trace w ++ retryTrace term 0 k ++ [Attempted term]
    /\ ext w' = after (nthAttempt term k (ext w)).
Proof.
  intros Hk Hthrow Hret. unfold Classifier.classifyWithRetry.
  replace (Z.to_nat maxRetries) with (k + S (Z.to_nat maxRetries - S k))%nat by lia.
  rewrite attempts_failures; [|assumption|lia].
  pose proof (afterFailures_ext term k 0 w 0%nat) as Ek.
  rewrite Nat.add_0_r in Ek. rewrite Ek in Hret |- *. simpl in Hret.
  cbn [Classifier.attempts Classifier.nthAttempt]. rewrite Hret.
  eexists. split; [|split].
  - cbn [now]. rewrite Z.add_simpl_l. reflexivity.
  - simpl. now rewrite afterFailures_trace, <- app_assoc.
  - reflexivity.
Qed.

(** With at least one attempt allowed the callback returns an object
    whose [term] is its argument. *)
Lemma attempts_object term remaining : forall attempt w,
  Z.of_nat remaining = maxRetries - attempt -> (1 <= remaining)%nat ->
  exists o, fst (attempts term remaining attempt w) = JObj o
            /\ o !! "term" = Some (JStr term).
Proof.
  induction remaining as [|r IH]; intros attempt w Hr H1; [lia|].
  cbn [Classifier.attempts].
  destruct (outcome _) as [e|res].
  - destruct (attempt =? maxRetries - 1) eqn:Q.
    + eexists. split; [reflexivity|]. apply errorResult_fields.
    + apply Z.eqb_neq in Q. apply IH; lia.
  - eexists. split; [reflexivity|]. apply successResult_fields.
Qed.

Lemma classifyWithRetry_object term w :
  1 <= maxRetries ->
  exists o, fst (classifyWithRetry term w) = JObj o
            /\ o !! "term" = Some (JStr term).
Proof.
  intros H. apply attempts_object; lia.
Qed.

(** One object for each term, in order, each with its term. *)
Lemma mapTerms_objects terms : forall w,
  1 <= maxRetries ->
  Forall2 (fun term r => exists o, r = JObj o /\ o !! "term" = Some (JStr term))
    terms (fst (mapTerms terms w)).
Proof.
  induction terms as [|term rest IH]; intros w H; simpl.
  - constructor.
  - destruct (classifyWithRetry_object term w H) as (o & Eo & Ho).
    destruct (classifyWithRetry term w) as [r w1]. simpl in Eo. subst r.
    specialize (IH w1 H).
    destruct (mapTerms rest w1) as [rs w2]. simpl in *.
    constructor; eauto.
Qed.

End Generic.

(** Case analysis on the index of an attempt under [MAX_RETRIES]: the goals
    for the indices 0, 1 and 2 remain. *)
Ltac below_MAX_RETRIES j Hj :=
  change (Z.to_nat MAX_RETRIES) with 3%nat in Hj;
  destruct j as [|[|[|j]]]; [| | |exfalso; lia].







End DriverFacts.

(* ===================================================================== *)
(** ** classifyTerms and outputResults *)
(* ===================================================================== *)

Module OutputFacts.
Import Classifier DriverFacts.

Lemma resultRow_object (o : gmap string JsValue) :
  resultRow (JObj o)
  = Return [Js.field o "term"; Js.field o "category";
            Js.or (Js.field o "confidence") (JStr EmptyString);
            Js.or (Js.field o "duration") (JStr EmptyString);
            Js.or (Js.field o "error") (JStr EmptyString)].
Proof. reflexivity. Qed.

(** A list of objects, one for each term, gives one row for each term,
    with the term in the first column. *)
Lemma resultRows_objects terms : forall results,
  Forall2 (fun term r => exists o, r = JObj o /\ o !! "term" = Some (JStr term))
    terms results ->
  exists rows,
    resultRows results = Return rows
    /\ Forall2 (fun term row =>
                  exists category confidence duration error,
                    row = [JStr term; category; confidence; duration; error])
         terms rows.
Proof.
  induction terms as [|term rest IH]; intros results F; inversion F; subst.
  - exists []. split; [reflexivity|constructor].
  - destruct H1 as (o & -> & Ho).
    destruct (IH _ H3) as (rows & Hrows & Frows).
    eexists. split.
    + cbn [resultRows]. rewrite resultRow_object. cbn [bindT].
      rewrite Hrows. reflexivity.
    + constructor; [|exact Frows].
      unfold Js.field at 1. rewrite Ho. simpl. eauto.
Qed.

Lemma validated_settings read settings :
  readAndValidateSettings read = Return settings ->
  MODELS_at (model settings) <> Absent
  /\ topTerms settings <> []
  /\ exists modelVersion, modelVersionOf settings = Return modelVersion.
Proof.
  unfold readAndValidateSettings. intros V.
  set (s := if String.eqb (model read) "google" then _ else _) in V.
  destruct (MODELS_at (model s)) eqn:M; try discriminate V;
    (destruct (length (topTerms s) =? 0)%nat eqn:L; [discriminate V|]);
    injection V as <-; apply Nat.eqb_neq in L;
    (split; [congruence|]);
    (split; [intros Q; rewrite Q in L; now apply L|]);
    unfold modelVersionOf; rewrite M; eauto.
Qed.

(** For validated settings [classifyTerms] returns, with one object for each
    term, and [outputResults] writes one row for each. *)
Lemma classifyTerms_results `{Host} (read settings : Settings)
    (apiKey : string) (w : World Net) (sheet : Spreadsheet) :
  readAndValidateSettings read = Return settings ->
  exists results w' rows,
    classifyTerms settings apiKey w = (Return results, w')
    /\ Forall2 (fun term r => exists o, r = JObj o /\ o !! "term" = Some (JStr term))
         (topTerms settings) results
    /\ resultRows results = Return rows
    /\ Forall2 (fun term row =>
                  exists category confidence duration error,
                    row = [JStr term; category; confidence; duration; error])
         (topTerms settings) rows
    /\ outputResults sheet results
       = (Return tt, <["Results" := resultsHeader :: rows]> sheet).
Proof.
  intros V.
  destruct (validated_settings read settings V) as (_ & _ & mv & Hmv).
  unfold classifyTerms. rewrite Hmv.
  pose proof (mapTerms_objects (getClassifierFunction (model settings))
                MAX_RETRIES apiKey mv (topTerms settings) w
                ltac:(unfold MAX_RETRIES; lia)) as F.
  destruct (mapTerms _ _ _ _ _ w) as [results w']. simpl in F.
  destruct (resultRows_objects _ _ F) as (rows & Hrows & Frows).
  exists results, w', rows. repeat split; try assumption.
  unfold outputResults. rewrite Hrows. reflexivity.
Qed.

(** C9.  For validated settings, whatever the host answers, [classifyTerms]
    returns one object for each term of the list, in the order of the list,
    each with its term as [term]; [outputResults] then writes below the
    header one row for each term, in that order, with the term in the first
    column.  The same holds of the retry loop over any classifier
    function. *)
Theorem classifyTerms_one_result_per_term `{Host}
    (read settings : Settings) (apiKey : string) (w : World Net)
    (sheet : Spreadsheet) :
  readAndValidateSettings read = Return settings ->
  (exists results w' rows,
     classifyTerms settings apiKey w = (Return results, w')
     /\ Forall2 (fun term r => exists o, r = JObj o /\ o !! "term" = Some (JStr term))
          (topTerms settings) results
     /\ length results = length (topTerms settings)
     /\ resultRows results = Return rows
     /\ Forall2 (fun term row =>
                   exists category confidence duration error,
                     row = [JStr term; category; confidence; duration; error])
          (topTerms settings) rows
     /\ length rows = length (topTerms settings)
     /\ outputResults sheet results
        = (Return tt, <["Results" := resultsHeader :: rows]> sheet))
  /\ (forall E (classifyFn : Term -> string -> JsValue -> E -> Attempt E)
             modelVersion terms (w0 : World E),
        Forall2 (fun term r => exists o, r = JObj o /\ o !! "term" = Some (JStr term))
          terms
          (fst (mapTerms classifyFn MAX_RETRIES apiKey modelVersion terms w0))).
Proof.
  intros V. split.
  - destruct (classifyTerms_results read settings apiKey w sheet V)
      as (results & w' & rows & Hc & F & Hrows & Frows & Ho).
    exists results, w', rows. repeat split; try assumption.
    + symmetry. eapply Forall2_length, F.
    + symmetry. eapply Forall2_length, Frows.
  - intros E classifyFn modelVersion terms w0.
    apply mapTerms_objects. unfold MAX_RETRIES. lia.
Qed.

(** The theorem at three terms and a host that answers 429 twice. *)
Lemma classifyTerms_one_result_per_term_witness :
  exists results w',
    classifyTerms (H := Samples.host_429_twice)
      (Samples.settings_openai ["best running shoes"; "cafe near me"; "how to lace"])
      "key" world_initial
    = (Return results, w')
    /\ length results = 3%nat.
Proof.
  destruct (classifyTerms_one_result_per_term (H := Samples.host_429_twice)
              (Samples.settings_openai ["best running shoes"; "cafe near me"; "how to lace"])
              (Samples.settings_openai ["best running shoes"; "cafe near me"; "how to lace"])
              "key" world_initial ∅ eq_refl)
    as ((results & w' & rows & Hc & _ & Hl & _) & _).
  exists results, w'. split; [exact Hc|exact Hl].
Defined.

(** Two replies with status 429, then a valid one: the third attempt
    succeeds, two back-offs were slept, three requests were sent, and the row
    shows the classification, the 0.25 seconds of the third attempt and no
    error; only the reply with status 200 is counted in the token totals. *)
Example scenario_429_twice :
  let run := main (H := Samples.host_429_twice)
               (Samples.settings_openai ["best running shoes"])
               {[ "key_openai" := "sk-test" ]} ∅ world_initial in
  run_fatal run = None
  /\ run_sheet run !! "Results"
     = Some [resultsHeader;
             [JStr "best running shoes"; JStr "COMMERCIAL"; JNum (lit 0.92);
              JNum (lit 0.25); JStr EmptyString]]
  /\ sleeps (trace (run_world run)) = [1000; 2000]
  /\ length (sent (ext (run_world run))) = 3%nat
  /\ tokenCounts (ext (run_world run))
     = {| tokens_in := of_Z 10; tokens_out := of_Z 5 |}.
Proof. vm_compute. repeat split. Qed.

(** A provider that is down: each of the two terms is tried three times, with
    back-offs of one and two seconds, and gets an ["ERROR"] row; the run ends
    normally, with a zero estimate. *)
Example scenario_provider_down :
  let run := main (H := Samples.host_down)
               (Samples.settings_openai ["red shoes"; "blue shoes"])
               {[ "key_openai" := "sk-test" ]} ∅ world_initial in
  run_fatal run = None
  /\ run_sheet run !! "Results"
     = Some [resultsHeader;
             [JStr "red shoes"; JStr "ERROR"; JStr EmptyString; JStr EmptyString;
              JStr "Error: API error (503): unavailable"];
             [JStr "blue shoes"; JStr "ERROR"; JStr EmptyString; JStr EmptyString;
              JStr "Error: API error (503): unavailable"]]
  /\ trace (run_world run)
     = [Attempted "red shoes"; Slept 1000; Attempted "red shoes"; Slept 2000;
        Attempted "red shoes";
        Attempted "blue shoes"; Slept 1000; Attempted "blue shoes"; Slept 2000;
        Attempted "blue shoes"]
  /\ option_map total (run_costs run) = Some zero.
Proof. vm_compute. repeat split. Qed.

Lemma truthy_error_text e : Js.truthy (JStr (Error_toString e)) = true.
Proof.
  simpl. apply negb_true_iff, String.eqb_neq, Error_toString_message.
Qed.

(** C10.  In the row written for a result, a confidence of 0 (of either
    sign) and a duration of 0 appear as the empty string, not as the number
    0; the terminal ["ERROR"] result, whose confidence is 0 and which has no
    duration, gets both cells empty; and so does a classification that
    [validateResponse] accepted with confidence exactly 0 and that took no
    measurable time. *)
Theorem outputResults_blank_for_zero :
  (forall (o : gmap string JsValue) s,
      o !! "confidence" = Some (JNum (S754_zero s)) ->
      exists term category duration error,
        resultRow (JObj o) = Return [term; category; JStr EmptyString; duration; error])
  /\ (forall (o : gmap string JsValue) s,
        o !! "duration" = Some (JNum (S754_zero s)) ->
        exists term category confidence error,
          resultRow (JObj o) = Return [term; category; confidence; JStr EmptyString; error])
  /\ (forall term e,
        resultRow (JObj (errorResult term e))
        = Return [JStr term; JStr "ERROR"; JStr EmptyString; JStr EmptyString;
                  JStr (Error_toString e)])
  /\ (forall (H : Host) term,
        validateResponse (JObj Samples.question_zero) = Return Samples.question_zero
        /\ resultRow (JObj (successResult Samples.question_zero term zero))
           = Return [JStr term; JStr "QUESTION"; JStr EmptyString;
                     JStr EmptyString; JStr EmptyString])
  /\ (forall sheet term e,
        snd (outputResults sheet [JObj (errorResult term e)]) !! "Results"
        = Some [resultsHeader;
                [JStr term; JStr "ERROR"; JStr EmptyString; JStr EmptyString;
                 JStr (Error_toString e)]]).
Proof.
  assert (Herr : forall term e,
             resultRow (JObj (errorResult term e))
             = Return [JStr term; JStr "ERROR"; JStr EmptyString; JStr EmptyString;
                       JStr (Error_toString e)]).
  { intros term e. rewrite resultRow_object.
    destruct (errorResult_fields term e) as (F1 & F2 & F3 & F4 & F5).
    unfold Js.field. rewrite F1, F2, F3, F4, F5. simpl default.
    unfold Js.or. rewrite truthy_error_text. reflexivity. }
  repeat apply conj.
  - intros o s Hc. rewrite resultRow_object.
    unfold Js.field at 3. rewrite Hc. simpl. eauto.
  - intros o s Hd. rewrite resultRow_object.
    unfold Js.field at 4. rewrite Hd. simpl. eauto.
  - exact Herr.
  - intros H term. split; reflexivity.
  - intros sheet term e. unfold outputResults. cbn [resultRows].
    rewrite Herr. simpl. apply lookup_insert_eq.
Qed.

End OutputFacts.

(* ===================================================================== *)
(** ** Token accounting, cost estimate and the model table *)
(* ===================================================================== *)

Module CostFacts.
Import Classifier.

(** The table has exactly three providers. *)
Lemma MODELS_keys name :
  is_Some (MODELS !! name) <-> In name ["openai"; "anthropic"; "gemini"].
Proof.
  unfold MODELS. rewrite !list_to_map_cons, list_to_map_nil. simpl.
  split.
  - intros [e He].
    destruct (decide ("openai" = name)) as [<-|N1]; [now left|].
    rewrite lookup_insert_ne in He by assumption.
    destruct (decide ("anthropic" = name)) as [<-|N2]; [now right; left|].
    rewrite lookup_insert_ne in He by assumption.
    destruct (decide ("gemini" = name)) as [<-|N3]; [now right; right; left|].
    rewrite lookup_insert_ne, lookup_empty in He by assumption. discriminate.
  - intros [<-|[<-|[<-|[]]]]; eexists; reflexivity.
Qed.

Lemma MODELS_at_entry name e :
  MODELS_at name = Entry e <-> MODELS !! name = Some e.
Proof.
  unfold MODELS_at. destruct (MODELS !! name) as [e'|]; split; intros Q;
    try congruence.
  destruct (existsb _ _); discriminate.
Qed.

(** Adding the [0] of an absent count changes nothing (the totals are
    never the negative zero: they start at [+0]). *)
Lemma add_zero x : x <> S754_zero true -> add x zero = x.
Proof. destruct x as [[]|s| |s m e]; simpl; congruence. Qed.

(** What one call of [classifyTerm] does to the accumulator. *)
Lemma classifyTerm_tokens `{Host} term apiKey modelConfig (n : Net) p :
  modelTypeOf modelConfig = Return p ->
  let fetched := UrlFetchApp_fetch (length (sent n))
                   (requestFor term apiKey modelConfig p) in
  (forall response data text usage,
      reply fetched = Return response ->
      code response = 200 ->
      JSON_parse (body response) = Return data ->
      extractResponse (endpoints apiKey modelConfig p) data = Return (text, usage) ->
      tokenCounts (after (classifyTerm term apiKey modelConfig n))
      = updateTokenCounts (tokenCounts n) (Some usage))
  /\ (forall e, reply fetched = Throw e ->
        tokenCounts (after (classifyTerm term apiKey modelConfig n)) = tokenCounts n)
  /\ (forall response, reply fetched = Return response -> code response <> 200 ->
        tokenCounts (after (classifyTerm term apiKey modelConfig n)) = tokenCounts n).
Proof.
  intros Hp fetched. unfold classifyTerm. rewrite Hp. fold fetched.
  repeat apply conj.
  - intros response data text usage Hr Hc Hd He. rewrite Hr.
    unfold readReply. rewrite Hc, Hd, He. reflexivity.
  - intros e Hr. rewrite Hr. reflexivity.
  - intros response Hr Hc. rewrite Hr. unfold readReply.
    apply Z.eqb_neq in Hc. rewrite Hc. reflexivity.
Qed.






End CostFacts.

(* ===================================================================== *)
(** ** The request of classifyTerm *)
(* ===================================================================== *)

Module RequestFacts.
Import Classifier.

(** Every model name of the table is sent to the endpoint of its
    provider. *)
Lemma modelTypeOf_configured :
  modelTypeOf (JStr "gpt-4-1106-preview") = Return OpenAI
  /\ modelTypeOf (JStr "o4-mini-2025-04-16") = Return OpenAI
  /\ modelTypeOf (JStr "claude-3-7-sonnet-latest") = Return Anthropic
  /\ modelTypeOf (JStr "claude-3-5-haiku-latest") = Return Anthropic
  /\ modelTypeOf (JStr "gemini-2.5-pro-preview-03-25") = Return Gemini
  /\ modelTypeOf (JStr "gemini-2.0-flash") = Return Gemini.
Proof. repeat split. Qed.

(** C8, on the code.  [classifyTerm] sends one POST request with a JSON
    body to the endpoint of the provider.  For OpenAI it carries the key as
    a Bearer token and a message list; for Gemini it carries the key in the
    query, no header and a list of content parts.  For Anthropic it carries
    the key in [x-api-key] and a message list, and no other header: the
    [anthropic-version] header, which the older three-model script sends,
    is not sent. *)
Theorem classifyTerm_request `{Host} (term : Term) (apiKey model : string)
    (n : Net) :
  let req := requestFor term apiKey (JStr model) in
  let prompt := createClassificationPrompt term in
  (forall p, modelTypeOf (JStr model) = Return p ->
     sent (after (classifyTerm term apiKey (JStr model) n)) = sent n ++ [req p])
  /\ (forall p, method (req p) = "POST" /\ contentType (req p) = "application/json")
  /\ url (req OpenAI) = "https://api.openai.com/v1/chat/completions"
  /\ headers (req OpenAI) = {[ "Authorization" := "Bearer " +:+ apiKey ]}
  /\ payload (req OpenAI)
     = JObj (list_to_map [("model", JStr model);
                          ("messages", JArr [user_message prompt])])
  /\ url (req Anthropic) = "https://api.anthropic.com/v1/messages"
  /\ headers (req Anthropic) = {[ "x-api-key" := apiKey ]}
  /\ headers (req Anthropic) !! "anthropic-version" = None
  /\ payload (req Anthropic)
     = JObj (list_to_map [("messages", JArr [user_message prompt]);
                          ("model", JStr model);
                          ("max_tokens", JNum (of_Z 500))])
  /\ url (req Gemini)
     = "https://generativelanguage.googleapis.com/v1beta/models/" +:+ model
       +:+ ":generateContent?key=" +:+ apiKey
  /\ headers (req Gemini) = ∅
  /\ payload (req Gemini)
     = JObj (list_to_map
               [("contents",
                 JArr [JObj (list_to_map
                               [("parts",
                                 JArr [JObj (list_to_map [("text", JStr prompt)])])])]);
                ("generationConfig",
                 JObj (list_to_map [("maxOutputTokens", JNum (of_Z 500))]))])
  /\ ThreeModelsV1.endpointHeaders apiKey "anthropic" !! "anthropic-version"
     = Some "2023-06-01"
  /\ ThreeModelsV1.endpointHeaders apiKey "anthropic" !! "x-api-key" = Some apiKey.
Proof.
  cbv zeta. repeat apply conj; try reflexivity.
  - intros p Hp. unfold classifyTerm. rewrite Hp.
    destruct (reply _) as [e|response]; [reflexivity|].
    now destruct (readReply _ _ _).
  - intros p. split; reflexivity.
Qed.

End RequestFacts.

(* ===================================================================== *)
(** ** Further properties *)
(* ===================================================================== *)

Module MoreFacts.
Import Classifier DriverFacts OutputFacts CostFacts.

(** In the older three-model script the endpoint is looked up by searching
    the model name for the provider's name; no model name of its table
    contains one, so no endpoint is found for any of them. *)
Theorem older_dispatch_finds_no_endpoint :
  Forall (fun m => ThreeModelsV1.modelTypeOf m = None) ThreeModelsV1.modelNames.
Proof. repeat constructor. Qed.

(** For validated settings whose provider is in the table and has a key,
    the run never ends in a fatal error, whatever the host answers: the
    Results tab gets the header and one row for each term, and the cost is
    estimated. *)
Theorem main_completes `{Host} (read settings : Settings)
    (keys : gmap string string) (apiKey : string) (sheet : Spreadsheet)
    (w : World Net) :
  readAndValidateSettings read = Return settings ->
  In (model settings) ["openai"; "anthropic"; "gemini"] ->
  getAPIKey keys (model settings) = Return apiKey ->
  let run := main read keys sheet w in
  run_fatal run = None
  /\ is_Some (run_costs run)
  /\ exists rows,
       run_sheet run !! "Results" = Some (resultsHeader :: rows)
       /\ length rows = length (topTerms settings).
Proof.
  intros V Hin K run. subst run. unfold main. rewrite V, K.
  destruct (classifyTerms_results read settings apiKey w sheet V)
    as (results & w' & rows & Hc & _ & _ & Frows & Ho).
  assert (Hl : length rows = length (topTerms settings))
    by (symmetry; eapply Forall2_length, Frows).
  rewrite Hc, Ho.
  apply MODELS_keys in Hin as [e He]. apply MODELS_at_entry in He.
  unfold logCosts. rewrite He. simpl.
  repeat split; [eauto|].
  exists rows. split; [apply lookup_insert_eq|exact Hl].
Qed.

Lemma main_completes_witness :
  run_fatal (main (H := Samples.host_429_twice)
               (Samples.settings_openai ["best running shoes"; "cafe near me"])
               {[ "key_openai" := "sk-test" ]} ∅ world_initial) = None.
Proof.
  apply (main_completes (H := Samples.host_429_twice)
           (Samples.settings_openai ["best running shoes"; "cafe near me"])
           (Samples.settings_openai ["best running shoes"; "cafe near me"])
           {[ "key_openai" := "sk-test" ]} "sk-test" ∅ world_initial).
  - reflexivity.
  - simpl. tauto.
  - reflexivity.
Defined.

(** [parseOpenAIResponse] of the single-provider script is lax: a category
    outside its list is returned as it is, with a logged warning; and when
    the category is missing nothing is thrown to the caller, the result is
    the category ["Error"] with confidence 0 and a logged error. *)
Theorem parseOpenAIResponse_lax `{Host} (text json : string)
    (o : gmap string JsValue) :
  JsonMatch.jsonMatch text = Some json ->
  JSON_parse json = Return (JObj o) ->
  (forall c x,
      o !! "category" = Some (JStr c) -> c <> EmptyString ->
      o !! "confidence" = Some (JNum x) ->
      existsb (String.eqb c) IntentClassifier.INTENT_CATEGORIES = false ->
      IntentClassifier.parseOpenAIResponse (JStr text)
      = ({| IntentClassifier.category := JStr c;
            IntentClassifier.confidence := JNum x |},
         [IntentClassifier.Warning (JStr c)]))
  /\ (o !! "category" = None ->
      IntentClassifier.parseOpenAIResponse (JStr text)
      = ({| IntentClassifier.category := JStr "Error";
            IntentClassifier.confidence := JNum zero |},
         [IntentClassifier.ParseError
            (new_Error "Response missing required fields")])).
Proof.
  intros M P. split.
  - intros c x Hc Hne Hx Hout.
    unfold IntentClassifier.parseOpenAIResponse, IntentClassifier.parseBody.
    rewrite M. cbn [bindT]. rewrite P. cbn [bindT Js.get].
    unfold Js.field. rewrite Hc, Hx.
    unfold default, id. cbn [from_option Js.truthy Js.is_number Js.includes].
    apply String.eqb_neq in Hne. rewrite Hne, Hout. reflexivity.
  - intros Hc.
    unfold IntentClassifier.parseOpenAIResponse, IntentClassifier.parseBody.
    rewrite M. simpl. rewrite P. simpl. unfold Js.field. rewrite Hc. reflexivity.
Qed.

Lemma parseOpenAIResponse_lax_witness :
  IntentClassifier.parseOpenAIResponse (H := Samples.host_local)
    (JStr ("Sure: " +:+ Samples.local_json))
  = ({| IntentClassifier.category := JStr "LOCAL";
        IntentClassifier.confidence := JNum (lit 0.9) |},
     [IntentClassifier.Warning (JStr "LOCAL")]).
Proof.
  destruct (parseOpenAIResponse_lax (H := Samples.host_local)
              ("Sure: " +:+ Samples.local_json) Samples.local_json
              Samples.local_with_error eq_refl eq_refl) as [Hlax _].
  apply Hlax; [reflexivity|discriminate|reflexivity|reflexivity].
Defined.

End MoreFacts.

(* ===================================================================== *)
(** ** The retry loop: budgets and constant failure *)
(* ===================================================================== *)

Module BudgetFacts.
Import Classifier Measures DriverFacts.

Lemma attemptedCount_app l1 l2 :
  attemptedCount (l1 ++ l2) = (attemptedCount l1 + attemptedCount l2)%nat.
Proof. induction l1 as [|[t|ms] l1 IH]; simpl; lia. Qed.

Lemma sleptTotal_app l1 l2 : sleptTotal (l1 ++ l2) = sleptTotal l1 + sleptTotal l2.
Proof.
  unfold sleptTotal. rewrite sleeps_app.
  induction (sleeps l1) as [|x xs IH]; simpl; lia.
Qed.

Section Budget.
Context {E : Type}.
Variable classifyFn : Term -> string -> JsValue -> E -> Attempt E.
Variable maxRetries : Z.
Variables (apiKey : string) (modelVersion : JsValue).

Local Abbreviation attempts := (attempts classifyFn maxRetries apiKey modelVersion).
Local Abbreviation classifyWithRetry :=
  (classifyWithRetry classifyFn maxRetries apiKey modelVersion).
Local Abbreviation mapTerms := (mapTerms classifyFn maxRetries apiKey modelVersion).

(** A measure of the classifier's state that one call raises by at most
    one (the number of requests sent, for [classifyTerm]). *)
Variable size : E -> nat.
Hypothesis size_step : forall term e,
  (size (after (classifyFn term apiKey modelVersion e)) <= size e + 1)%nat.

(** From iteration [attempt] on, the loop calls the classifier at most
    [remaining] times and sleeps at most the back-offs that are left. *)
Lemma attempts_budget term remaining : forall attempt w,
  0 <= attempt -> Z.of_nat remaining = maxRetries - attempt ->
  exists added,
    trace (snd (attempts term remaining attempt w)) = trace w ++ added
    /\ (attemptedCount added <= remaining)%nat
    /\ 0 <= sleptTotal added
    /\ ((1 <= remaining)%nat ->
        sleptTotal added <= (2 ^ (maxRetries - 1) - 2 ^ attempt) * 1000)
    /\ (size (ext (snd (attempts term remaining attempt w)))
        <= size (ext w) + attemptedCount added)%nat.
Proof.
  induction remaining as [|r IH]; intros attempt w Ha Hr.
  - exists []. simpl. rewrite app_nil_r. repeat split; try lia.
    cbv. discriminate.
  - cbn [Classifier.attempts].
    pose proof (size_step term (ext w)) as Hs.
    destruct (outcome _) as [e|res].
    + destruct (attempt =? maxRetries - 1) eqn:Q.
      * exists [Attempted term]. cbn [snd trace ext].
        apply Z.eqb_eq in Q. repeat split; try (cbv; lia || discriminate).
        -- intros _. rewrite Q. cbv [sleptTotal sleeps omap]. simpl. lia.
        -- change (attemptedCount [Attempted term]) with 1%nat. lia.
      * apply Z.eqb_neq in Q.
        destruct (IH (attempt + 1)
                    (Utilities_sleep (2 ^ attempt * 1000)
                       {| ext := after (classifyFn term apiKey modelVersion (ext w));
                          now := now w + took (classifyFn term apiKey modelVersion (ext w));
                          trace := trace w ++ [Attempted term] |})
                    ltac:(lia) ltac:(lia))
          as (added & Ht & Hc & Hp & Hb & Hz).
        exists (Attempted term :: Slept (2 ^ attempt * 1000) :: added).
        assert (P : 0 < 2 ^ attempt) by (apply Z.pow_pos_nonneg; lia).
        split; [|split; [|split; [|split]]].
        -- rewrite Ht. simpl. now rewrite <- !app_assoc.
        -- change (attemptedCount (Attempted term :: Slept (2 ^ attempt * 1000) :: added))
             with (S (attemptedCount added)). lia.
        -- change (sleptTotal (Attempted term :: Slept (2 ^ attempt * 1000) :: added))
             with (2 ^ attempt * 1000 + sleptTotal added). lia.
        -- intros _.
           change (sleptTotal (Attempted term :: Slept (2 ^ attempt * 1000) :: added))
             with (2 ^ attempt * 1000 + sleptTotal added).
           specialize (Hb ltac:(lia)).
           rewrite Z.pow_add_r in Hb by lia. change (2 ^ 1) with 2 in Hb. lia.
        -- change (attemptedCount (Attempted term :: Slept (2 ^ attempt * 1000) :: added))
             with (S (attemptedCount added)).
           simpl in Hz. lia.
    + exists [Attempted term]. cbn [snd trace ext].
      assert (P : 0 < 2 ^ attempt) by (apply Z.pow_pos_nonneg; lia).
      assert (M : 2 ^ attempt <= 2 ^ (maxRetries - 1))
        by (apply Z.pow_le_mono_r; lia).
      repeat split; try (cbv; lia || discriminate).
      * intros _. cbv [sleptTotal sleeps omap]. simpl. lia.
      * change (attemptedCount [Attempted term]) with 1%nat. lia.
Qed.

(** Over a list of terms the budgets add up. *)
Lemma mapTerms_budget terms : forall w,
  1 <= maxRetries ->
  exists added,
    trace (snd (mapTerms terms w)) = trace w ++ added
    /\ (attemptedCount added <= Z.to_nat maxRetries * length terms)%nat
    /\ 0 <= sleptTotal added
       <= (2 ^ (maxRetries - 1) - 1) * 1000 * Z.of_nat (length terms)
    /\ (size (ext (snd (mapTerms terms w)))
        <= size (ext w) + Z.to_nat maxRetries * length terms)%nat.
Proof.
  induction terms as [|term rest IH]; intros w Hmax.
  - exists []. cbn [Classifier.mapTerms snd length].
    rewrite app_nil_r. change (sleptTotal []) with 0.
    change (attemptedCount []) with 0%nat. repeat split; lia.
  - cbn [Classifier.mapTerms].
    destruct (attempts_budget term (Z.to_nat maxRetries) 0 w ltac:(lia) ltac:(lia))
      as (a1 & Ht1 & Hc1 & Hp1 & Hb1 & Hz1).
    fold (classifyWithRetry term w) in Ht1, Hz1.
    destruct (classifyWithRetry term w) as [r w1]. cbn [snd] in *.
    destruct (IH w1 Hmax) as (a2 & Ht2 & Hc2 & [Hp2 Hb2] & Hz2).
    destruct (mapTerms rest w1) as [rs w2]. cbn [snd] in *.
    specialize (Hb1 ltac:(lia)). change (2 ^ 0) with 1 in Hb1.
    exists (a1 ++ a2). split; [|split; [|split]].
    + rewrite Ht2, Ht1. now rewrite app_assoc.
    + rewrite attemptedCount_app. cbn [length]. lia.
    + rewrite sleptTotal_app. cbn [length]. lia.
    + cbn [length]. lia.
Qed.

End Budget.

Section AlwaysThrows.
Context {E : Type}.
Variable classifyFn : Term -> string -> JsValue -> E -> Attempt E.
Variable maxRetries : Z.
Variables (apiKey : string) (modelVersion : JsValue).
(** A property of the state that the classifier keeps, under which it
    throws, a property of what it throws, and a measure of the state that
    each call raises by [step]. *)
Variable inv : E -> Prop.
Variable bad : JsError -> Prop.
Variable size : E -> nat.
Variable step : nat.
Hypothesis always : forall term e, inv e ->
  exists error,
    outcome (classifyFn term apiKey modelVersion e) = Throw error
    /\ bad error
    /\ inv (after (classifyFn term apiKey modelVersion e))
    /\ size (after (classifyFn term apiKey modelVersion e)) = (size e + step)%nat.

Lemma attempts_always_throw term remaining : forall attempt w,
  Z.of_nat remaining = maxRetries - attempt -> (1 <= remaining)%nat ->
  inv (ext w) ->
  exists error w',
    Classifier.attempts classifyFn maxRetries apiKey modelVersion term
      remaining attempt w = (JObj (errorResult term error), w')
    /\ bad error /\ inv (ext w')
    /\ trace w' = trace w ++ retryTrace term attempt (remaining - 1)
                    ++ [Attempted term]
    /\ size (ext w') = (size (ext w) + step * remaining)%nat.
Proof.
  induction remaining as [|r IH]; intros attempt w Hr H1 Hi; [lia|].
  cbn [Classifier.attempts].
  destruct (always term (ext w) Hi) as (error & Ho & Hb & Ha & Hs). rewrite Ho.
  destruct (attempt =? maxRetries - 1) eqn:Q.
  - apply Z.eqb_eq in Q. assert (r = 0%nat) by lia. subst r.
    eexists _, _. split; [reflexivity|]. cbn [ext trace].
    repeat split; try assumption. rewrite Hs. lia.
  - apply Z.eqb_neq in Q.
    destruct (IH (attempt + 1)
                (Utilities_sleep (2 ^ attempt * 1000)
                   {| ext := after (classifyFn term apiKey modelVersion (ext w));
                      now := now w + took (classifyFn term apiKey modelVersion (ext w));
                      trace := trace w ++ [Attempted term] |})
                ltac:(lia) ltac:(lia) Ha)
      as (e' & w' & Hr' & Hb' & Hi' & Ht' & Hs').
    exists e', w'. split; [exact Hr'|]. repeat split; try assumption.
    + rewrite Ht'. cbn [Utilities_sleep trace].
      replace (S r - 1)%nat with (S (r - 1)) by lia.
      cbn [retryTrace]. rewrite <- !app_assoc. reflexivity.
    + rewrite Hs'. cbn [Utilities_sleep ext]. rewrite Hs. lia.
Qed.

(** When the classifier throws at every call, every term gets the terminal
    result built from one of the errors thrown, the log is that of a run of
    failures, and the state keeps the property. *)
Lemma mapTerms_always_throw terms : forall w,
  1 <= maxRetries -> inv (ext w) ->
  let run := Classifier.mapTerms classifyFn maxRetries apiKey modelVersion terms w in
  Forall2 (fun term r => exists error, r = JObj (errorResult term error) /\ bad error)
    terms (fst run)
  /\ inv (ext (snd run))
  /\ trace (snd run) = trace w ++ failedTrace maxRetries terms
  /\ size (ext (snd run))
     = (size (ext w) + step * Z.to_nat maxRetries * length terms)%nat.
Proof.
  induction terms as [|term rest IH]; intros w Hmax Hi; cbv zeta.
  - simpl. rewrite app_nil_r. repeat split; [constructor|exact Hi|lia].
  - cbn [Classifier.mapTerms]. unfold Classifier.classifyWithRetry.
    destruct (attempts_always_throw term (Z.to_nat maxRetries) 0 w
                ltac:(lia) ltac:(lia) Hi) as (error & w1 & Hr & Hb & Hi1 & Ht1 & Hs1).
    rewrite Hr.
    destruct (IH w1 Hmax Hi1) as (F & Hi2 & Ht2 & Hs2).
    destruct (Classifier.mapTerms _ _ _ _ rest w1) as [rs w2]. cbn [fst snd] in *.
    repeat split; [constructor; eauto|exact Hi2| |].
    + rewrite Ht2, Ht1. cbn [failedTrace]. now rewrite <- !app_assoc.
    + rewrite Hs2, Hs1. cbn [length]. lia.
Qed.

End AlwaysThrows.

Section AlwaysReturns.
Context {E : Type}.
Variable classifyFn : Term -> string -> JsValue -> E -> Attempt E.
Variable maxRetries : Z.
Variables (apiKey : string) (modelVersion : JsValue).
(** A measure of the state that each call raises by one. *)
Variable size : E -> nat.
Hypothesis always : forall term e,
  exists o,
    outcome (classifyFn term apiKey modelVersion e) = Return o
    /\ size (after (classifyFn term apiKey modelVersion e)) = (size e + 1)%nat.

(** When the classifier returns at every call, every term is attempted
    once, nothing is slept, and every result is the returned object with
    its term and duration. *)
Lemma mapTerms_always_return terms : forall w,
  1 <= maxRetries ->
  let run := Classifier.mapTerms classifyFn maxRetries apiKey modelVersion terms w in
  Forall2 (fun term r =>
             exists o duration e,
               r = JObj (successResult o term duration)
               /\ outcome (classifyFn term apiKey modelVersion e) = Return o)
    terms (fst run)
  /\ trace (snd run) = trace w ++ map Attempted terms
  /\ size (ext (snd run)) = (size (ext w) + length terms)%nat.
Proof.
  induction terms as [|term rest IH]; intros w Hmax; cbv zeta.
  - simpl. rewrite app_nil_r. repeat split; [constructor|lia].
  - cbn [Classifier.mapTerms]. unfold Classifier.classifyWithRetry.
    destruct (Z.to_nat maxRetries) as [|m] eqn:M; [lia|].
    cbn [Classifier.attempts].
    destruct (always term (ext w)) as (o & Ho & Hs). rewrite Ho.
    match goal with
    | |- context [Classifier.mapTerms _ _ _ _ rest ?w1] =>
        destruct (IH w1 Hmax) as (F & Ht & Hz);
        destruct (Classifier.mapTerms classifyFn maxRetries apiKey modelVersion
                    rest w1) as [rs w2]
    end.
    cbn [fst snd ext trace] in *.
    repeat split.
    + constructor; [|exact F]. eexists _, _, _. split; [reflexivity|exact Ho].
    + rewrite Ht. cbn [map]. now rewrite <- app_assoc.
    + rewrite Hz, Hs. cbn [length]. lia.
Qed.

End AlwaysReturns.

End BudgetFacts.

(* ===================================================================== *)
(** ** The JSON extraction pattern *)
(* ===================================================================== *)

Module JsonMatchFacts.
Import JsonMatch Measures.

Lemma append_assoc (s t u : string) : (s +:+ t) +:+ u = s +:+ t +:+ u.
Proof.
  induction s as [|c s IH]; [reflexivity|].
  change (String c ((s +:+ t) +:+ u) = String c (s +:+ t +:+ u)). now f_equal.
Qed.

Lemma has_char_app c s t : has_char c (s +:+ t) = has_char c s || has_char c t.
Proof. induction s as [|d s IH]; simpl; [reflexivity|]. now rewrite IH, orb_assoc. Qed.

Lemma from_open_none s : from_open s = None <-> has_char "{" s = false.
Proof.
  induction s as [|c s IH]; simpl; [tauto|].
  destruct (Ascii.eqb c "{"); simpl; [split; discriminate|exact IH].
Qed.

Lemma from_open_some s t :
  from_open s = Some t ->
  exists pre rest, s = pre +:+ t /\ t = String "{" rest /\ has_char "{" pre = false.
Proof.
  induction s as [|c s IH]; simpl; [discriminate|].
  destruct (Ascii.eqb c "{") eqn:Q.
  - intros [= <-]. apply Ascii.eqb_eq in Q. subst c.
    exists EmptyString, s. repeat split.
  - intros F. destruct (IH F) as (pre & rest & -> & -> & Hp).
    exists (String c pre), rest. repeat split. simpl. now rewrite Q.
Qed.

Lemma from_open_app pre rest :
  has_char "{" pre = false ->
  from_open (pre +:+ String "{" rest) = Some (String "{" rest).
Proof.
  induction pre as [|c pre IH]; simpl; [reflexivity|].
  intros H. apply orb_false_iff in H as [H1 H2]. rewrite H1. now apply IH.
Qed.

Lemma to_last_close_none s : to_last_close s = None <-> has_char "}" s = false.
Proof.
  induction s as [|c s IH]; simpl; [tauto|].
  destruct (to_last_close s) as [p|].
  - split; [discriminate|]. intros H. apply orb_false_iff in H as [_ H].
    apply IH in H. discriminate.
  - destruct (Ascii.eqb c "}"); simpl; [split; discriminate|].
    split; intros _; [now apply IH|reflexivity].
Qed.

Lemma to_last_close_some s p :
  to_last_close s = Some p ->
  exists body post,
    s = p +:+ post /\ p = body +:+ "}" /\ has_char "}" post = false.
Proof.
  revert p. induction s as [|c s IH]; simpl; intros p; [discriminate|].
  destruct (to_last_close s) as [q|] eqn:L.
  - intros [= <-]. destruct (IH q eq_refl) as (body & post & -> & -> & Hp).
    exists (String c body), post. repeat split. exact Hp.
  - destruct (Ascii.eqb c "}") eqn:Q; [|discriminate].
    intros [= <-]. apply Ascii.eqb_eq in Q. subst c.
    exists EmptyString, s. repeat split. now apply to_last_close_none.
Qed.

Lemma to_last_close_app body post :
  has_char "}" post = false ->
  to_last_close (body +:+ String "}" post) = Some (body +:+ "}").
Proof.
  intros H. induction body as [|c body IH]; simpl.
  - apply to_last_close_none in H. now rewrite H.
  - now rewrite IH.
Qed.

(** The suffix from the first ["{"] on contains every ["}"] that comes after
    any ["{"]. *)
Lemma from_open_keeps_close pre tail :
  has_char "}" tail = true ->
  exists rest,
    from_open (pre +:+ String "{" tail) = Some (String "{" rest)
    /\ has_char "}" rest = true.
Proof.
  intros H. induction pre as [|c pre IH]; simpl.
  - exists tail. split; [reflexivity|exact H].
  - destruct (Ascii.eqb c "{") eqn:Q; [|exact IH].
    apply Ascii.eqb_eq in Q. subst c.
    exists (pre +:+ String "{" tail). split; [reflexivity|].
    rewrite has_char_app. simpl. rewrite H. now rewrite !orb_true_r.
Qed.

(** [text.match(/\{[\s\S]*\}/)] takes the text from the first opening brace
    to the last closing brace: prose around a JSON object is dropped when
    the prose before it has no ["{"] and the prose after it no ["}"]; every
    match has that shape; and there is no match exactly when no ["{"] is
    followed by a ["}"]. *)
Theorem jsonMatch_extracts :
  (forall pre body post,
      has_char "{" pre = false -> has_char "}" post = false ->
      jsonMatch (pre +:+ "{" +:+ body +:+ "}" +:+ post)
      = Some ("{" +:+ body +:+ "}"))
  /\ (forall text m,
        jsonMatch text = Some m ->
        exists pre body post,
          text = pre +:+ m +:+ post /\ m = "{" +:+ body +:+ "}"
          /\ has_char "{" pre = false /\ has_char "}" post = false)
  /\ (forall text,
        jsonMatch text = None <->
        ~ exists pre body post, text = pre +:+ "{" +:+ body +:+ "}" +:+ post).
Proof.
  assert (Hshape : forall text m,
             jsonMatch text = Some m ->
             exists pre body post,
               text = pre +:+ m +:+ post /\ m = "{" +:+ body +:+ "}"
               /\ has_char "{" pre = false /\ has_char "}" post = false).
  { intros text m M. unfold jsonMatch in M.
    destruct (from_open text) as [t|] eqn:F; [|discriminate].
    destruct (from_open_some _ _ F) as (pre & rest & -> & -> & Hpre).
    destruct (to_last_close rest) as [p|] eqn:L; [|discriminate].
    injection M as <-.
    destruct (to_last_close_some _ _ L) as (body & post & -> & -> & Hpost).
    exists pre, body, post. repeat split; assumption. }
  repeat apply conj.
  - intros pre body post Hpre Hpost. unfold jsonMatch.
    change ("{" +:+ body +:+ "}" +:+ post) with (String "{" (body +:+ String "}" post)).
    rewrite from_open_app by assumption.
    now rewrite to_last_close_app.
  - exact Hshape.
  - intros text. split.
    + intros N (pre & body & post & ->).
      destruct (from_open_keeps_close pre (body +:+ String "}" post)) as (rest & F & C).
      { rewrite has_char_app. simpl. now rewrite orb_true_r. }
      unfold jsonMatch in N.
      change ("{" +:+ body +:+ "}" +:+ post)
        with (String "{" (body +:+ String "}" post)) in N.
      rewrite F in N.
      destruct (to_last_close rest) as [p|] eqn:L; [discriminate|].
      apply to_last_close_none in L. congruence.
    + intros No. destruct (jsonMatch text) as [m|] eqn:M; [|reflexivity].
      exfalso. apply No.
      destruct (Hshape _ _ M) as (pre & body & post & -> & -> & _).
      exists pre, body, post. f_equal.
      change ("{" +:+ body +:+ "}") with (String "{" (body +:+ "}")).
      change (String "{" (body +:+ "}") +:+ post)
        with (String "{" ((body +:+ "}") +:+ post)).
      now rewrite append_assoc.
Qed.

(** The pattern is greedy: with two objects in the text, the match runs from
    the first ["{"] to the last ["}"] and spans both. *)
Example jsonMatch_two_objects :
  jsonMatch "a {x} b {y} c" = Some "{x} b {y}".
Proof. reflexivity. Qed.

End JsonMatchFacts.

(* ===================================================================== *)
(** ** Settings, keys and whole runs *)
(* ===================================================================== *)

Module RunFacts.
Import Classifier Measures JsNumFacts ValidateFacts DriverFacts OutputFacts CostFacts
  BudgetFacts.

Lemma classifyTerm_one_request `{Host} term apiKey modelConfig (n : Net) :
  (length (sent (after (classifyTerm term apiKey modelConfig n)))
   <= length (sent n) + 1)%nat.
Proof.
  unfold classifyTerm. destruct (modelTypeOf modelConfig) as [e|p]; simpl; [lia|].
  destruct (reply _) as [e|response]; simpl.
  - rewrite length_app. simpl. lia.
  - destruct (readReply _ _ _). simpl. rewrite length_app. simpl. lia.
Qed.

(** Whatever the host answers, [classifyTerms] calls [classifyTerm] at most
    three times for each term, sends at most one request in each call, hence
    at most three requests for each term, and sleeps at most three seconds
    for each term. *)
Theorem classifyTerms_budget `{Host} (settings : Settings) (apiKey : string)
    (w : World Net) :
  let w' := snd (classifyTerms settings apiKey w) in
  let terms := length (topTerms settings) in
  exists added,
    trace w' = trace w ++ added
    /\ (attemptedCount added <= 3 * terms)%nat
    /\ 0 <= sleptTotal added <= 3000 * Z.of_nat terms
    /\ (length (sent (ext w')) <= length (sent (ext w)) + 3 * terms)%nat.
Proof.
  cbv zeta. unfold classifyTerms.
  destruct (modelVersionOf settings) as [e|mv].
  - exists []. cbn [snd]. rewrite app_nil_r.
    change (sleptTotal []) with 0. change (attemptedCount []) with 0%nat.
    repeat split; lia.
  - destruct (mapTerms_budget (getClassifierFunction (model settings)) MAX_RETRIES
                apiKey mv (fun n => length (sent n))
                (fun term e => classifyTerm_one_request term apiKey mv e)
                (topTerms settings) w ltac:(unfold MAX_RETRIES; lia))
      as (added & Ht & Hc & Hs & Hz).
    destruct (mapTerms _ _ _ _ _ w) as [results w']. cbn [snd] in *.
    exists added. change (Z.to_nat MAX_RETRIES) with 3%nat in *.
    change ((2 ^ (MAX_RETRIES - 1) - 1) * 1000) with 3000 in Hs.
    repeat split; try assumption; lia.
Qed.

(** [getAPIKey]: the key of the range [mike_key_<model>] is used when that
    range exists and its cell is not empty; otherwise the key of the range
    [key_<model>]; with neither, an error that names the model is thrown;
    and a key that is returned is never empty. *)
Theorem getAPIKey_precedence (ranges : gmap string string) (model : string) :
  let mikeKey := ranges !! ("mike_key_" +:+ model) in
  let regularKey := ranges !! ("key_" +:+ model) in
  (forall k, mikeKey = Some k -> k <> EmptyString ->
     getAPIKey ranges model = Return k)
  /\ (forall k, mikeKey = None \/ mikeKey = Some EmptyString ->
        regularKey = Some k -> k <> EmptyString ->
        getAPIKey ranges model = Return k)
  /\ (mikeKey = None \/ mikeKey = Some EmptyString ->
      regularKey = None \/ regularKey = Some EmptyString ->
      getAPIKey ranges model
      = Throw (new_Error ("No API key found for " +:+ model)))
  /\ (forall k, getAPIKey ranges model = Return k ->
        k <> EmptyString /\ (mikeKey = Some k \/ regularKey = Some k)).
Proof.
  cbv zeta. unfold getAPIKey. repeat apply conj.
  - intros k -> Hk. apply String.eqb_neq in Hk. rewrite Hk. now rewrite Hk.
  - intros k [-> | ->] -> Hk; apply String.eqb_neq in Hk; simpl; now rewrite Hk.
  - intros [-> | ->] [-> | ->]; reflexivity.
  - intros k.
    destruct (ranges !! ("mike_key_" +:+ model)) as [m|];
      destruct (ranges !! ("key_" +:+ model)) as [r|];
      repeat match goal with
             | |- context [String.eqb ?x EmptyString] =>
                 let Q := fresh "Q" in
                 destruct (String.eqb x EmptyString) eqn:Q
             end;
      intros V; try discriminate V; injection V as <-;
      repeat match goal with
             | Q : String.eqb _ _ = false |- _ => apply String.eqb_neq in Q
             end;
      (split; [assumption|tauto]).
Qed.

(** A model name that passes the check of [readAndValidateSettings] is a
    provider of the table or a name every object inherits. *)
Lemma MODELS_at_cases m :
  MODELS_at m <> Absent ->
  In m ["openai"; "anthropic"; "gemini"] \/ In m Object_prototype_names.
Proof.
  unfold MODELS_at. destruct (MODELS !! m) as [e|] eqn:L.
  - intros _. left. apply MODELS_keys. eauto.
  - destruct (existsb _ _) eqn:X; [|congruence]. intros _. right.
    apply existsb_exists in X as (x & Hx & Q). apply String.eqb_eq in Q.
    now subst.
Qed.

Lemma inherited_name m :
  In m Object_prototype_names -> MODELS_at m = Inherited /\ m <> "google".
Proof.
  intros Hin. simpl in Hin.
  repeat (destruct Hin as [<-|Hin]; [split; [reflexivity|discriminate]|]).
  destruct Hin.
Qed.

Lemma validated_again s :
  model s <> "google" -> MODELS_at (model s) <> Absent -> topTerms s <> [] ->
  readAndValidateSettings s = Return s.
Proof.
  intros G A T. unfold readAndValidateSettings.
  apply String.eqb_neq in G. rewrite G.
  destruct (topTerms s) as [|t ts]; [congruence|].
  now destruct (MODELS_at (model s)).
Qed.

(** [readAndValidateSettings]: the two errors, the model check coming
    first; and what holds of the settings it returns: the provider is never
    ["google"] (that name is replaced by ["gemini"]), it is a provider of the
    table or an inherited name, the tier and the terms are as read, there
    is at least one term, and validating the returned settings again
    returns them unchanged. *)
Theorem readAndValidateSettings_postcondition (read : Settings) :
  let name := if String.eqb (model read) "google" then "gemini" else model read in
  (MODELS_at name = Absent ->
   readAndValidateSettings read = Throw (new_Error "Invalid model"))
  /\ (MODELS_at name <> Absent -> topTerms read = [] ->
      readAndValidateSettings read = Throw (new_Error "No search terms found"))
  /\ (forall settings,
        readAndValidateSettings read = Return settings ->
        model settings = name
        /\ model settings <> "google"
        /\ (In (model settings) ["openai"; "anthropic"; "gemini"]
            \/ In (model settings) Object_prototype_names)
        /\ cheap_flag settings = cheap_flag read
        /\ topTerms settings = topTerms read
        /\ topTerms settings <> []
        /\ readAndValidateSettings settings = Return settings).
Proof.
  intros name. unfold readAndValidateSettings at 1 2 3.
  set (s := if String.eqb (model read) "google" then _ else read).
  assert (Hs : model s = name /\ cheap_flag s = cheap_flag read
               /\ topTerms s = topTerms read)
    by (subst s name; destruct (String.eqb (model read) "google"); repeat split).
  destruct Hs as (Hm & Hc & Ht).
  assert (Hg : name <> "google").
  { subst name. destruct (String.eqb (model read) "google") eqn:G;
      [discriminate|now apply String.eqb_neq]. }
  rewrite Hm, Ht. clearbody s name. repeat apply conj.
  - intros ->. reflexivity.
  - intros A ->. now destruct (MODELS_at name).
  - intros settings V.
    assert (A : MODELS_at name <> Absent)
      by (intros Q; rewrite Q in V; discriminate V).
    destruct (topTerms read) as [|t ts] eqn:T;
      [destruct (MODELS_at name); discriminate V|].
    assert (settings = s)
      by (destruct (MODELS_at name); [| |congruence]; now injection V).
    subst settings. rewrite Hm, Hc, Ht.
    repeat split; try assumption; try discriminate.
    + now apply MODELS_at_cases.
    + apply validated_again; rewrite ?Hm, ?Ht; try assumption. discriminate.
Qed.

(** An error of the configuration (the settings do not validate, or the
    provider has no key) ends the run before anything is classified: [main]
    reports that error, no request was sent and no time slept, the Results
    tab is as it was, and the Logs tab ends with the row of the error. *)
Theorem configuration_errors_stop_the_run `{Host} (read : Settings)
    (keys : gmap string string) (sheet : Spreadsheet) (w : World Net)
    (e : JsError) :
  readAndValidateSettings read = Throw e
  \/ (exists settings,
        readAndValidateSettings read = Return settings
        /\ getAPIKey keys (model settings) = Throw e) ->
  let run := main read keys sheet w in
  run_fatal run = Some e
  /\ run_world run = w
  /\ run_results run = None
  /\ run_costs run = None
  /\ run_sheet run !! "Results" = sheet !! "Results"
  /\ exists logs,
       run_sheet run !! "Logs"
       = Some (logs ++ [[JStr (Date_toISOString (now w)); JStr "ERROR";
                         JStr (Error_toString e)]]).
Proof.
  intros C run.
  assert (R : run = fatal e sheet w None).
  { subst run. unfold main. destruct C as [V | (settings & V & K)].
    - now rewrite V.
    - now rewrite V, K. }
  rewrite R. unfold fatal, handleError. cbn [run_fatal run_world run_results
    run_costs run_sheet].
  repeat split.
  - now rewrite lookup_insert_ne by discriminate.
  - eexists. apply lookup_insert_eq.
Qed.

Lemma resultRow_error term error :
  resultRow (JObj (errorResult term error)) = Return (errorRow term error).
Proof.
  rewrite resultRow_object. unfold Js.field.
  destruct (errorResult_fields term error) as (-> & -> & -> & -> & ->).
  unfold default, id. cbn [from_option]. unfold Js.or.
  rewrite truthy_error_text. reflexivity.
Qed.

Lemma resultRows_errors (bad : JsError -> Prop) terms : forall results,
  Forall2 (fun term r => exists error, r = JObj (errorResult term error) /\ bad error)
    terms results ->
  exists rows,
    resultRows results = Return rows
    /\ Forall2 (fun term row => exists error, row = errorRow term error /\ bad error)
         terms rows.
Proof.
  induction terms as [|term rest IH]; intros results F; inversion F; subst.
  - exists []. split; [reflexivity|constructor].
  - destruct H1 as (error & -> & Hb).
    destruct (IH _ H3) as (rows & Hrows & Frows).
    exists (errorRow term error :: rows). split.
    + cbn [resultRows]. rewrite resultRow_error. cbn [bindT].
      rewrite Hrows. reflexivity.
    + constructor; eauto.
Qed.

Lemma Forall2_fixed_error {A B} (f : A -> B) (l : list A) : forall l',
  Forall2 (fun a b => b = f a) l l' -> l' = map f l.
Proof.
  induction l as [|a l IH]; intros l' F; inversion F; subst; [reflexivity|].
  simpl. f_equal. now apply IH.
Qed.

Lemma sleptTotal_failedTrace terms :
  sleptTotal (failedTrace MAX_RETRIES terms) = 3000 * Z.of_nat (length terms).
Proof.
  induction terms as [|term rest IH]; [reflexivity|].
  cbn [failedTrace]. rewrite sleptTotal_app, IH. cbn [length].
  change (sleptTotal (retryTrace term 0 (Z.to_nat MAX_RETRIES - 1) ++ [Attempted term]))
    with 3000.
  lia.
Qed.

(** A provider name that is not in the table but that every JavaScript
    object inherits ([constructor], [__proto__], ...) passes the check
    [!MODELS[settings.model]].  The run then has no model version: every
    call of [classifyTerm] throws a TypeError before any request is built,
    each term is still tried three times with the two back-offs, the
    Results tab gets an ["ERROR"] row for every term, and [logCosts] ends
    the run with a TypeError. *)
Theorem inherited_model_name_run `{Host} (read : Settings)
    (keys : gmap string string) (apiKey : string) (sheet : Spreadsheet)
    (w : World Net) :
  In (model read) Object_prototype_names ->
  topTerms read <> [] ->
  getAPIKey keys (model read) = Return apiKey ->
  let run := main read keys sheet w in
  let error := TypeError_reading "undefined" "includes" in
  readAndValidateSettings read = Return read
  /\ run_results run
     = Some (map (fun term => JObj (errorResult term error)) (topTerms read))
  /\ run_sheet run !! "Results"
     = Some (resultsHeader :: map (fun term => errorRow term error) (topTerms read))
  /\ ext (run_world run) = ext w
  /\ trace (run_world run) = trace w ++ failedTrace MAX_RETRIES (topTerms read)
  /\ run_costs run = None
  /\ run_fatal run
     = Some (TypeError_reading "undefined"
               (if cheap_flag read then "cheap" else "standard")).
Proof.
  intros Hin Ht K run error.
  destruct (inherited_name _ Hin) as [M G].
  assert (V : readAndValidateSettings read = Return read)
    by (apply validated_again; [exact G|rewrite M; discriminate|exact Ht]).
  split; [exact V|].
  subst run. unfold main. rewrite V, K.
  unfold classifyTerms, modelVersionOf. rewrite M.
  destruct (mapTerms_always_throw (getClassifierFunction (model read)) MAX_RETRIES
              apiKey JUndefined (fun n => n = ext w) (fun e => e = error)
              (fun _ => 0%nat) 0%nat) with (terms := topTerms read) (w := w)
    as (F & Hi & Htr & _).
  { intros term n ->. exists error. repeat split. }
  { unfold MAX_RETRIES. lia. }
  { reflexivity. }
  destruct (mapTerms _ _ _ _ _ w) as [results w']. cbn [fst snd] in *.
  destruct (resultRows_errors _ _ _ F) as (rows & Hrows & Frows).
  assert (Er : results = map (fun term => JObj (errorResult term error)) (topTerms read)).
  { apply Forall2_fixed_error. eapply Forall2_impl; [exact F|].
    intros term r (e & -> & ->). reflexivity. }
  assert (Ew : rows = map (fun term => errorRow term error) (topTerms read)).
  { apply Forall2_fixed_error. eapply Forall2_impl; [exact Frows|].
    intros term r (e & -> & ->). reflexivity. }
  unfold outputResults. rewrite Hrows. unfold logCosts. rewrite M.
  unfold fatal, handleError.
  cbn [run_results run_sheet run_world run_costs run_fatal].
  repeat split; try assumption.
  - now rewrite Er.
  - rewrite lookup_insert_ne by discriminate.
    rewrite lookup_insert_eq. now rewrite Ew.
Qed.

Lemma inherited_model_name_run_witness :
  let run := main (H := Samples.host_local)
               {| model := "constructor"; cheap_flag := false;
                  topTerms := ["red shoes"] |}
               {[ "key_constructor" := "sk-test" ]} ∅ world_initial in
  run_sheet run !! "Results"
  = Some [resultsHeader;
          [JStr "red shoes"; JStr "ERROR"; JStr EmptyString; JStr EmptyString;
           JStr "TypeError: Cannot read properties of undefined (reading 'includes')"]]
  /\ run_fatal run = Some (TypeError_reading "undefined" "standard").
Proof.
  destruct (inherited_model_name_run (H := Samples.host_local)
              {| model := "constructor"; cheap_flag := false;
                 topTerms := ["red shoes"] |}
              {[ "key_constructor" := "sk-test" ]} "sk-test" ∅ world_initial)
    as (_ & _ & Hs & _ & _ & _ & Hf).
  - simpl. tauto.
  - discriminate.
  - reflexivity.
  - split; [exact Hs|exact Hf].
Defined.

(** For a provider of the table the configured model name is a string
    that [classifyTerm] sends to one of its three endpoints, and an empty
    accumulator gives a zero estimate. *)
Lemma configured_model (settings : Settings) :
  In (model settings) ["openai"; "anthropic"; "gemini"] ->
  exists name p,
    modelVersionOf settings = Return (JStr name)
    /\ modelTypeOf (JStr name) = Return p
    /\ option_map total
         (match logCosts settings tokenCounts_initial with
          | inr est => Some est
          | inl _ => None
          end) = Some zero.
Proof.
  destruct settings as [m c t]. cbn [model].
  intros [<-|[<-|[<-|[]]]]; destruct c; eexists _, _;
    (split; [reflexivity|]); (split; [reflexivity|]); vm_compute; reflexivity.
Qed.

(** A provider that is down, a reply with a status other than 200 or no
    reply at all to every request: the run still ends normally.  Every term
    is tried three times, with three requests and three seconds of back-off
    for each term; every term gets an ["ERROR"] row with empty Confidence and
    Duration cells; no tokens are counted, so that a run that started with
    an empty accumulator estimates a total of 0. *)
Theorem provider_down_run `{Host} (read settings : Settings)
    (keys : gmap string string) (apiKey : string) (sheet : Spreadsheet)
    (w : World Net) :
  (forall n request response,
      reply (UrlFetchApp_fetch n request) = Return response ->
      code response <> 200) ->
  readAndValidateSettings read = Return settings ->
  In (model settings) ["openai"; "anthropic"; "gemini"] ->
  getAPIKey keys (model settings) = Return apiKey ->
  let run := main read keys sheet w in
  let terms := topTerms settings in
  run_fatal run = None
  /\ (exists results,
        run_results run = Some results /\ Forall2 isErrorResult terms results)
  /\ (exists rows,
        run_sheet run !! "Results" = Some (resultsHeader :: rows)
        /\ Forall2 (fun term row => exists error, row = errorRow term error)
             terms rows)
  /\ trace (run_world run) = trace w ++ failedTrace MAX_RETRIES terms
  /\ sleptTotal (failedTrace MAX_RETRIES terms) = 3000 * Z.of_nat (length terms)
  /\ length (sent (ext (run_world run)))
     = (length (sent (ext w)) + 3 * length terms)%nat
  /\ tokenCounts (ext (run_world run)) = tokenCounts (ext w)
  /\ (tokenCounts (ext w) = tokenCounts_initial ->
      option_map total (run_costs run) = Some zero).
Proof.
  intros Hdown V Hin K run terms.
  destruct (configured_model settings Hin) as (name & p & Hmv & Hp & Hzero).
  subst run. unfold main. rewrite V, K. unfold classifyTerms. rewrite Hmv.
  destruct (mapTerms_always_throw (getClassifierFunction (model settings)) MAX_RETRIES
              apiKey (JStr name) (fun n => tokenCounts n = tokenCounts (ext w))
              (fun _ => True) (fun n => length (sent n)) 1%nat)
    with (terms := terms) (w := w) as (F & Hi & Htr & Hs).
  { intros term n Hn. unfold getClassifierFunction, classifyTerm. rewrite Hp.
    destruct (reply _) as [e|response] eqn:R.
    - exists e. cbn [outcome after tokenCounts sent].
      repeat split; [exact Hn|]. rewrite length_app. reflexivity.
    - unfold readReply. apply Hdown, Z.eqb_neq in R. rewrite R.
      cbn [negb outcome after tokenCounts sent]. eexists.
      repeat split; [exact Hn|]. rewrite length_app. reflexivity. }
  { unfold MAX_RETRIES. lia. }
  { reflexivity. }
  fold terms. destruct (mapTerms _ _ _ _ terms w) as [results w']. cbn [fst snd] in *.
  destruct (resultRows_errors _ _ _ F) as (rows & Hrows & Frows).
  unfold outputResults. rewrite Hrows.
  destruct (logCosts settings (tokenCounts (ext w'))) as [e|est] eqn:L.
  { exfalso. apply MODELS_keys in Hin as [entry He]. apply MODELS_at_entry in He.
    unfold logCosts in L. rewrite He in L. discriminate L. }
  cbn [run_results run_sheet run_world run_costs run_fatal].
  repeat split; try assumption.
  - exists results. split; [reflexivity|].
    eapply Forall2_impl; [exact F|]. intros term r (e & -> & _). now exists e.
  - exists rows. split; [apply lookup_insert_eq|].
    eapply Forall2_impl; [exact Frows|]. intros term r (e & -> & _). now exists e.
  - apply sleptTotal_failedTrace.
  - intros Hw. rewrite Hi, Hw in L. rewrite L in Hzero. exact Hzero.
Qed.

Lemma provider_down_run_witness :
  let run := main (H := Samples.host_down)
               (Samples.settings_openai ["red shoes"; "blue shoes"])
               {[ "key_openai" := "sk-test" ]} ∅ world_initial in
  run_fatal run = None
  /\ length (sent (ext (run_world run))) = 6%nat
  /\ option_map total (run_costs run) = Some zero.
Proof.
  destruct (provider_down_run (H := Samples.host_down)
              (Samples.settings_openai ["red shoes"; "blue shoes"])
              (Samples.settings_openai ["red shoes"; "blue shoes"])
              {[ "key_openai" := "sk-test" ]} "sk-test" ∅ world_initial)
    as (Hf & _ & _ & _ & _ & Hs & _ & Hz).
  - intros n request response R. simpl in R. injection R as <-. discriminate.
  - reflexivity.
  - simpl. tauto.
  - reflexivity.
  - split; [exact Hf|split; [exact Hs|now apply Hz]].
Defined.

(** What [validateResponse] returns: a category of the list and a number
    as confidence that is neither below 0 nor above 1. *)
Lemma validateResponse_valid `{Host} (result : JsValue) (o : gmap string JsValue) :
  validateResponse result = Return o ->
  (exists c, o !! "category" = Some (JStr c) /\ In c CATEGORIES)
  /\ (exists x, o !! "confidence" = Some (JNum x)
                /\ lt x zero = false /\ gt x one = false).
Proof.
  intros V. destruct result as [| | | | | |o0]; try discriminate V.
  cbn [validateResponse] in V.
  destruct (category_rejected (Js.field o0 "category")) eqn:C; [discriminate V|].
  apply category_accepted in C as (c & Ec & Hc). unfold Js.field in Ec.
  destruct (o0 !! "category") as [v|] eqn:L; simpl in Ec; [|discriminate Ec].
  subst v.
  destruct (confidence_rejected (Js.field o0 "confidence")) eqn:R;
    injection V as <-.
  - split.
    + exists c. rewrite lookup_insert_ne by discriminate. now split.
    + exists half. rewrite lookup_insert_eq. repeat split.
  - split; [exists c; now split|].
    unfold Js.field in R.
    destruct (o0 !! "confidence") as [[| | |x| | |]|]; try discriminate R.
    exists x. simpl in R. apply orb_false_iff in R as [R1 R2]. now repeat split.
Qed.

(** Whatever [classifyTerm] returns was returned by [validateResponse]. *)
Lemma classifyTerm_returns `{Host} term apiKey modelConfig (n : Net) o :
  outcome (classifyTerm term apiKey modelConfig n) = Return o ->
  exists parsed, validateResponse parsed = Return o.
Proof.
  unfold classifyTerm.
  destruct (modelTypeOf modelConfig) as [e|p]; [discriminate|].
  destruct (reply _) as [e|response]; [discriminate|].
  unfold readReply.
  destruct (negb (code response =? 200)); [discriminate|].
  destruct (JSON_parse (body response)) as [e|data]; [discriminate|].
  destruct (extractResponse _ data) as [e|[text usage]]; [discriminate|].
  cbn [outcome]. unfold readClassification.
  destruct text as [| | | |t| |]; try discriminate.
  destruct (JsonMatch.jsonMatch t) as [json|]; [|discriminate].
  destruct (JSON_parse json) as [e|parsed]; [discriminate|]. cbn [bindT].
  eauto.
Qed.

Section Results.
Context {E : Type}.
Variable classifyFn : Term -> string -> JsValue -> E -> Attempt E.
Variable maxRetries : Z.
Variables (apiKey : string) (modelVersion : JsValue).
(** A property of every object the classifier returns. *)
Variable valid : gmap string JsValue -> Prop.
Hypothesis returns_valid : forall term e o,
  outcome (classifyFn term apiKey modelVersion e) = Return o -> valid o.

Lemma attempts_error_or_valid term remaining : forall attempt w,
  Z.of_nat remaining = maxRetries - attempt -> (1 <= remaining)%nat ->
  let r := fst (attempts classifyFn maxRetries apiKey modelVersion term
                  remaining attempt w) in
  (exists error, r = JObj (errorResult term error))
  \/ (exists o duration, r = JObj (successResult o term duration) /\ valid o).
Proof.
  induction remaining as [|k IH]; intros attempt w Hr H1; [lia|].
  cbn [attempts].
  destruct (outcome (classifyFn term apiKey modelVersion (ext w)))
    as [error|o] eqn:O.
  - destruct (attempt =? maxRetries - 1) eqn:Q.
    + left. eauto.
    + apply Z.eqb_neq in Q. apply IH; lia.
  - right. eexists _, _. split; [reflexivity|]. eapply returns_valid, O.
Qed.

Lemma mapTerms_error_or_valid terms : forall w,
  1 <= maxRetries ->
  Forall2 (fun term r =>
             (exists error, r = JObj (errorResult term error))
             \/ (exists o duration,
                   r = JObj (successResult o term duration) /\ valid o))
    terms (fst (mapTerms classifyFn maxRetries apiKey modelVersion terms w)).
Proof.
  induction terms as [|term rest IH]; intros w Hmax; cbn [mapTerms].
  - constructor.
  - pose proof (attempts_error_or_valid term (Z.to_nat maxRetries) 0 w
                  ltac:(lia) ltac:(lia)) as R. cbv zeta in R.
    fold (classifyWithRetry classifyFn maxRetries apiKey modelVersion term w) in R.
    destruct (classifyWithRetry _ _ _ _ term w) as [r w1]. cbn [fst] in R.
    specialize (IH w1 Hmax).
    destruct (mapTerms _ _ _ _ rest w1) as [rs w2]. cbn [fst] in *.
    now constructor.
Qed.

End Results.

(** The contract of the results, whatever the host answers: for validated
    settings every term has a result object with that term, which is either
    the error result (category ["ERROR"], confidence 0, no duration, the
    text of an error) or a classification with a category of [CATEGORIES], a
    number as confidence that is neither below 0 nor above 1, and a
    duration. *)
Theorem results_are_well_formed `{Host} (read settings : Settings)
    (apiKey : string) (w : World Net) :
  readAndValidateSettings read = Return settings ->
  exists results,
    fst (classifyTerms settings apiKey w) = Return results
    /\ Forall2
         (fun term r =>
            exists o,
              r = JObj o /\ o !! "term" = Some (JStr term)
              /\ ((o !! "category" = Some (JStr "ERROR")
                   /\ o !! "confidence" = Some (JNum zero)
                   /\ o !! "duration" = None
                   /\ exists error, o !! "error" = Some (JStr (Error_toString error)))
                  \/ (exists c x duration,
                        o !! "category" = Some (JStr c) /\ In c CATEGORIES
                        /\ o !! "confidence" = Some (JNum x)
                        /\ lt x zero = false /\ gt x one = false
                        /\ o !! "duration" = Some (JNum duration))))
         (topTerms settings) results.
Proof.
  intros V. destruct (validated_settings read settings V) as (_ & _ & mv & Hmv).
  unfold classifyTerms. rewrite Hmv.
  pose proof (mapTerms_error_or_valid (getClassifierFunction (model settings))
                MAX_RETRIES apiKey mv
                (fun o => exists parsed, validateResponse parsed = Return o)
                (fun term n o => classifyTerm_returns term apiKey mv n o)
                (topTerms settings) w ltac:(unfold MAX_RETRIES; lia)) as F.
  destruct (mapTerms _ _ _ _ _ w) as [results w']. cbn [fst] in *.
  exists results. split; [reflexivity|].
  eapply Forall2_impl; [exact F|]. clear F.
  intros term r [(error & ->)|(o & duration & -> & parsed & Hv)].
  - eexists. split; [reflexivity|].
    destruct (errorResult_fields term error) as (Ft & Fc & Fx & Fd & Fe).
    split; [exact Ft|]. left. repeat split; try assumption. eauto.
  - eexists. split; [reflexivity|].
    destruct (successResult_fields o term duration) as (Ft & Fd & Fo).
    split; [exact Ft|]. right.
    destruct (validateResponse_valid parsed o Hv) as ((c & Hc & Hin) & (x & Hx & H0 & H1)).
    exists c, x, duration.
    rewrite !Fo by discriminate. repeat split; assumption.
Qed.

Lemma results_are_well_formed_witness :
  exists results,
    fst (classifyTerms (H := Samples.host_429_twice)
           (Samples.settings_openai ["best running shoes"]) "sk-test" world_initial)
    = Return results
    /\ length results = 1%nat.
Proof.
  destruct (results_are_well_formed (H := Samples.host_429_twice)
              (Samples.settings_openai ["best running shoes"])
              (Samples.settings_openai ["best running shoes"])
              "sk-test" world_initial eq_refl) as (results & Hr & F).
  exists results. split; [exact Hr|].
  symmetry. exact (Forall2_length _ _ _ F).
Defined.

Lemma configuration_errors_stop_the_run_witness :
  let run := main (H := Samples.host_local) (Samples.settings_openai []) ∅ ∅
               world_initial in
  run_fatal run = Some (new_Error "No search terms found")
  /\ run_world run = world_initial.
Proof.
  destruct (configuration_errors_stop_the_run (H := Samples.host_local)
              (Samples.settings_openai []) ∅ ∅ world_initial
              (new_Error "No search terms found")) as (Hf & Hw & _).
  - left. reflexivity.
  - split; assumption.
Defined.

(** A call of [classifyTerm] that returns has sent its request. *)
Lemma classifyTerm_returns_sent `{Host} term apiKey modelConfig (n : Net) o :
  outcome (classifyTerm term apiKey modelConfig n) = Return o ->
  length (sent (after (classifyTerm term apiKey modelConfig n)))
  = (length (sent n) + 1)%nat.
Proof.
  unfold classifyTerm.
  destruct (modelTypeOf modelConfig) as [e|p]; [discriminate|].
  destruct (reply _) as [e|response]; [discriminate|].
  destruct (readReply _ _ _). cbn [after sent]. intros _.
  now rewrite length_app.
Qed.

(** A healthy provider, one whose reply to every request yields a valid
    classification: every term is classified at its first attempt, with one
    request for each term and no back-off; every result is the validated
    object of the reply with the term and the duration, and none is an
    error result. *)
Theorem healthy_provider_run `{Host} (settings : Settings) (apiKey : string)
    (modelVersion : JsValue) (w : World Net) :
  modelVersionOf settings = Return modelVersion ->
  (forall term n,
      exists o, outcome (classifyTerm term apiKey modelVersion n) = Return o) ->
  let run := classifyTerms settings apiKey w in
  let terms := topTerms settings in
  trace (snd run) = trace w ++ map Attempted terms
  /\ sleptTotal (map Attempted terms) = 0
  /\ length (sent (ext (snd run))) = (length (sent (ext w)) + length terms)%nat
  /\ exists results,
       fst run = Return results
       /\ Forall2 (fun term r =>
                     exists o duration c,
                       r = JObj (successResult o term duration)
                       /\ o !! "category" = Some (JStr c) /\ In c CATEGORIES
                       /\ ~ isErrorResult term r)
            terms results.
Proof.
  intros Hmv Hok run terms. subst run. unfold classifyTerms. rewrite Hmv.
  destruct (mapTerms_always_return (getClassifierFunction (model settings))
              MAX_RETRIES apiKey modelVersion (fun n => length (sent n)))
    with (terms := terms) (w := w) as (F & Ht & Hs).
  { intros term n. destruct (Hok term n) as [o Ho]. exists o.
    split; [exact Ho|]. now apply classifyTerm_returns_sent with (o := o). }
  { unfold MAX_RETRIES. lia. }
  fold terms. destruct (mapTerms _ _ _ _ terms w) as [results w']. cbn [fst snd] in *.
  split; [exact Ht|]. split.
  { clear. induction terms as [|t ts IH]; [reflexivity|exact IH]. }
  split; [exact Hs|]. exists results. split; [reflexivity|].
  eapply Forall2_impl; [exact F|]. clear F.
  intros term r (o & duration & n & -> & Ho).
  destruct (classifyTerm_returns term apiKey modelVersion n o Ho) as [parsed Hv].
  destruct (validateResponse_valid parsed o Hv) as ((c & Hc & Hin) & _).
  exists o, duration, c. repeat split; try assumption.
  intros [error Q]. injection Q as Q.
  assert (D : successResult o term duration !! "duration"
              = errorResult term error !! "duration") by now rewrite Q.
  destruct (successResult_fields o term duration) as (_ & Fd & _).
  destruct (errorResult_fields term error) as (_ & _ & _ & Ed & _).
  rewrite Fd, Ed in D. discriminate D.
Qed.

Lemma healthy_provider_run_witness :
  let run := classifyTerms (H := Samples.host_local)
               (Samples.settings_openai ["cafe near me"; "red shoes"]) "sk-test"
               world_initial in
  trace (snd run) = [Attempted "cafe near me"; Attempted "red shoes"]
  /\ length (sent (ext (snd run))) = 2%nat.
Proof.
  destruct (healthy_provider_run (H := Samples.host_local)
              (Samples.settings_openai ["cafe near me"; "red shoes"]) "sk-test"
              (JStr "gpt-4-1106-preview") world_initial)
    as (Ht & _ & Hs & _).
  - reflexivity.
  - intros term n. eexists. reflexivity.
  - split; [exact Ht|exact Hs].
Defined.

(** [validateResponse] changes at most the confidence of the object, what
    it returns has a number as confidence that is neither below 0 nor above
    1, and validating what it returned returns it again, unchanged. *)
Theorem validateResponse_idempotent `{Host} (result : JsValue)
    (o : gmap string JsValue) :
  validateResponse result = Return o ->
  validateResponse (JObj o) = Return o
  /\ (exists o0,
        result = JObj o0
        /\ (o = o0 \/ o = <["confidence" := JNum half]> o0)
        /\ forall k, k <> "confidence" -> o !! k = o0 !! k)
  /\ (exists x,
        o !! "confidence" = Some (JNum x) /\ lt x zero = false /\ gt x one = false).
Proof.
  intros V. destruct result as [| | | | | |o0]; try discriminate V.
  cbn [validateResponse] in V.
  destruct (category_rejected (Js.field o0 "category")) eqn:C; [discriminate V|].
  destruct (confidence_rejected (Js.field o0 "confidence")) eqn:R;
    injection V as <-.
  - repeat split.
    + rewrite validateResponse_object.
      * unfold Js.field at 1. rewrite lookup_insert_eq. reflexivity.
      * unfold Js.field. rewrite lookup_insert_ne by discriminate. exact C.
    + exists o0. repeat split; [now right|].
      intros k Hk. now rewrite lookup_insert_ne by congruence.
    + exists half. rewrite lookup_insert_eq. repeat split.
  - repeat split.
    + rewrite validateResponse_object by exact C. now rewrite R.
    + exists o0. repeat split. now left.
    + unfold Js.field in R.
      destruct (o0 !! "confidence") as [[| | |x| | |]|]; try discriminate R.
      exists x. simpl in R. apply orb_false_iff in R as [R1 R2]. now repeat split.
Qed.

Lemma validateResponse_idempotent_witness :
  validateResponse (H := Samples.host_local)
    (JObj (<["confidence" := JNum half]> Samples.commercial_seven))
  = Return (<["confidence" := JNum half]> Samples.commercial_seven).
Proof.
  apply (validateResponse_idempotent (H := Samples.host_local)
           (JObj Samples.commercial_seven)).
  reflexivity.
Defined.

End RunFacts.

(* ===================================================================== *)
(** ** The single-provider script: the request loop and the term loop *)
(* ===================================================================== *)

Module IntentRunFacts.
Import Classifier Measures DriverFacts BudgetFacts IntentClassifier.

Lemma sleptTotal_repeat ms k :
  sleptTotal (repeat (Slept ms) k) = ms * Z.of_nat k.
Proof.
  induction k as [|k IH]; [unfold sleptTotal; simpl; lia|].
  change (sleptTotal (repeat (Slept ms) (S k)))
    with (ms + sleptTotal (repeat (Slept ms) k)).
  rewrite IH. lia.
Qed.

Lemma repeat_snoc {A} (x : A) k : repeat x k ++ [x] = repeat x (S k).
Proof. induction k as [|k IH]; simpl; [reflexivity|]. now rewrite IH. Qed.

Section Loop.
Context `{Host}.
(** A call of [fetch] takes no negative time. *)
Hypothesis blocked_nonneg : forall n request, 0 <= blocked (UrlFetchApp_fetch n request).

(** More fuel does not change the result of a loop that ended. *)
Lemma retryLoop_more_fuel fuel : forall fuel' request startTime response w x,
  retryLoop fuel request startTime response w = Some x ->
  (fuel <= fuel')%nat ->
  retryLoop fuel' request startTime response w = Some x.
Proof.
  induction fuel as [|fuel IH]; intros fuel' request startTime response w x R L.
  - destruct fuel'; simpl in *;
      destruct (negb (code response =? 200) && (now w - startTime <? 30000));
      congruence.
  - destruct fuel' as [|fuel']; [lia|]. simpl in *.
    destruct (negb (code response =? 200) && (now w - startTime <? 30000));
      [|exact R].
    destruct (reply _) as [e|response']; [exact R|].
    apply IH; [exact R|lia].
Qed.

(** With [fuel] iterations allowed and at most [fuel] periods of five
    seconds left of the thirty, the loop ends: after [k] sleeps of five
    seconds and [k] more requests, with an exception of [fetch] or with the
    last reply, whose status is 200 unless the thirty seconds are over. *)
Lemma retryLoop_ends fuel : forall request startTime response w,
  30000 - 5000 * Z.of_nat fuel <= now w - startTime ->
  exists r w' k,
    retryLoop fuel request startTime response w = Some (r, w')
    /\ (k <= fuel)%nat
    /\ trace w' = trace w ++ repeat (Slept 5000) k
    /\ ext w' = ext w ++ repeat request k
    /\ now w <= now w'
    /\ match r with
       | inl e => exists n, reply (UrlFetchApp_fetch n request) = Throw e
       | inr response' =>
           (response' = response
            \/ exists n, reply (UrlFetchApp_fetch n request) = Return response')
           /\ (code response' <> 200 -> 30000 <= now w' - startTime)
       end.
Proof.
  induction fuel as [|fuel IH]; intros request startTime response w Hw;
    cbn [retryLoop].
  - replace (now w - startTime <? 30000) with false by (symmetry; apply Z.ltb_ge; lia).
    rewrite andb_false_r. exists (Return response), w, 0%nat.
    cbn [repeat]. rewrite !app_nil_r. repeat split; try lia. now left.
  - destruct (negb (code response =? 200) && (now w - startTime <? 30000)) eqn:C.
    + unfold fetch. cbn [Utilities_sleep ext now trace].
      pose proof (blocked_nonneg (length (ext w)) request) as B.
      destruct (reply (UrlFetchApp_fetch (length (ext w)) request))
        as [e|response'] eqn:R.
      * eexists (Throw e), _, 1%nat. split; [reflexivity|].
        cbn [ext now trace repeat]. repeat split; try lia. eauto.
      * destruct (IH request startTime response'
                    {| ext := ext w ++ [request];
                       now := now w + 5000 + blocked (UrlFetchApp_fetch (length (ext w)) request);
                       trace := trace w ++ [Slept 5000] |})
          as (r & w' & k & Hr & Hk & Ht & He & Hn & Hres).
        { cbn [now]. lia. }
        exists r, w', (S k). split; [exact Hr|].
        cbn [ext now trace] in *.
        repeat split; try lia.
        -- rewrite Ht, <- app_assoc. reflexivity.
        -- rewrite He, <- app_assoc. reflexivity.
        -- destruct r as [e|response'']; [exact Hres|].
           destruct Hres as [[->|Hn'] Hc]; split; eauto.
    + exists (Return response), w, 0%nat.
      cbn [repeat]. rewrite !app_nil_r. repeat split; try lia. now left.
Qed.

Lemma reportFailure_masks responseContent :
  reportFailure responseContent
  = Throw (new_Error "Failed to parse the OpenAI API error response.").
Proof.
  unfold reportFailure.
  destruct (JSON_parse responseContent) as [e|errorResponse]; [reflexivity|].
  cbn [bindT].
  destruct (Js.get errorResponse "error") as [e|error]; [reflexivity|].
  cbn [bindT].
  destruct (Js.get error "message") as [e|message]; reflexivity.
Qed.

(** One call of [generateTextOpenAI] with six iterations allowed. *)
Lemma generateTextOpenAI_step prompt apiKey model w fuel :
  (6 <= fuel)%nat ->
  let request := httpOptions prompt apiKey model in
  exists result w' k,
    generateTextOpenAI fuel prompt apiKey model w = Some (result, w')
    /\ generateTextOpenAI 6 prompt apiKey model w = Some (result, w')
    /\ (k <= 6)%nat
    /\ trace w' = trace w ++ repeat (Slept 5000) k
    /\ ext w' = ext w ++ repeat request (S k)
    /\ ((exists n e,
           reply (UrlFetchApp_fetch n request) = Throw e /\ result = Throw e)
        \/ (exists n response,
              reply (UrlFetchApp_fetch n request) = Return response
              /\ if code response =? 200
                 then result = readText (body response)
                 else result
                      = Throw (new_Error "Failed to parse the OpenAI API error response.")
                      /\ 30000 <= now w' - now w)).
Proof.
  intros Hfuel request.
  assert (Hsix : exists result w' k,
             generateTextOpenAI 6 prompt apiKey model w = Some (result, w')
             /\ (k <= 6)%nat
             /\ trace w' = trace w ++ repeat (Slept 5000) k
             /\ ext w' = ext w ++ repeat request (S k)
             /\ ((exists n e,
                    reply (UrlFetchApp_fetch n request) = Throw e /\ result = Throw e)
                 \/ (exists n response,
                       reply (UrlFetchApp_fetch n request) = Return response
                       /\ if code response =? 200
                          then result = readText (body response)
                          else result
                               = Throw (new_Error "Failed to parse the OpenAI API error response.")
                               /\ 30000 <= now w' - now w))).
  { unfold generateTextOpenAI, fetch. fold request.
    pose proof (blocked_nonneg (length (ext w)) request) as B.
    destruct (reply (UrlFetchApp_fetch (length (ext w)) request))
      as [e|response] eqn:R.
    - eexists (Throw e), _, 0%nat. split; [reflexivity|].
      cbn [ext trace repeat]. rewrite app_nil_r. repeat split; try lia.
      left. eauto.
    - set (w1 := {| ext := ext w ++ [request];
                    now := now w + blocked (UrlFetchApp_fetch (length (ext w)) request);
                    trace := trace w |}).
      destruct (retryLoop_ends 6 request (now w1) response w1 ltac:(simpl; lia))
        as (r & w' & k & Hr & Hk & Ht & He & Hn & Hres).
      rewrite Hr. destruct r as [e|response'].
      + destruct Hres as [n Hn']. exists (Throw e), w', k.
        split; [reflexivity|]. subst w1. cbn [ext trace now] in *.
        repeat split; try assumption.
        * rewrite He, <- app_assoc. reflexivity.
        * left. eauto.
      + destruct Hres as [Hfrom Hc]. eexists _, w', k.
        split; [reflexivity|]. subst w1. cbn [ext trace now] in *.
        repeat split; try assumption.
        * rewrite He, <- app_assoc. reflexivity.
        * right.
          assert (Hn' : exists n,
                     reply (UrlFetchApp_fetch n request) = Return response')
            by (destruct Hfrom as [->|Hn']; eauto).
          destruct Hn' as [n Hn']. exists n, response'. split; [exact Hn'|].
          destruct (code response' =? 200) eqn:Q; [reflexivity|].
          apply Z.eqb_neq in Q. cbn [negb].
          split; [apply reportFailure_masks|]. specialize (Hc Q). lia. }
  destruct Hsix as (result & w' & k & Hg & Hrest).
  exists result, w', k. split; [|split; [exact Hg|exact Hrest]].
  unfold generateTextOpenAI in *. fold request in Hg |- *.
  destruct (fetch request w) as [[e|response] w1]; [exact Hg|].
  destruct (retryLoop 6 request (now w1) response w1) as [x|] eqn:R6;
    [|discriminate Hg].
  now rewrite (retryLoop_more_fuel 6 fuel request (now w1) response w1 x R6 Hfuel).
Qed.

(** The loop over the terms, with six iterations of the request loop
    allowed for each term. *)
Lemma classifyLoop_ends model fuel terms : forall w,
  (6 <= fuel)%nat ->
  exists results w' added,
    classifyLoop fuel model terms w = Some (results, w')
    /\ classifyLoop 6 model terms w = Some (results, w')
    /\ map searchTerm results = terms
    /\ trace w' = trace w ++ added
    /\ 0 <= sleptTotal added <= 31000 * Z.of_nat (length terms)
    /\ (length (ext w) + length terms <= length (ext w')
        <= length (ext w) + 7 * length terms)%nat
    /\ ((forall n request response,
            reply (UrlFetchApp_fetch n request) = Return response ->
            code response <> 200) ->
        Forall (fun r => classified r = {| category := JStr "Error";
                                           confidence := JNum zero |}) results
        /\ Forall (fun ms => ms = 5000) (sleeps added)).
Proof.
  induction terms as [|term rest IH]; intros w Hfuel.
  - exists [], w, []. cbn [classifyLoop map length]. rewrite app_nil_r.
    change (sleptTotal []) with 0. repeat split; try lia; constructor.
  - cbn [classifyLoop].
    destruct (generateTextOpenAI_step (createClassificationPrompt term)
                OPENAI_API_KEY model w fuel Hfuel)
      as (result & w1 & k & Hg & Hg6 & Hk & Ht & He & Hcases).
    rewrite Hg, Hg6.
    assert (Hl : length (ext w1) = (length (ext w) + S k)%nat)
      by (rewrite He, length_app, repeat_length; reflexivity).
    destruct result as [error|apiResponse].
    + destruct (IH w1 Hfuel)
        as (results & w' & added & Hc & Hc6 & Hm & Ht' & Hs & Hx & Hdown).
      rewrite Hc, Hc6. cbn [option_map].
      eexists _, w', (repeat (Slept 5000) k ++ added).
      split; [reflexivity|]. split; [reflexivity|].
      cbn [map searchTerm length]. rewrite Hm, Ht', Ht, <- app_assoc.
      rewrite sleptTotal_app, sleptTotal_repeat.
      repeat split; try lia.
      * constructor; [reflexivity|]. now apply Hdown.
      * rewrite sleeps_app. apply Forall_app. split; [|now apply Hdown].
        clear. induction k; constructor; auto.
    + set (w2 := match rest with
                 | [] => w1
                 | _ :: _ => Utilities_sleep 1000 w1
                 end).
      assert (Hw2 : exists pause,
                 trace w2 = trace w1 ++ pause /\ ext w2 = ext w1
                 /\ 0 <= sleptTotal pause <= 1000).
      { subst w2. destruct rest.
        - exists []. rewrite app_nil_r. change (sleptTotal []) with 0.
          repeat split; lia.
        - exists [Slept 1000]. change (sleptTotal [Slept 1000]) with 1000.
          repeat split; lia. }
      destruct Hw2 as (pause & Hp & Hpe & Hps).
      destruct (IH w2 Hfuel)
        as (results & w' & added & Hc & Hc6 & Hm & Ht' & Hs & Hx & Hdown).
      rewrite Hc, Hc6. cbn [option_map].
      eexists _, w', (repeat (Slept 5000) k ++ pause ++ added).
      split; [reflexivity|]. split; [reflexivity|].
      cbn [map searchTerm length]. rewrite Hm, Ht', Hp, Ht, <- !app_assoc.
      rewrite !sleptTotal_app, sleptTotal_repeat. rewrite Hpe in Hx.
      repeat (split; [solve [reflexivity | lia]|]).
      intros Hd. exfalso.
      destruct Hcases as [(n & e & _ & Q)|(n & response & R & Q)];
        [discriminate Q|].
      pose proof (Hd _ _ _ R) as Hne. apply Z.eqb_neq in Hne.
      rewrite Hne in Q. destruct Q as [Q _]. discriminate Q.
Qed.

End Loop.

(** [generateTextOpenAI] always ends when a request takes no negative
    time: six iterations of its loop are enough, whatever the replies.  It
    sends the same request at most seven times and sleeps at most six times
    five seconds.  It ends with an exception of [fetch], with the text read
    from a reply of status 200, or, when the last reply has another status
    and thirty seconds are over, with the error ["Failed to parse the OpenAI
    API error response."]: the message of the API's own error is never
    passed on. *)
Theorem generateTextOpenAI_ends `{Host} (prompt apiKey model : string)
    (w : Wire) (fuel : nat) :
  (forall n request, 0 <= blocked (UrlFetchApp_fetch n request)) ->
  (6 <= fuel)%nat ->
  let request := httpOptions prompt apiKey model in
  exists result w' k,
    generateTextOpenAI fuel prompt apiKey model w = Some (result, w')
    /\ generateTextOpenAI 6 prompt apiKey model w = Some (result, w')
    /\ (k <= 6)%nat
    /\ trace w' = trace w ++ repeat (Slept 5000) k
    /\ ext w' = ext w ++ repeat request (S k)
    /\ ((exists n e,
           reply (UrlFetchApp_fetch n request) = Throw e /\ result = Throw e)
        \/ (exists n response,
              reply (UrlFetchApp_fetch n request) = Return response
              /\ if code response =? 200
                 then result = readText (body response)
                 else result
                      = Throw (new_Error "Failed to parse the OpenAI API error response.")
                      /\ 30000 <= now w' - now w)).
Proof.
  intros Hb Hfuel. now apply generateTextOpenAI_step.
Qed.

Lemma generateTextOpenAI_ends_witness :
  exists w',
    generateTextOpenAI (H := Samples.host_down) 6 "classify: red shoes" "sk-test"
      "gpt-4o-mini" {| ext := []; now := 0; trace := [] |}
    = Some (Throw (new_Error "Failed to parse the OpenAI API error response."), w')
    /\ length (ext w') = 7%nat.
Proof.
  destruct (generateTextOpenAI_ends (H := Samples.host_down) "classify: red shoes"
              "sk-test" "gpt-4o-mini" {| ext := []; now := 0; trace := [] |} 6)
    as (result & w' & k & Hg & _ & Hk & _ & He & Hcases).
  - intros n request. simpl. lia.
  - lia.
  - exists w'. rewrite Hg.
    destruct Hcases as [(n & e & R & _)|(n & response & R & Q)];
      [discriminate R|].
    simpl in R. injection R as <-. simpl in Q. destruct Q as [-> _].
    split; [reflexivity|].
    assert (E : ext w' = repeat (httpOptions "classify: red shoes" "sk-test"
                                   "gpt-4o-mini") 7)
      by (vm_compute in Hg; injection Hg as <-; reflexivity).
    rewrite E. reflexivity.
Defined.

(** [classifySearchTerms] always returns when a request takes no negative
    time, with one element for each search term, in order, whatever the
    replies: a term that could not be classified gets the category
    ["Error"].  Each term costs at least one and at most seven requests, and
    at most 31 seconds of sleep.  When no reply has status 200, every
    element has the category ["Error"] and the confidence 0, and the
    one-second pause between terms is never taken. *)
Theorem classifySearchTerms_ends `{Host} (searchTerms : list JsValue)
    (w : Wire) (fuel : nat) :
  (forall n request, 0 <= blocked (UrlFetchApp_fetch n request)) ->
  (6 <= fuel)%nat ->
  exists results w' added,
    classifySearchTerms fuel searchTerms w = Some (results, w')
    /\ classifySearchTerms 6 searchTerms w = Some (results, w')
    /\ map searchTerm results = searchTerms
    /\ trace w' = trace w ++ added
    /\ 0 <= sleptTotal added <= 31000 * Z.of_nat (length searchTerms)
    /\ (length (ext w) + length searchTerms <= length (ext w')
        <= length (ext w) + 7 * length searchTerms)%nat
    /\ ((forall n request response,
            reply (UrlFetchApp_fetch n request) = Return response ->
            code response <> 200) ->
        Forall (fun r => classified r = {| category := JStr "Error";
                                           confidence := JNum zero |}) results
        /\ Forall (fun ms => ms = 5000) (sleeps added)).
Proof.
  intros Hb Hfuel. unfold classifySearchTerms. now apply classifyLoop_ends.
Qed.

Lemma classifySearchTerms_ends_witness :
  exists results w',
    classifySearchTerms (H := Samples.host_down) 6
      [JStr "red shoes"; JStr "blue shoes"] {| ext := []; now := 0; trace := [] |}
    = Some (results, w')
    /\ map searchTerm results = [JStr "red shoes"; JStr "blue shoes"].
Proof.
  destruct (classifySearchTerms_ends (H := Samples.host_down)
              [JStr "red shoes"; JStr "blue shoes"]
              {| ext := []; now := 0; trace := [] |} 6)
    as (results & w' & added & Hc & _ & Hm & _).
  - intros n request. simpl. lia.
  - lia.
  - exists results, w'. split; [exact Hc|exact Hm].
Defined.

End IntentRunFacts.

(* ===================================================================== *)
(** ** The older three-model script: a run *)
(* ===================================================================== *)

Module OlderScriptFacts.
Import Classifier Measures DriverFacts BudgetFacts RunFacts.

(** The older script cannot classify with any model of its own table.
    Its settings are accepted, but the endpoint is looked up by searching
    the model name for [openai], [anthropic] or [google], and no model name
    of the table contains one of them: every call of [classifyTerm] throws
    ["Unknown model type"] before a request is built.  Every term is tried
    three times, with the two back-offs, and gets the ["ERROR"] result with
    that message; nothing is sent and no token is counted. *)
Theorem older_script_classifies_nothing `{Host} (settings : Settings)
    (apiKey : string) (w : World ThreeModelsV1.Net) :
  In (model settings) ["openai"; "anthropic"; "google"] ->
  let run := ThreeModelsV1.classifyTerms settings apiKey w in
  exists name,
    In name ThreeModelsV1.modelNames
    /\ ThreeModelsV1.modelVersionOf settings = Return (JStr name)
    /\ (topTerms settings <> [] ->
        ThreeModelsV1.readAndValidateSettings settings = Return settings)
    /\ fst run
       = Return (map (fun term =>
                        JObj (errorResult term
                                (new_Error ("Unknown model type: " +:+ name))))
                   (topTerms settings))
    /\ ext (snd run) = ext w
    /\ trace (snd run) = trace w ++ failedTrace MAX_RETRIES (topTerms settings).
Proof.
  intros Hin run.
  assert (Hname : exists name,
             In name ThreeModelsV1.modelNames
             /\ ThreeModelsV1.modelTypeOf name = None
             /\ ThreeModelsV1.MODELS_at (model settings) <> Absent
             /\ ThreeModelsV1.modelVersionOf settings = Return (JStr name)).
  { destruct settings as [m c t]. cbn [model] in Hin.
    destruct Hin as [<-|[<-|[<-|[]]]]; destruct c; eexists;
      (split; [|split; [|split; [|reflexivity]]]);
      try reflexivity; try discriminate; simpl; tauto. }
  destruct Hname as (name & Hn & Hd & Ha & Hmv).
  exists name. split; [exact Hn|]. split; [exact Hmv|]. split.
  { intros Ht. unfold ThreeModelsV1.readAndValidateSettings.
    destruct (topTerms settings); [congruence|].
    now destruct (ThreeModelsV1.MODELS_at (model settings)). }
  subst run. unfold ThreeModelsV1.classifyTerms. rewrite Hmv.
  set (error := new_Error ("Unknown model type: " +:+ name)).
  destruct (mapTerms_always_throw
              (ThreeModelsV1.getClassifierFunction (model settings)) MAX_RETRIES
              apiKey (JStr name) (fun n => n = ext w) (fun e => e = error)
              (fun _ => 0%nat) 0%nat) with (terms := topTerms settings) (w := w)
    as (F & Hi & Htr & _).
  { intros term n ->. exists error.
    unfold ThreeModelsV1.getClassifierFunction, ThreeModelsV1.classifyTerm.
    rewrite Hd. repeat split. }
  { unfold MAX_RETRIES. lia. }
  { reflexivity. }
  destruct (mapTerms _ _ _ _ _ w) as [results w']. cbn [fst snd] in *.
  repeat split; try assumption. f_equal.
  apply Forall2_fixed_error. eapply Forall2_impl; [exact F|].
  intros term r (e & -> & ->). reflexivity.
Qed.

Lemma older_script_classifies_nothing_witness :
  fst (ThreeModelsV1.classifyTerms (H := Samples.host_local)
         {| model := "openai"; cheap_flag := true; topTerms := ["red shoes"] |}
         "sk-test"
         {| ext := {| ThreeModelsV1.tokenCounts := ThreeModelsV1.tokenCounts_initial;
                      ThreeModelsV1.sent := [] |};
            now := 0; trace := [] |})
  = Return [JObj (errorResult "red shoes"
                    (new_Error "Unknown model type: gpt-4o-mini"))].
Proof.
  destruct (older_script_classifies_nothing (H := Samples.host_local)
              {| model := "openai"; cheap_flag := true; topTerms := ["red shoes"] |}
              "sk-test"
              {| ext := {| ThreeModelsV1.tokenCounts := ThreeModelsV1.tokenCounts_initial;
                           ThreeModelsV1.sent := [] |};
                 now := 0; trace := [] |})
    as (name & _ & Hmv & _ & Hr & _).
  - simpl. tauto.
  - injection Hmv as <-. exact Hr.
Defined.

End OlderScriptFacts.

(* ===================================================================== *)
(** ** The search-term report: what [main] writes *)
(* ===================================================================== *)

Module ReportMainFacts.
Import SearchTermReport.

Lemma calculateMetrics_rows rows :
  length (calculateMetrics rows) = length rows
  /\ forallb (fun r => (length r =? 14)%nat) (calculateMetrics rows) = true.
Proof.
  unfold calculateMetrics. rewrite length_map. split; [reflexivity|].
  induction rows as [|row rows IH]; [reflexivity|exact IH].
Qed.

(** Both scripts write one row of fourteen cells for each row of the
    report, in the order of the report, below the header row, and the
    range they ask for always has the dimensions of the data: [setValues]
    does not throw.  They differ when there is nothing to write: the first
    script has written its header row by then, also when the report itself
    fails; the second leaves the tab empty, without headers. *)
Theorem main_writes_report (rows : list ReportRow) (e : JsError) :
  First.main (Return rows)
  = (First.headers :: calculateMetrics rows,
     if (0 <? length rows)%nat then Wrote (length rows) else NoData)
  /\ Second.main (Return rows)
     = (if (0 <? length rows)%nat then Second.headers :: calculateMetrics rows
        else [],
        if (0 <? length rows)%nat then Wrote (length rows) else NoData)
  /\ First.main (Throw e) = ([First.headers], MainError e)
  /\ Second.main (Throw e) = ([], MainError e)
  /\ Forall (fun r => length r = length First.headers) (calculateMetrics rows)
  /\ length First.headers = 14%nat /\ length Second.headers = 14%nat.
Proof.
  destruct (calculateMetrics_rows rows) as [Hl Hc].
  repeat apply conj; try reflexivity.
  - unfold First.main. cbn [setValues First.headers length Nat.leb Nat.eqb
      forallb andb firstn repeat Nat.sub app].
    rewrite Hl. destruct rows as [|row rows]; [reflexivity|].
    cbn [length Nat.ltb Nat.leb]. unfold setValues.
    rewrite Hl. cbn [length]. rewrite Nat.eqb_refl.
    cbn [calculateMetrics map firstRowLength newRow length] in *.
    cbn [Nat.leb andb]. rewrite Hc. reflexivity.
  - unfold Second.main. rewrite Hl. destruct rows as [|row rows]; [reflexivity|].
    cbn [length Nat.ltb Nat.leb]. unfold setValues.
    cbn [length firstRowLength Second.headers]. rewrite Hl. cbn [length].
    rewrite Nat.eqb_refl. cbn [Nat.leb andb forallb Nat.eqb].
    cbn [forallb] in Hc. rewrite Hc. reflexivity.
  - apply List.Forall_forall. intros r Hr. rewrite forallb_forall in Hc.
    apply Hc in Hr. now apply Nat.eqb_eq in Hr.
Qed.

End ReportMainFacts.

(* ===================================================================== *)
(** ** The single-provider script: the summary report *)
(* ===================================================================== *)

Module SummaryFacts.
Import IntentClassifier.

Lemma countCategory_number counts key key' :
  existsb (String.eqb key') Classifier.Object_prototype_names = false ->
  notText counts key' ->
  numberAt (countCategory counts key) key'
  = (numberAt counts key' + if String.eqb key key' then 1 else 0)%nat
  /\ notText (countCategory counts key) key'.
Proof.
  intros Hk Hn. unfold numberAt, notText, countCategory.
  destruct (String.eqb_spec key key') as [->|Hne].
  - rewrite Hk. destruct (counts !! key') as [[n|ones]|] eqn:L.
    + rewrite lookup_insert_eq. split; [lia|congruence].
    + now destruct (Hn ones).
    + rewrite lookup_insert_eq. split; [lia|congruence].
  - destruct (counts !! key) as [[n|ones]|] eqn:L;
      [| |destruct (existsb (String.eqb key) _);
          [destruct (String.eqb key "__proto__")|]];
      rewrite ?lookup_insert_ne by congruence;
      (split; [destruct (counts !! key') as [[?|?]|]; lia|exact Hn]).
Qed.

Section Tally.
Context `{Host}.

Lemma tally_totals terms : forall t0,
  let t := fold_left tallyTerm terms t0 in
  totalClassified t
  = (totalClassified t0
     + length (List.filter (fun term => negb (isError term)) terms))%nat
  /\ errorsCount t = (errorsCount t0 + length (List.filter isError terms))%nat.
Proof.
  induction terms as [|term rest IH]; intros t0; cbn [fold_left List.filter].
  - cbn [length]. split; lia.
  - destruct (IH (tallyTerm t0 term)) as [IH1 IH2]. cbv zeta. rewrite IH1, IH2.
    unfold tallyTerm. destruct (isError term); cbn [negb length totalClassified
      errorsCount]; split; lia.
Qed.

Lemma tally_counts key terms : forall t0,
  existsb (String.eqb key) Classifier.Object_prototype_names = false ->
  notText (categoryCounts t0) key ->
  let t := fold_left tallyTerm terms t0 in
  numberAt (categoryCounts t) key
  = (numberAt (categoryCounts t0) key + occurrences key terms)%nat
  /\ notText (categoryCounts t) key.
Proof.
  induction terms as [|term rest IH]; intros t0 Hk Hn; cbv zeta;
    cbn [fold_left].
  - unfold occurrences. cbn [List.filter length]. split; [lia|exact Hn].
  - unfold occurrences. cbn [List.filter]. fold (occurrences key rest).
    unfold tallyTerm at 2 4. destruct (isError term); cbn [negb andb].
    + destruct (IH {| categoryCounts := categoryCounts t0;
                      totalClassified := totalClassified t0;
                      errorsCount := S (errorsCount t0) |} Hk Hn) as [IH1 IH2].
      split; [exact IH1|exact IH2].
    + destruct (countCategory_number (categoryCounts t0) (categoryKey term) key Hk Hn)
        as [C1 C2].
      destruct (IH {| categoryCounts := countCategory (categoryCounts t0)
                                          (categoryKey term);
                      totalClassified := S (totalClassified t0);
                      errorsCount := errorsCount t0 |} Hk C2) as [IH1 IH2].
      cbn [categoryCounts] in IH1, IH2. split; [|exact IH2].
      rewrite IH1, C1. unfold occurrences.
      destruct (String.eqb (categoryKey term) key); cbn [length]; lia.
Qed.

Lemma listedTotal_listed terms :
  listedTotal terms
  = length (List.filter (fun term => negb (isError term) && listed term) terms).
Proof.
  induction terms as [|term rest IH]; [reflexivity|].
  unfold listedTotal, occurrences, listed, INTENT_CATEGORIES in *.
  cbn [map fold_right existsb] in *. cbn [List.filter].
  destruct (isError term); cbn [negb andb]; [exact IH|].
  destruct (String.eqb_spec (categoryKey term) "Informational") as [E1|N1];
    destruct (String.eqb_spec (categoryKey term) "Navigational") as [E2|N2];
    destruct (String.eqb_spec (categoryKey term) "Transactional") as [E3|N3];
    destruct (String.eqb_spec (categoryKey term) "Commercial") as [E4|N4];
    try congruence; cbn [orb length]; lia.
Qed.

Lemma filter_and_le {A} (p q : A -> bool) (l : list A) :
  (length (List.filter (fun a => p a && q a) l) <= length (List.filter p l))%nat
  /\ (length (List.filter (fun a => p a && q a) l) = length (List.filter p l)
      <-> Forall (fun a => p a = true -> q a = true) l).
Proof.
  induction l as [|a l [IH1 IH2]]; cbn [List.filter].
  - split; [lia|]. split; [constructor|reflexivity].
  - destruct (p a) eqn:P, (q a) eqn:Q; cbn [andb length].
    + split; [lia|]. split.
      * intros E. constructor; [auto|]. apply IH2. lia.
      * intros F. inversion F; subst. f_equal. now apply IH2.
    + split; [lia|]. split.
      * intros E. lia.
      * intros F. inversion F; subst. rewrite P, Q in *. now specialize (H2 eq_refl).
    + split; [lia|]. split.
      * intros E. constructor; [congruence|]. now apply IH2.
      * intros F. inversion F; subst. now apply IH2.
    + split; [lia|]. split.
      * intros E. constructor; [congruence|]. now apply IH2.
      * intros F. inversion F; subst. now apply IH2.
Qed.

End Tally.

(** The summary accounts for every term exactly once: a term is counted as
    classified or as an error (also when the model itself answered the
    category ["Error"]), so the two totals add up to the number of terms.
    The count shown for a category of the list is the number of classified
    terms with that category.  Since a category outside the list is
    accepted, the four counts can add up to less than the total they are
    divided by; they add up to it exactly when every classified term has a
    category of the list.  The table has six rows, and a seventh for the
    errors when there are any. *)
Theorem summary_accounts_for_every_term `{Host} (terms : list ClassifiedTerm) :
  let t := tally terms in
  (totalClassified t + errorsCount t = length terms)%nat
  /\ errorsCount t = length (List.filter isError terms)
  /\ (forall c, In c INTENT_CATEGORIES ->
        countOf t c = number (occurrences c terms))
  /\ (listedTotal terms <= totalClassified t)%nat
  /\ (listedTotal terms = totalClassified t <->
      Forall (fun term => isError term = false ->
                          In (categoryKey term) INTENT_CATEGORIES) terms)
  /\ length (summaryRows t) = (if (0 <? errorsCount t)%nat then 7 else 6)%nat.
Proof.
  intros t. subst t. unfold tally.
  set (t0 := {| categoryCounts := ∅; totalClassified := 0; errorsCount := 0 |}).
  destruct (tally_totals terms t0) as [Ht He]. cbv zeta in Ht, He.
  cbn [t0 totalClassified errorsCount Nat.add] in Ht, He.
  destruct (filter_and_le (fun term => negb (isError term)) listed terms)
    as [Hle Hiff].
  split; [|split; [|split; [|split; [|split]]]].
  - rewrite Ht, He. clear. induction terms as [|term rest IH]; [reflexivity|].
    cbn [List.filter]. destruct (isError term); cbn [negb length]; lia.
  - exact He.
  - intros c Hc.
    assert (Hk : existsb (String.eqb c) Classifier.Object_prototype_names = false)
      by (simpl in Hc; repeat (destruct Hc as [<-|Hc]; [reflexivity|]);
          destruct Hc).
    assert (H0 : notText (categoryCounts t0) c)
      by (intros ones; subst t0; cbn [categoryCounts]; now rewrite lookup_empty).
    pose proof (tally_counts c terms t0 Hk H0) as P. cbv zeta in P.
    destruct P as [Hn Hnt].
    cbv zeta in Hn, Hnt. unfold countOf.
    unfold numberAt in Hn. subst t0. cbn [categoryCounts] in Hn.
    rewrite lookup_empty in Hn. cbn [Nat.add] in Hn.
    destruct (categoryCounts _ !! c) as [[n|ones]|] eqn:L.
    + now rewrite Hn.
    + now destruct (Hnt ones).
    + now rewrite <- Hn.
  - rewrite listedTotal_listed, Ht. exact Hle.
  - rewrite listedTotal_listed, Ht, Hiff. apply Forall_iff. intros term.
    unfold listed. rewrite negb_true_iff, existsb_exists. split.
    + intros F E. destruct (F E) as (c & Hc & Q).
      apply String.eqb_eq in Q. now rewrite Q.
    + intros F E. exists (categoryKey term). split; [now apply F|].
      apply String.eqb_refl.
  - unfold summaryRows.
    destruct (0 <? errorsCount (fold_left tallyTerm terms t0))%nat; reflexivity.
Qed.

End SummaryFacts.
